(** * mini-cloud: resource ledger, lifecycle manager and cluster scheduler

    A shallow embedding of the Go packages [internal/resourcemanager],
    [internal/docker], [internal/manager], [internal/cluster] and
    [internal/api].

    Conventions of the embedding.
    - Go maps are finite maps ([gmap]).  A [range] over a map visits the
      keys in an order the caller supplies (Go leaves the order
      unspecified) and reads each entry when it is reached.  The ledger's
      sum of the reserved memory, a 64-bit sum that does not depend on the
      order, is a fold over the map; its sum of the reserved CPU, a
      [float64] sum that does depend on it, takes the order.
    - Go's [int] and [int64] are 64-bit two's complement integers: a value
      is a [Z], and every addition and subtraction wraps ([Int64.wrap]).
    - [float64] is the binary64 format of IEEE 754 with its arithmetic
      (round to nearest, ties to even; infinities, signed zeros and NaN):
      a value is a primitive [float].
    - An [error] is its message; [fmt.Errorf("p: %w", err)] is the message
      prefixed with ["p: "].
    - The mutexes are not modelled: every operation runs to completion on
      the state it is given (one request at a time).
    - The Docker daemon is an abstract state machine ([docker.Client]); the
      clock ([time.Now]) and the id generator ([uuid.New]) are arguments. *)

From Stdlib Require Import ZArith Lia Floats.
From stdpp Require Import base option list gmap strings.

#[local] Open Scope Z_scope.
#[local] Set Warnings "-clear-no-such-hyp".
#[local] Set Warnings "-inexact-float".

(** ** 64-bit integers *)

Module Int64.

Definition min_int : Z := - 2 ^ 63.
Definition max_int : Z := 2 ^ 63 - 1.

(** The value a 64-bit register holds after a computation whose exact
    result is [z]. *)
Definition wrap (z : Z) : Z := (z + 2 ^ 63) mod 2 ^ 64 - 2 ^ 63.

Definition add (a b : Z) : Z := wrap (a + b).
Definition sub (a b : Z) : Z := wrap (a - b).

Definition in_range (z : Z) : Prop := min_int <= z <= max_int.

End Int64.

(** ** float64

    The comparisons, the conversion and the one constant of [math] the
    packages use.  Sums, differences and quotients are written with the
    operators of [float]. *)

Module F64.

(** [x <= y], [x < y] and [x > y]: false as soon as one side is NaN. *)
Definition le (x y : float) : bool := PrimFloat.leb x y.
Definition lt (x y : float) : bool := PrimFloat.ltb x y.
Definition gt (x y : float) : bool := PrimFloat.ltb y x.

(** [math.MaxFloat64], (2^53 - 1) * 2^971. *)
Definition MaxFloat64 : float := 0x1.fffffffffffffp+1023.

(** [float64(n)] for a 64-bit integer [n]: the nearest float, ties to
    even. *)
Definition of_int (n : Z) : float :=
  SF2Prim (binary_normalize prec emax n 0 false).

End F64.

(** ** package resourcemanager *)

Module resourcemanager.

Record ResourceSpec := mkResourceSpec {
  CPU : float;  (* in cores *)
  Memory : Z    (* in MB *)
}.

Record ResourceManager := mkResourceManager {
  TotalCPU : float;
  TotalMemory : Z;
  allocatedCPU : gmap string float;
  allocatedMemory : gmap string Z
}.

Definition NewResourceManager (cpu : float) (memory : Z) : ResourceManager :=
  {| TotalCPU := cpu; TotalMemory := memory;
     allocatedCPU := ∅; allocatedMemory := ∅ |}.

(** [usedCPU := 0.0; for _, v := range allocatedCPU { usedCPU += v }], the
    range reaching the keys in [order]: the amounts are added in that
    order, each sum rounded. *)
Definition sumCPU (order : list string) (m : gmap string float) : float :=
  foldl (λ usedCPU k,
           match m !! k with
           | Some v => (usedCPU + v)%float
           | None => usedCPU
           end)
    0%float order.

(** [usedMem := 0; for _, v := range allocatedMemory { usedMem += v }] *)
Definition sumMemory (m : gmap string Z) : Z :=
  map_fold (λ _ v acc, Int64.add acc v) 0 m.

(** In each of the four operations that sum the reserved CPU, [order] is
    the order in which that call's range over [allocatedCPU] reaches the
    keys. *)
Definition CanAllocate (order : list string) (rm : ResourceManager)
    (spec : ResourceSpec) : bool :=
  let usedCPU := sumCPU order (allocatedCPU rm) in
  let usedMem := sumMemory (allocatedMemory rm) in
  F64.le (usedCPU + CPU spec) (TotalCPU rm)
  && bool_decide (Int64.add usedMem (Memory spec) <= TotalMemory rm).

Definition Allocate (order : list string) (rm : ResourceManager) (id : string)
    (spec : ResourceSpec) : ResourceManager * bool :=
  let usedCPU := sumCPU order (allocatedCPU rm) in
  let usedMem := sumMemory (allocatedMemory rm) in
  if F64.gt (usedCPU + CPU spec) (TotalCPU rm)
     || bool_decide (Int64.add usedMem (Memory spec) > TotalMemory rm)
  then (rm, false)
  else ({| TotalCPU := TotalCPU rm; TotalMemory := TotalMemory rm;
           allocatedCPU := <[id := CPU spec]> (allocatedCPU rm);
           allocatedMemory := <[id := Memory spec]> (allocatedMemory rm) |},
        true).

Definition Release (rm : ResourceManager) (id : string) : ResourceManager :=
  {| TotalCPU := TotalCPU rm; TotalMemory := TotalMemory rm;
     allocatedCPU := delete id (allocatedCPU rm);
     allocatedMemory := delete id (allocatedMemory rm) |}.

Definition Usage (order : list string) (rm : ResourceManager) : ResourceSpec :=
  {| CPU := sumCPU order (allocatedCPU rm);
     Memory := sumMemory (allocatedMemory rm) |}.

Definition AllocatedCPUSum (order : list string) (rm : ResourceManager)
  : float :=
  sumCPU order (allocatedCPU rm).

Definition AllocatedMemorySum (rm : ResourceManager) : Z :=
  sumMemory (allocatedMemory rm).

End resourcemanager.

(** ** package docker *)

Module docker.

Definition error := string.

Record ContainerSpec := mkContainerSpec {
  Image : string;
  Name : string;
  CPU : float;          (* in cores *)
  Memory : Z;           (* in MB *)
  Command : list string;
  TTL : Z               (* time.Duration, nanoseconds *)
}.

(** The Docker SDK client behind [DockerClient.cli]: the daemon's state is
    [D], and every call returns the daemon's next state with its answer.
    [ContainerCreate] is given the whole spec (the image, command, limits
    and name the wrapper passes on are all read from it). *)
Class Client (D : Type) := {
  ImagePull : D → string → D * option error;
  ContainerCreate : D → ContainerSpec → D * (string + error);
  ContainerStart : D → string → D * option error;
  ContainerStop : D → string → D * option error;
  ContainerRemove : D → string → D * option error
}.

Section wrappers.
Context {D : Type} `{Client D}.

Definition PullImage (d : D) (image : string) : D * option error :=
  ImagePull d image.

Definition CreateContainer (d : D) (spec : ContainerSpec)
  : D * (string * option error) :=
  match ContainerCreate d spec with
  | (d', inr err) => (d', (EmptyString, Some err))
  | (d', inl id) => (d', (id, None))
  end.

Definition StartContainer (d : D) (id : string) : D * option error :=
  ContainerStart d id.

Definition StopContainer (d : D) (id : string) : D * option error :=
  ContainerStop d id.

Definition RemoveContainer (d : D) (id : string) : D * option error :=
  ContainerRemove d id.

End wrappers.

End docker.

(** ** package manager *)

Module manager.

Import resourcemanager.

(** ContainerInfo holds metadata about a running container.  [CreatedAt]
    is an instant in nanoseconds, [TTL] a duration in nanoseconds. *)
Record ContainerInfo := mkContainerInfo {
  ID : string;
  Name : string;
  Image : string;
  CPU : float;
  MemoryMB : Z;
  CreatedAt : Z;
  Status : string;
  TTL : Z
}.

(** Manager controls the lifecycle of containers.  [resources] is the
    ledger the [resources] pointer refers to; the daemon behind [docker] is
    passed to every operation. *)
Record Manager := mkManager {
  state : gmap string ContainerInfo;
  resources : ResourceManager
}.

Definition NewManager (rm : ResourceManager) : Manager :=
  {| state := ∅; resources := rm |}.

Definition with_resources (m : Manager) (rm : ResourceManager) : Manager :=
  {| state := state m; resources := rm |}.

Definition AddContainer (m : Manager) (id : string) (info : ContainerInfo)
  : Manager :=
  {| state := <[id := info]> (state m); resources := resources m |}.

(** What a Go function returning a [ContainerInfo] pointer and an [error]
    gives back: each of the two may be nil. *)
Definition result : Type := option ContainerInfo * option docker.error.

(** The lines the expiration sweep prints. *)
Inductive SweepEvent :=
| FailedAutoTerminate (id : string) (err : docker.error)
| AutoTerminated (id : string).

Section operations.
Context {D : Type} `{docker.Client D}.

(** ProvisionContainer creates and starts a container; [now] is the value
    of [time.Now()] when the record is built, [canOrder] and [allocOrder]
    the orders in which CanAllocate and then Allocate range over the
    reserved CPU. *)
Definition ProvisionContainer (now : Z) (canOrder allocOrder : list string)
    (m : Manager) (d : D) (spec : docker.ContainerSpec)
  : Manager * D * result :=
  let rSpec :=
    {| resourcemanager.CPU := docker.CPU spec;
       resourcemanager.Memory := docker.Memory spec |} in
  if negb (CanAllocate canOrder (resources m) rSpec) then
    (m, d, (None, Some "insufficient resources to allocate container"%string))
  else
    let '(rm1, ok) :=
      Allocate allocOrder (resources m) (docker.Name spec) rSpec in
    if negb ok then
      (with_resources m rm1, d,
       (None, Some "failed to reserve resources"%string))
    else
      let '(d1, err) := docker.PullImage d (docker.Image spec) in
      match err with
      | Some e =>
          (with_resources m (Release rm1 (docker.Name spec)), d1,
           (None, Some ("failed to pull image: " +:+ e)))
      | None =>
          let '(d2, (id, err)) := docker.CreateContainer d1 spec in
          match err with
          | Some e =>
              (with_resources m (Release rm1 (docker.Name spec)), d2,
               (None, Some ("failed to create container: " +:+ e)))
          | None =>
              let '(d3, err) := docker.StartContainer d2 id in
              match err with
              | Some e =>
                  (with_resources m (Release rm1 (docker.Name spec)), d3,
                   (None, Some ("failed to start container: " +:+ e)))
              | None =>
                  let info :=
                    {| ID := id;
                       Name := docker.Name spec;
                       Image := docker.Image spec;
                       CPU := docker.CPU spec;
                       MemoryMB := docker.Memory spec;
                       CreatedAt := now;
                       Status := "running";
                       TTL := docker.TTL spec |} in
                  ({| state := <[id := info]> (state m); resources := rm1 |},
                   d3, (Some info, None))
              end
          end
      end.

(** TerminateContainer stops and removes a container. *)
Definition TerminateContainer (m : Manager) (d : D) (id : string)
  : Manager * D * option docker.error :=
  match state m !! id with
  | None => (m, d, Some "container not found"%string)
  | Some info =>
      let '(d1, err) := docker.StopContainer d id in
      match err with
      | Some e => (m, d1, Some ("stop error: " +:+ e))
      | None =>
          let '(d2, err) := docker.RemoveContainer d1 id in
          match err with
          | Some e => (m, d2, Some ("remove error: " +:+ e))
          | None =>
              ({| state := delete id (state m);
                  resources := Release (resources m) (Name info) |},
               d2, None)
          end
      end
  end.

(** GetContainerStatus returns metadata about a container. *)
Definition GetContainerStatus (m : Manager) (id : string) : result :=
  match state m !! id with
  | None => (None, Some "container not found"%string)
  | Some info => (Some info, None)
  end.

(** [info.TTL > 0 && info.CreatedAt.Add(info.TTL).Before(now)] *)
Definition expired (now : Z) (info : ContainerInfo) : bool :=
  bool_decide (TTL info > 0) && bool_decide (CreatedAt info + TTL info < now).

(** One run of the sweep, [now] being read once before the loop.  [order]
    is the order in which [range m.state] reaches the keys; a key whose
    entry is gone when it is reached is not produced. *)
Fixpoint cleanupExpiredContainers (now : Z) (order : list string)
    (m : Manager) (d : D) : Manager * D * list SweepEvent :=
  match order with
  | [] => (m, d, [])
  | id :: rest =>
      match state m !! id with
      | None => cleanupExpiredContainers now rest m d
      | Some info =>
          if expired now info then
            let '(m1, d1, err) := TerminateContainer m d id in
            let ev :=
              match err with
              | Some e => FailedAutoTerminate id e
              | None => AutoTerminated id
              end in
            let '(m2, d2, evs) := cleanupExpiredContainers now rest m1 d1 in
            (m2, d2, ev :: evs)
          else cleanupExpiredContainers now rest m d
      end
  end.

End operations.

(** ListActiveContainers returns all tracked containers; [order] is the
    order in which [range m.state] reaches the keys.  The error it returns
    is always nil. *)
Definition ListActiveContainers (order : list string) (m : Manager)
  : list ContainerInfo * option docker.error :=
  (omap (λ id, state m !! id) order, None).

End manager.

(** ** package cluster *)

Module cluster.

Import resourcemanager.

(** Node represents a physical/virtual host running containers.  [main]
    builds every node with [Resources] and the manager's [resources]
    pointing at one ledger, and the node's [Docker] and the manager's
    [docker] at one client: the node keeps the manager, and [Resources]
    reads and writes the ledger held there. *)
Record Node := mkNode {
  ID : string;
  Manager : manager.Manager
}.

Definition Resources (node : Node) : ResourceManager :=
  manager.resources (Manager node).

Definition with_Resources (node : Node) (rm : ResourceManager) : Node :=
  {| ID := ID node; Manager := manager.with_resources (Manager node) rm |}.

Definition with_Manager (node : Node) (m : manager.Manager) : Node :=
  {| ID := ID node; Manager := m |}.

(** ClusterManager handles multi-node container scheduling. *)
Record ClusterManager := mkClusterManager {
  nodes : gmap string Node;
  assignments : gmap string string   (* containerID -> nodeName *)
}.

Definition NewClusterManager (nodes : gmap string Node) : ClusterManager :=
  {| nodes := nodes; assignments := ∅ |}.

Definition with_node (cm : ClusterManager) (k : string) (node : Node)
  : ClusterManager :=
  {| nodes := <[k := node]> (nodes cm); assignments := assignments cm |}.

(** [int(spec.Memory)] is the identity on 64-bit integers. *)
Definition request (spec : docker.ContainerSpec) : ResourceSpec :=
  {| CPU := docker.CPU spec; Memory := docker.Memory spec |}.

(** The orders in which the ranges over a ledger's reserved CPU reach the
    keys during one call of Schedule: in CanAllocate and in
    AllocatedCPUSum on the node stored under a key, and in Allocate on the
    selected node. *)
Record cpuRanges := mkCpuRanges {
  inCanAllocate : string → list string;
  inAllocatedCPUSum : string → list string;
  inAllocate : list string
}.

(** The leftover metric of the placement loop, [sumOrder] being the order
    of the range in AllocatedCPUSum. *)
Definition leftover (sumOrder : list string) (node : Node)
    (spec : docker.ContainerSpec) : float :=
  let leftoverCPU :=
    (TotalCPU (Resources node)
     - (AllocatedCPUSum sumOrder (Resources node) + docker.CPU spec))%float in
  let leftoverMem :=
    F64.of_int
      (Int64.sub (TotalMemory (Resources node))
         (Int64.add (AllocatedMemorySum (Resources node))
            (docker.Memory spec))) in
  (leftoverCPU + leftoverMem / 1024)%float.

(** The placement loop: [order] is the order in which [range cm.nodes]
    reaches the keys; [selectedNode] is the node the Go pointer refers to,
    with the key it is stored under, or [None] for nil. *)
Fixpoint selectNode (nodes : gmap string Node) (spec : docker.ContainerSpec)
    (rg : cpuRanges) (order : list string)
    (selectedNode : option (string * Node)) (minLeftover : float)
  : option (string * Node) * float :=
  match order with
  | [] => (selectedNode, minLeftover)
  | k :: rest =>
      match nodes !! k with
      | None => selectNode nodes spec rg rest selectedNode minLeftover
      | Some node =>
          if CanAllocate (inCanAllocate rg k) (Resources node) (request spec)
          then
            let l := leftover (inAllocatedCPUSum rg k) node spec in
            if F64.lt l minLeftover
            then selectNode nodes spec rg rest (Some (k, node)) l
            else selectNode nodes spec rg rest selectedNode minLeftover
          else selectNode nodes spec rg rest selectedNode minLeftover
      end
  end.

Definition with_Name (spec : docker.ContainerSpec) (name : string)
  : docker.ContainerSpec :=
  {| docker.Image := docker.Image spec;
     docker.Name := name;
     docker.CPU := docker.CPU spec;
     docker.Memory := docker.Memory spec;
     docker.Command := docker.Command spec;
     docker.TTL := docker.TTL spec |}.

Section operations.
Context {D : Type} `{docker.Client D}.

(** The part of Schedule that follows the placement loop, for the selected
    node stored under the key [k]; [containerID] is the value of
    [uuid.New().String()] and [allocOrder] the order of the range in
    Allocate. *)
Definition provisionOn (now : Z) (containerID : string)
    (allocOrder : list string) (cm : ClusterManager) (d : D) (k : string)
    (selectedNode : Node) (spec : docker.ContainerSpec)
  : ClusterManager * D * manager.result :=
  let '(rm1, ok) :=
    Allocate allocOrder (Resources selectedNode) containerID (request spec) in
  if negb ok then
    (with_node cm k (with_Resources selectedNode rm1), d,
     (None, Some "failed to allocate resources"%string))
  else
    let spec := with_Name spec containerID in
    let '(d1, (id, err)) := docker.CreateContainer d spec in
    match err with
    | Some e =>
        (with_node cm k
           (with_Resources selectedNode (Release rm1 containerID)),
         d1, (None, Some e))
    | None =>
        let '(d2, err) := docker.StartContainer d1 id in
        match err with
        | Some _ =>
            (* [err := ...RemoveContainer(ctx, id)] declares a new [err] *)
            let '(d3, err) := docker.RemoveContainer d2 id in
            match err with
            | Some e' =>
                (with_node cm k (with_Resources selectedNode rm1), d3,
                 (None, Some e'))
            | None =>
                (with_node cm k
                   (with_Resources selectedNode (Release rm1 containerID)),
                 d3, (None, err))
            end
        | None =>
            let info :=
              {| manager.ID := id;
                 manager.Name := docker.Name spec;
                 manager.Image := docker.Image spec;
                 manager.CPU := docker.CPU spec;
                 manager.MemoryMB := docker.Memory spec;
                 manager.CreatedAt := now;
                 manager.Status := "Running";
                 manager.TTL := docker.TTL spec |} in
            (with_node cm k
               (with_Manager selectedNode
                  (manager.AddContainer
                     (manager.with_resources (Manager selectedNode) rm1)
                     id info)),
             d2, (Some info, None))
        end
    end.

(** Schedule schedules a container on a node with enough resources. *)
Definition Schedule (now : Z) (containerID : string) (order : list string)
    (rg : cpuRanges) (cm : ClusterManager) (d : D)
    (spec : docker.ContainerSpec) : ClusterManager * D * manager.result :=
  match selectNode (nodes cm) spec rg order None F64.MaxFloat64 with
  | (None, _) => (cm, d, (None, Some "no node has enough resources"%string))
  | (Some (k, selectedNode), _) =>
      provisionOn now containerID (inAllocate rg) cm d k selectedNode spec
  end.

Definition GetContainerStatus (cm : ClusterManager) (id : string)
  : manager.result :=
  match assignments cm !! id with
  | None => (None, Some ("container " +:+ id +:+ " not found"))
  | Some nodeName =>
      match nodes cm !! nodeName with
      | None =>
          (None,
           Some ("node " +:+ nodeName +:+ " not found for container " +:+ id))
      | Some node => manager.GetContainerStatus (Manager node) id
      end
  end.

(** TerminateContainer finds and terminates container on any node; [order]
    is the order in which [range cm.nodes] reaches the keys. *)
Fixpoint TerminateContainer (order : list string) (cm : ClusterManager)
    (d : D) (id : string) : ClusterManager * D * option docker.error :=
  match order with
  | [] => (cm, d, Some "container not found"%string)
  | k :: rest =>
      match nodes cm !! k with
      | None => TerminateContainer rest cm d id
      | Some node =>
          let '(m1, d1, err) :=
            manager.TerminateContainer (Manager node) d id in
          match err with
          | None =>
              let node1 := with_Manager node m1 in
              (with_node cm k
                 (with_Resources node1 (Release (Resources node1) id)),
               d1, None)
          | Some _ =>
              TerminateContainer rest (with_node cm k (with_Manager node m1))
                d1 id
          end
      end
  end.

End operations.

(** ListAllContainers lists all containers across all nodes; [order] is
    the order in which [range cm.nodes] reaches the keys, and [inner k] the
    order in which the manager of the node under [k] ranges over its
    state. *)
Definition ListAllContainers (order : list string)
    (inner : string → list string) (cm : ClusterManager)
  : list manager.ContainerInfo :=
  foldl
    (λ all k,
       match nodes cm !! k with
       | None => all
       | Some node =>
           all ++ (manager.ListActiveContainers (inner k) (Manager node)).1
       end)
    [] order.

End cluster.

(** ** package api

    The HTTP handlers of the cluster server.  A request is its method, its
    URL path and its body; a response is the status code, the Content-Type
    the handler sets and the bytes written.  The library functions the
    handlers call are arguments: [decode] is
    [json.NewDecoder(r.Body).Decode(&req)], [ParseDuration] is
    [time.ParseDuration], [encodeInfo] and [encodeList] give the bytes
    [json.NewEncoder(w).Encode] writes for a record pointer (nil included)
    and for a slice of records. *)

Module api.

(** provisionRequest defines the JSON format for provisioning a container *)
Record provisionRequest := mkProvisionRequest {
  Name : string;
  Image : string;
  CPU : float;
  Memory : Z;
  TTL : string
}.

Record Request := mkRequest {
  Method : string;
  Path : string;
  Body : string
}.

Record Response := mkResponse {
  StatusCode : Z;
  ContentType : option string;
  Written : string
}.

(** What the Go runtime supplies while one request is served: the clock,
    the id generator and the visiting orders of the maps. *)
Record Runtime := mkRuntime {
  now : Z;
  uuid : string;
  nodeOrder : list string;
  stateOrder : string → list string;
  cpuOrders : cluster.cpuRanges
}.

Definition newline : string := String (Ascii.ascii_of_nat 10) EmptyString.
Definition quote : string := String (Ascii.ascii_of_nat 34) EmptyString.

(** [http.Error(w, msg, code)]: plain text, the code, the message and a
    newline. *)
Definition httpError (msg : string) (code : Z) : Response :=
  {| StatusCode := code;
     ContentType := Some "text/plain; charset=utf-8"%string;
     Written := msg +:+ newline |}.

(** A handler that sets the JSON Content-Type and encodes a value; the
    status code is the implicit 200. *)
Definition jsonOK (encoded : string) : Response :=
  {| StatusCode := 200;
     ContentType := Some "application/json"%string;
     Written := encoded |}.

(** [strings.TrimPrefix(s, prefix)] *)
Definition TrimPrefix (s prefix : string) : string :=
  if String.prefix prefix s
  then String.substring (String.length prefix)
         (String.length s - String.length prefix) s
  else s.

Section handlers.
Context {D : Type} `{docker.Client D}.
Variable decode : string → provisionRequest + docker.error.
Variable ParseDuration : string → Z + docker.error.
Variable encodeInfo : option manager.ContainerInfo → string.
Variable encodeList : list manager.ContainerInfo → string.

(** handleProvision creates a container across any available node *)
Definition handleProvision (rt : Runtime) (cm : cluster.ClusterManager)
    (d : D) (r : Request) : cluster.ClusterManager * D * Response :=
  if negb (String.eqb (Method r) "POST") then
    (cm, d, httpError "Method not allowed" 405)
  else
    match decode (Body r) with
    | inr err => (cm, d, httpError ("Invalid JSON: " +:+ err) 400)
    | inl req =>
        match ParseDuration (TTL req) with
        | inr err =>
            (cm, d,
             httpError
               ("Invalid TTL format (example: " +:+ quote +:+ "10s" +:+ quote
                +:+ ", " +:+ quote +:+ "5m" +:+ quote +:+ "): " +:+ err)
               400)
        | inl ttl =>
            let spec :=
              {| docker.Image := Image req;
                 docker.Name := Name req;
                 docker.CPU := CPU req;
                 docker.Memory := Memory req;
                 docker.Command := [];
                 docker.TTL := ttl |} in
            let '(cm', d', (info, err)) :=
              cluster.Schedule (now rt) (uuid rt) (nodeOrder rt)
                (cpuOrders rt) cm d spec in
            match err with
            | Some e => (cm', d', httpError ("Provision failed: " +:+ e) 500)
            | None => (cm', d', jsonOK (encodeInfo info))
            end
        end
    end.

(** handleTerminate deletes a container regardless of which node it's on *)
Definition handleTerminate (rt : Runtime) (cm : cluster.ClusterManager)
    (d : D) (r : Request) : cluster.ClusterManager * D * Response :=
  if negb (String.eqb (Method r) "POST") then
    (cm, d, httpError "Method not allowed" 405)
  else
    let id := TrimPrefix (Path r) "/terminate/" in
    if String.eqb id EmptyString then
      (cm, d, httpError "Missing container ID" 400)
    else
      let '(cm', d', err) :=
        cluster.TerminateContainer (nodeOrder rt) cm d id in
      match err with
      | Some e => (cm', d', httpError ("Terminate failed: " +:+ e) 500)
      | None =>
          (cm', d',
           {| StatusCode := 200; ContentType := None;
              Written := "Container terminated" +:+ newline |})
      end.

Definition handleStatus (cm : cluster.ClusterManager) (r : Request)
  : Response :=
  if negb (String.eqb (Method r) "GET") then
    httpError "Method not allowed" 405
  else
    let id := TrimPrefix (Path r) "/status/" in
    if String.eqb id EmptyString then
      httpError "Missing container ID" 400
    else
      let '(info, err) := cluster.GetContainerStatus cm id in
      match err with
      | Some e => httpError ("Status lookup failed: " +:+ e) 404
      | None => jsonOK (encodeInfo info)
      end.

(** handleList lists all active containers across all nodes *)
Definition handleList (rt : Runtime) (cm : cluster.ClusterManager)
    (r : Request) : Response :=
  if negb (String.eqb (Method r) "GET") then
    httpError "Method not allowed" 405
  else
    let containers :=
      cluster.ListAllContainers (nodeOrder rt) (stateOrder rt) cm in
    jsonOK (encodeList containers).

End handlers.

End api.

(** ** Sequences of calls on a cluster *)

Module history.

Import cluster.

(** A call that changes the cluster, with what the runtime supplied to
    it. *)
Inductive Call :=
| CallSchedule (now : Z) (containerID : string) (order : list string)
    (rg : cpuRanges) (spec : docker.ContainerSpec)
| CallTerminateContainer (order : list string) (id : string).

Definition step {D : Type} `{docker.Client D} (s : ClusterManager * D)
    (call : Call) : ClusterManager * D :=
  match call with
  | CallSchedule now containerID order rg spec =>
      (Schedule now containerID order rg s.1 s.2 spec).1
  | CallTerminateContainer order id =>
      (TerminateContainer order s.1 s.2 id).1
  end.

(** The cluster and the daemon after a sequence of calls, first call
    first. *)
Definition run {D : Type} `{docker.Client D} (s : ClusterManager * D)
    (calls : list Call) : ClusterManager * D :=
  foldl step s calls.

End history.

(** ** Schedule by delegation, as the specification words it

    After the placement loop and the fresh id: hand the spec, named by the
    id, to the selected node's ProvisionContainer, and pass on what it
    returns.  This follows the specification's sentence, not the source;
    the source's steps are [cluster.provisionOn]. *)

Module delegation.

Import cluster.

Definition with_Status (info : manager.ContainerInfo) (status : string)
  : manager.ContainerInfo :=
  {| manager.ID := manager.ID info;
     manager.Name := manager.Name info;
     manager.Image := manager.Image info;
     manager.CPU := manager.CPU info;
     manager.MemoryMB := manager.MemoryMB info;
     manager.CreatedAt := manager.CreatedAt info;
     manager.Status := status;
     manager.TTL := manager.TTL info |}.

Definition provisionOn_delegating {D : Type} `{docker.Client D} (now : Z)
    (containerID : string) (canOrder allocOrder : list string)
    (cm : ClusterManager) (d : D) (k : string) (selectedNode : Node)
    (spec : docker.ContainerSpec) : ClusterManager * D * manager.result :=
  let '(m', d', r) :=
    manager.ProvisionContainer now canOrder allocOrder (Manager selectedNode)
      d (with_Name spec containerID) in
  (with_node cm k (with_Manager selectedNode m'), d', r).

End delegation.

(** ** Predicates of the statements *)

Module ledger.

Import resourcemanager.

(** The two reservation maps have the same keys. *)
Definition keys_agree (rm : ResourceManager) : Prop :=
  dom (allocatedCPU rm) = dom (allocatedMemory rm).

(** [id] has no reservation. *)
Definition unreserved (rm : ResourceManager) (id : string) : Prop :=
  allocatedCPU rm !! id = None ∧ allocatedMemory rm !! id = None.

(** The capacity invariant, read off [Usage] when its range visits the
    reserved CPU in [order]. *)
Definition within_capacity (order : list string) (rm : ResourceManager)
  : Prop :=
  F64.le (CPU (Usage order rm)) (TotalCPU rm) = true ∧
  Memory (Usage order rm) <= TotalMemory rm.

(** A call on the ledger; an Allocate comes with the order of its range
    over the reserved CPU. *)
Inductive Op :=
| OpAllocate (order : list string) (id : string) (spec : ResourceSpec)
| OpRelease (id : string).

Definition step (rm : ResourceManager) (op : Op) : ResourceManager :=
  match op with
  | OpAllocate order id spec => (Allocate order rm id spec).1
  | OpRelease id => Release rm id
  end.

(** The ledger after a sequence of calls, first call first. *)
Definition run (rm : ResourceManager) (ops : list Op) : ResourceManager :=
  foldl step rm ops.

(** The requests of a sequence ask for non-negative amounts. *)
Definition nonneg_op (op : Op) : Prop :=
  match op with
  | OpAllocate _ _ spec => F64.le 0 (CPU spec) = true ∧ 0 <= Memory spec
  | OpRelease _ => True
  end.

(** The exact sum of the reserved memory amounts, with no wrap-around. *)
Definition sumExact (m : gmap string Z) : Z :=
  map_fold (λ _ v acc, acc + v) 0 m.

(** A ledger whose memory reservations are non-negative and fit, as an
    exact sum, into a total that is a 64-bit integer. *)
Definition sound (rm : ResourceManager) : Prop :=
  (∀ id v, allocatedMemory rm !! id = Some v → 0 <= v) ∧
  sumExact (allocatedMemory rm) <= TotalMemory rm ∧
  TotalMemory rm <= Int64.max_int.

(** A request whose memory is non-negative and small enough for the check
    of Allocate not to overflow on a ledger of [total] MB. *)
Definition small_op (total : Z) (op : Op) : Prop :=
  match op with
  | OpAllocate _ _ spec => 0 <= Memory spec <= Int64.max_int - total
  | OpRelease _ => True
  end.

End ledger.

(** The orders in which a [range] may visit the keys of a map: every key
    once. *)
Definition range_order {A : Type} (order : list string) (m : gmap string A)
  : Prop :=
  NoDup order ∧ ∀ k, k ∈ order ↔ is_Some (m !! k).

Module sweep.

Import manager.

(** The sweep called TerminateContainer for [id]. *)
Definition attempted (id : string) (evs : list SweepEvent) : Prop :=
  AutoTerminated id ∈ evs ∨ ∃ e, FailedAutoTerminate id e ∈ evs.

(** The ids of [order] whose record in [m] has expired at [now]. *)
Definition expired_ids (now : Z) (order : list string) (m : Manager)
  : list string :=
  filter (λ id, from_option (expired now) false (state m !! id) = true) order.

(** The sweep as the specification words it: TerminateContainer is called
    for each of the given ids in turn, and a line is printed for each
    call. *)
Fixpoint terminate_each {D : Type} `{docker.Client D} (ids : list string)
    (m : Manager) (d : D) : Manager * D * list SweepEvent :=
  match ids with
  | [] => (m, d, [])
  | id :: rest =>
      let '(m1, d1, err) := TerminateContainer m d id in
      let ev :=
        match err with
        | Some e => FailedAutoTerminate id e
        | None => AutoTerminated id
        end in
      let '(m2, d2, evs) := terminate_each rest m1 d1 in
      (m2, d2, ev :: evs)
  end.

End sweep.

Module broadcast.

Import cluster.

(** The daemon after the managers of the nodes under [order] have each
    been asked, in turn, to terminate [id]. *)
Definition asked {D : Type} `{docker.Client D} (cm : ClusterManager)
    (order : list string) (d : D) (id : string) : D :=
  foldl
    (λ d k,
       match nodes cm !! k with
       | None => d
       | Some node => (manager.TerminateContainer (Manager node) d id).1.2
       end)
    d order.

(** Every manager of the nodes under [pre], asked in turn, refuses to
    terminate [id]. *)
Definition all_refuse {D : Type} `{docker.Client D} (cm : ClusterManager)
    (pre : list string) (d : D) (id : string) : Prop :=
  ∀ p1 k p2 node,
    pre = p1 ++ k :: p2 → nodes cm !! k = Some node →
    (manager.TerminateContainer (Manager node) (asked cm p1 d id) id).2 ≠ None.

(** The node after its manager has terminated the workload [id], whose
    record was [info], and the cluster has released the id. *)
Definition terminated (node : Node) (id : string)
    (info : manager.ContainerInfo) : Node :=
  {| ID := ID node;
     Manager :=
       {| manager.state := delete id (manager.state (Manager node));
          manager.resources :=
            resourcemanager.Release
              (resourcemanager.Release (Resources node) (manager.Name info))
              id |} |}.

End broadcast.

(** ** A scripted daemon

    A daemon for running the operations on concrete inputs: it records the
    calls it receives, in order, and fails the phases it is told to fail.
    The unit created for a spec named [n] has the id ["unit-" +:+ n]. *)

Module scripted.

Inductive Phase := PullPhase | CreatePhase | StartPhase | StopPhase | RemovePhase.

#[global] Instance Phase_eq_dec : EqDecision Phase.
Proof. solve_decision. Defined.

Inductive Call :=
| Pull (image : string)
| Create (name : string)
| Start (id : string)
| Stop (id : string)
| Remove (id : string).

Record Daemon := mkDaemon {
  calls : list Call;       (* oldest first *)
  failing : list Phase
}.

Definition answer (d : Daemon) (c : Call) (ph : Phase) (msg : string)
  : Daemon * option docker.error :=
  ({| calls := calls d ++ [c]; failing := failing d |},
   if bool_decide (ph ∈ failing d) then Some msg else None).

#[global] Instance client : docker.Client Daemon := {|
  docker.ImagePull d image := answer d (Pull image) PullPhase "pull refused";
  docker.ContainerCreate d spec :=
    let '(d', err) :=
      answer d (Create (docker.Name spec)) CreatePhase "create refused" in
    (d', match err with
         | Some e => inr e
         | None => inl ("unit-" +:+ docker.Name spec)
         end);
  docker.ContainerStart d id := answer d (Start id) StartPhase "start refused";
  docker.ContainerStop d id := answer d (Stop id) StopPhase "stop refused";
  docker.ContainerRemove d id :=
    answer d (Remove id) RemovePhase "remove refused"
|}.

(** A daemon that has received no call and fails the phases [phs]. *)
Definition fresh (phs : list Phase) : Daemon :=
  {| calls := []; failing := phs |}.

End scripted.

(** ** Concrete inputs *)

Module examples.

Import resourcemanager.

(** A node's ledger of 4 cores and 8192 MB holding one reservation, for the
    workload named "web". *)
Definition ledger_web : ResourceManager :=
  (Allocate [] (NewResourceManager 4 8192) "web" (mkResourceSpec 1 2048)).1.

(** The record of the workload "web", created at instant 0 with the given
    time to live. *)
Definition info_web (ttl : Z) : manager.ContainerInfo :=
  {| manager.ID := "unit-web";
     manager.Name := "web";
     manager.Image := "nginx";
     manager.CPU := 1;
     manager.MemoryMB := 2048;
     manager.CreatedAt := 0;
     manager.Status := "running";
     manager.TTL := ttl |}.

(** A manager tracking that one workload. *)
Definition mgr_web (ttl : Z) : manager.Manager :=
  {| manager.state := {[ "unit-web"%string := info_web ttl ]};
     manager.resources := ledger_web |}.

(** The two nodes [main] builds, with nothing reserved, and the request of
    the README: one core and 2048 MB. *)
Definition node1 : cluster.Node :=
  {| cluster.ID := "node1";
     cluster.Manager := manager.NewManager (NewResourceManager 4 8192) |}.

Definition node2 : cluster.Node :=
  {| cluster.ID := "node2";
     cluster.Manager := manager.NewManager (NewResourceManager 8 16384) |}.

Definition two_nodes : cluster.ClusterManager :=
  cluster.NewClusterManager
    (<["node1"%string := node1]> (<["node2"%string := node2]> ∅)).

Definition one_node : cluster.ClusterManager :=
  cluster.NewClusterManager (<["node1"%string := node1]> ∅).

Definition nginx : docker.ContainerSpec :=
  {| docker.Image := "nginx";
     docker.Name := "test1";
     docker.CPU := 1;
     docker.Memory := 2048;
     docker.Command := [];
     docker.TTL := 600000000000 |}.

(** The ranges of a call of Schedule on nodes whose ledgers hold nothing:
    every range over the reserved CPU is empty. *)
Definition no_ranges : cluster.cpuRanges :=
  {| cluster.inCanAllocate := λ _, [];
     cluster.inAllocatedCPUSum := λ _, [];
     cluster.inAllocate := [] |}.


(** Two sequences of calls on a ledger of 4 cores and 100 MB.  Every
    request is for a non-negative amount; the second request of each is for
    the largest 64-bit integer. *)
Definition overflow_same_id : list ledger.Op :=
  [ledger.OpAllocate [] "a" (mkResourceSpec 0 50);
   ledger.OpAllocate ["a"%string] "a" (mkResourceSpec 0 Int64.max_int)].

Definition overflow_fresh_id : list ledger.Op :=
  [ledger.OpAllocate [] "a" (mkResourceSpec 0 50);
   ledger.OpAllocate ["a"%string] "b" (mkResourceSpec 0 Int64.max_int)].

(** Three requests on a ledger of 0.6 cores: 0.3, 0.2 and 0.1 cores, each
    Allocate visiting the reservations in the order they were made. *)
Definition tenths : list ledger.Op :=
  [ledger.OpAllocate [] "a" (mkResourceSpec 0.3 0);
   ledger.OpAllocate ["a"%string] "b" (mkResourceSpec 0.2 0);
   ledger.OpAllocate ["a"; "b"]%string "c" (mkResourceSpec 0.1 0)].

(** A one-node cluster whose manager tracks the workload "web" (backend id
    "unit-web"); the assignment mapping is empty. *)
Definition cluster_web : cluster.ClusterManager :=
  cluster.NewClusterManager
    (<["node1"%string :=
         {| cluster.ID := "node1"; cluster.Manager := mgr_web 0 |}]> ∅).

(** A two-node cluster whose first node is empty and whose second node
    tracks the workload "web". *)
Definition cluster_web_second : cluster.ClusterManager :=
  cluster.NewClusterManager
    (<["node1"%string := node1]>
       (<["node2"%string :=
            {| cluster.ID := "node2"; cluster.Manager := mgr_web 0 |}]> ∅)).

(** Two empty nodes of the same capacity. *)
Definition twin_nodes : cluster.ClusterManager :=
  cluster.NewClusterManager
    (<["a"%string :=
         {| cluster.ID := "a";
            cluster.Manager := manager.NewManager (NewResourceManager 4 8192) |}]>
       (<["b"%string :=
            {| cluster.ID := "b";
               cluster.Manager :=
                 manager.NewManager (NewResourceManager 4 8192) |}]> ∅)).

(** What the runtime supplies to a request served by the one-node
    cluster. *)
Definition runtime1 : api.Runtime :=
  {| api.now := 0; api.uuid := "c-1";
     api.nodeOrder := ["node1"%string];
     api.stateOrder := λ _, [];
     api.cpuOrders := no_ranges |}.

(** Stand-ins for the library functions of the handlers: a decoder that
    knows one body, a duration parser that knows one duration, and an
    encoder that writes the id of a record and "null" for nil. *)
Definition decode1 (body : string) : api.provisionRequest + docker.error :=
  if String.eqb body "nginx for ten minutes" then
    inl {| api.Name := "test1"; api.Image := "nginx"; api.CPU := 1;
           api.Memory := 2048; api.TTL := "10m" |}
  else inr "unexpected end of JSON input"%string.

Definition parse1 (s : string) : Z + docker.error :=
  if String.eqb s "10m" then inl 600000000000
  else inr "time: invalid duration"%string.

Definition encode1 (info : option manager.ContainerInfo) : string :=
  match info with
  | None => "null"
  | Some info => manager.ID info
  end.

End examples.

(** * Facts about the arithmetic *)

Section int64_facts.

Lemma wrap_in_range (z : Z) : Int64.in_range z → Int64.wrap z = z.
Proof.
  unfold Int64.in_range, Int64.min_int, Int64.max_int, Int64.wrap.
  intros Hz. rewrite Z.mod_small by lia. lia.
Qed.

Lemma wrap_add_l (a b : Z) : Int64.wrap (Int64.wrap a + b) = Int64.wrap (a + b).
Proof.
  unfold Int64.wrap.
  replace ((a + 2 ^ 63) mod 2 ^ 64 - 2 ^ 63 + b + 2 ^ 63)
    with ((a + 2 ^ 63) mod 2 ^ 64 + b) by lia.
  rewrite Zplus_mod_idemp_l. do 2 f_equal. lia.
Qed.

Lemma add_swap (a x y : Z) :
  Int64.add (Int64.add a x) y = Int64.add (Int64.add a y) x.
Proof.
  unfold Int64.add. rewrite !wrap_add_l. f_equal. lia.
Qed.

End int64_facts.

(** The comparisons of [float64] are those of a strict order with one
    incomparable element, NaN.  They are read off the comparison of the
    decoded values ([SFcompare]), which orders by sign, then exponent,
    then mantissa. *)

Section f64_facts.

Lemma F64_lt_compare (x y : float) :
  F64.lt x y = true ↔ SFcompare (Prim2SF x) (Prim2SF y) = Some Lt.
Proof.
  unfold F64.lt. rewrite FloatAxioms.ltb_spec. unfold SFltb.
  destruct (SFcompare _ _) as [[]|]; split; congruence.
Qed.

Lemma F64_le_compare (x y : float) :
  F64.le x y = true ↔
  SFcompare (Prim2SF x) (Prim2SF y) = Some Lt ∨
  SFcompare (Prim2SF x) (Prim2SF y) = Some Eq.
Proof.
  unfold F64.le. rewrite FloatAxioms.leb_spec. unfold SFleb.
  destruct (SFcompare _ _) as [[]|]; split; try congruence; auto.
  all: intros [?|?]; congruence.
Qed.

Lemma F64_is_nan (x : float) :
  PrimFloat.is_nan x = false ↔ Prim2SF x ≠ S754_nan.
Proof.
  unfold PrimFloat.is_nan. rewrite FloatAxioms.eqb_spec. unfold SFeqb.
  destruct (Prim2SF x) as [s|s| |s m e]; simpl.
  - split; [discriminate|done].
  - destruct s; simpl; (split; [discriminate|done]).
  - split; [discriminate|congruence].
  - destruct s; rewrite Z.compare_refl, Pos.compare_cont_refl; simpl;
      (split; [discriminate|done]).
Qed.

Ltac sf_cases :=
  repeat match goal with
         | s : bool |- _ => destruct s
         end;
  simpl in *; try congruence;
  repeat match goal with
         | H : context [(?a ?= ?b)%Z] |- _ =>
             destruct (Z.compare_spec a b); try subst
         | |- context [(?a ?= ?b)%Z] =>
             destruct (Z.compare_spec a b); try subst
         end;
  simpl in *; try congruence; try lia;
  repeat match goal with
         | H : context [Pos.compare_cont Eq ?a ?b] |- _ =>
             change (Pos.compare_cont Eq a b) with (Pos.compare a b) in H;
             destruct (Pos.compare_spec a b); try subst
         | |- context [Pos.compare_cont Eq ?a ?b] =>
             change (Pos.compare_cont Eq a b) with (Pos.compare a b);
             destruct (Pos.compare_spec a b); try subst
         end;
  simpl in *; try congruence; try lia.

Lemma SFcompare_Lt_trans (a b c : spec_float) :
  SFcompare a b = Some Lt → SFcompare b c = Some Lt → SFcompare a c = Some Lt.
Proof.
  destruct a as [sa|sa| |sa ma ea], b as [sb|sb| |sb mb eb],
    c as [sc|sc| |sc mc ec]; simpl; intros Hab Hbc; sf_cases.
Qed.

Lemma SFcompare_Eq_Lt_trans (a b c : spec_float) :
  SFcompare a b = Some Eq → SFcompare b c = Some Lt → SFcompare a c = Some Lt.
Proof.
  destruct a as [sa|sa| |sa ma ea], b as [sb|sb| |sb mb eb],
    c as [sc|sc| |sc mc ec]; simpl; intros Hab Hbc; sf_cases.
Qed.

Lemma SFcompare_Lt_irrefl (a : spec_float) : SFcompare a a ≠ Some Lt.
Proof.
  destruct a as [sa|sa| |sa ma ea]; simpl; intros Haa; sf_cases.
Qed.

Lemma SFcompare_asym (a b : spec_float) :
  SFcompare a b = Some Lt → SFcompare b a = Some Gt.
Proof.
  destruct a as [sa|sa| |sa ma ea], b as [sb|sb| |sb mb eb];
    simpl; intros Hab; sf_cases.
Qed.

Lemma SFcompare_Gt_sym (a b : spec_float) :
  SFcompare a b = Some Gt → SFcompare b a = Some Lt.
Proof.
  destruct a as [sa|sa| |sa ma ea], b as [sb|sb| |sb mb eb];
    simpl; intros Hab; sf_cases.
Qed.

Lemma SFcompare_total (a b : spec_float) :
  a ≠ S754_nan → b ≠ S754_nan → is_Some (SFcompare a b).
Proof.
  destruct a as [sa|sa| |sa ma ea], b as [sb|sb| |sb mb eb];
    simpl; intros Ha Hb; try done; sf_cases; eauto.
Qed.

(** [<] is irreflexive and transitive. *)
Lemma F64_lt_irrefl (x : float) : F64.lt x x = false.
Proof.
  apply not_true_is_false. rewrite F64_lt_compare. apply SFcompare_Lt_irrefl.
Qed.

Lemma F64_lt_trans (x y z : float) :
  F64.lt x y = true → F64.lt y z = true → F64.lt x z = true.
Proof. rewrite !F64_lt_compare. apply SFcompare_Lt_trans. Qed.

(** [x <= y] and [y < z] give [x < z]. *)
Lemma F64_le_lt_trans (x y z : float) :
  F64.le x y = true → F64.lt y z = true → F64.lt x z = true.
Proof.
  rewrite F64_le_compare, !F64_lt_compare. intros [Hxy|Hxy] Hyz.
  - by eapply SFcompare_Lt_trans.
  - by eapply SFcompare_Eq_Lt_trans.
Qed.

(** [x <= y] excludes [x > y]. *)
Lemma F64_le_not_gt (x y : float) : F64.le x y = true → F64.gt x y = false.
Proof.
  unfold F64.gt. intros Hle. apply not_true_is_false.
  rewrite F64_lt_compare. rewrite F64_le_compare in Hle. intros Hyx.
  apply SFcompare_asym in Hyx. destruct Hle; congruence.
Qed.

(** [x < y] excludes [y <= x]. *)
Lemma F64_lt_not_le (x y : float) : F64.lt x y = true → F64.le y x = false.
Proof.
  intros Hlt. apply not_true_is_false. intros Hle.
  apply F64_le_not_gt in Hle. unfold F64.gt, F64.lt in *. congruence.
Qed.

(** Away from NaN, [x > y] is the negation of [x <= y]. *)
Lemma F64_gt_le (x y : float) :
  PrimFloat.is_nan x = false → PrimFloat.is_nan y = false →
  F64.gt x y = negb (F64.le x y).
Proof.
  rewrite !F64_is_nan. intros Hx Hy.
  destruct (SFcompare_total _ _ Hx Hy) as [c Hc].
  destruct (F64.le x y) eqn:Hle; simpl.
  - by apply F64_le_not_gt.
  - unfold F64.gt. rewrite F64_lt_compare.
    apply not_true_iff_false in Hle. rewrite F64_le_compare in Hle.
    destruct c; [tauto|tauto|]. by apply SFcompare_Gt_sym.
Qed.

End f64_facts.

(** * Facts about the ledger *)

Section ledger_facts.
Import resourcemanager.

Lemma sumCPU_empty (order : list string) : sumCPU order ∅ = 0%float.
Proof.
  unfold sumCPU. induction order as [|k order IH]; simpl; [done|].
  by rewrite lookup_empty.
Qed.

Lemma sumMemory_empty : sumMemory ∅ = 0.
Proof. unfold sumMemory. apply map_fold_empty. Qed.

Lemma sumMemory_insert (m : gmap string Z) (id : string) (v : Z) :
  m !! id = None → sumMemory (<[id := v]> m) = Int64.add (sumMemory m) v.
Proof.
  intros Hid. unfold sumMemory.
  rewrite map_fold_insert_L; [done | | done].
  intros. apply add_swap.
Qed.

Lemma sumMemory_delete (m : gmap string Z) (id : string) (v : Z) :
  m !! id = Some v → sumMemory m = Int64.add (sumMemory (delete id m)) v.
Proof.
  intros Hid. unfold sumMemory.
  rewrite (map_fold_delete_L _ _ id v m); [done | | done].
  intros. apply add_swap.
Qed.

(** The memory sum does not depend on the order in which a [range] visits
    the entries. *)
Lemma sumMemory_any_order (m : gmap string Z) (l : list (string * Z)) :
  l ≡ₚ map_to_list m → foldr (λ kv acc, Int64.add acc kv.2) 0 l = sumMemory m.
Proof.
  intros Hl. unfold sumMemory. rewrite map_fold_foldr.
  etrans; [|apply foldr_ext with (f1 := λ kv acc, Int64.add acc kv.2);
             [by intros [??] ?|done..]].
  apply (foldr_permutation (=) (λ kv acc, Int64.add acc kv.2) 0); [|done].
  intros. apply add_swap.
Qed.

Lemma Release_record (rm : ResourceManager) (id : string) :
  allocatedCPU rm !! id = None → allocatedMemory rm !! id = None →
  Release rm id = rm.
Proof.
  intros Hc Hm. destruct rm as [tc tm ac am]; simpl in *.
  unfold Release; simpl. by rewrite !delete_id.
Qed.

Lemma Allocate_false (order : list string) (rm : ResourceManager)
    (id : string) (spec : ResourceSpec) :
  (Allocate order rm id spec).2 = false → (Allocate order rm id spec).1 = rm.
Proof.
  unfold Allocate. by destruct (_ || _).
Qed.

Lemma Release_Allocate_fresh (order : list string) (rm : ResourceManager)
    (id : string) (spec : ResourceSpec) :
  allocatedCPU rm !! id = None → allocatedMemory rm !! id = None →
  Release (Allocate order rm id spec).1 id = rm.
Proof.
  intros Hc Hm. unfold Allocate. destruct (_ || _); simpl.
  - by apply Release_record.
  - destruct rm as [tc tm ac am]; simpl in *. unfold Release; simpl.
    by rewrite !delete_insert_id.
Qed.

End ledger_facts.

(** * The ledger's operations *)

Section ledger_operations.
Import resourcemanager ledger.

Lemma keys_agree_New (cpu : float) (memory : Z) :
  keys_agree (NewResourceManager cpu memory).
Proof. unfold keys_agree; simpl. by rewrite !dom_empty_L. Qed.

Lemma keys_agree_Allocate (order : list string) (rm : ResourceManager)
    (id : string) (spec : ResourceSpec) :
  keys_agree rm → keys_agree (Allocate order rm id spec).1.
Proof.
  unfold keys_agree, Allocate. intros Hk.
  destruct (_ || _); simpl; [done|]. rewrite !dom_insert_L. by rewrite Hk.
Qed.

Lemma keys_agree_Release (rm : ResourceManager) (id : string) :
  keys_agree rm → keys_agree (Release rm id).
Proof.
  unfold keys_agree, Release; simpl. intros Hk.
  rewrite !dom_delete_L. by rewrite Hk.
Qed.

(** C10. The constructor builds a ledger whose CPU and memory reservation
    maps have the same keys, and Allocate (whether it reserves or refuses,
    and whatever the order of its range) and Release keep it so: an id has
    a CPU reservation if and only if it has a memory reservation. *)
Theorem ledger_key_sets_equal (cpu : float) (memory : Z) (rm : ResourceManager)
    (order : list string) (id : string) (spec : ResourceSpec) :
  keys_agree (NewResourceManager cpu memory) ∧
  (keys_agree rm →
   keys_agree (Allocate order rm id spec).1 ∧
   keys_agree (Release rm id) ∧
   ∀ id', is_Some (allocatedCPU rm !! id') ↔ is_Some (allocatedMemory rm !! id')).
Proof.
  split; [apply keys_agree_New|]. intros Hk.
  split; [by apply keys_agree_Allocate|].
  split; [by apply keys_agree_Release|].
  intros id'. rewrite <-!elem_of_dom. by rewrite Hk.
Qed.

Lemma ledger_key_sets_equal_witness :
  let rm :=
    (Allocate [] (NewResourceManager 4 8192) "a" (mkResourceSpec 1 2048)).1 in
  keys_agree rm ∧
  keys_agree (Allocate ["a"%string] rm "b" (mkResourceSpec 2 1024)).1 ∧
  keys_agree (Release rm "a").
Proof.
  pose proof (ledger_key_sets_equal 4 8192
    (Allocate [] (NewResourceManager 4 8192) "a" (mkResourceSpec 1 2048)).1
    ["a"%string] "b" (mkResourceSpec 2 1024)) as [_ Hstep].
  cbv zeta.
  assert (keys_agree
    (Allocate [] (NewResourceManager 4 8192) "a" (mkResourceSpec 1 2048)).1)
    as Hk by (vm_compute; reflexivity).
  split; [exact Hk|].
  destruct (Hstep Hk) as (Ha & _ & _). split; [exact Ha|].
  destruct (ledger_key_sets_equal 4 8192
    (Allocate [] (NewResourceManager 4 8192) "a" (mkResourceSpec 1 2048)).1
    ["a"%string] "a" (mkResourceSpec 2 1024)) as [_ Hstep'].
  by destruct (Hstep' Hk) as (_ & Hr & _).
Defined.

(** C9. Releasing an id that has no reservation leaves the ledger as it
    was, and releasing an id twice leaves the ledger a single release
    leaves.  Release has no error result: it returns a ledger on every
    input. *)
Theorem Release_noop_and_idempotent (rm : ResourceManager) (id : string) :
  (unreserved rm id → Release rm id = rm) ∧
  Release (Release rm id) id = Release rm id.
Proof.
  split.
  - intros [Hc Hm]. by apply Release_record.
  - unfold Release; simpl. by rewrite !delete_delete_eq.
Qed.

Lemma Release_noop_and_idempotent_witness :
  let rm :=
    (Allocate [] (NewResourceManager 4 8192) "a" (mkResourceSpec 1 2048)).1 in
  unreserved rm "b" ∧ Release rm "b" = rm ∧
  Release (Release rm "a") "a" = Release rm "a".
Proof.
  cbv zeta.
  destruct (Release_noop_and_idempotent
    (Allocate [] (NewResourceManager 4 8192) "a" (mkResourceSpec 1 2048)).1 "b")
    as [Hnoop _].
  destruct (Release_noop_and_idempotent
    (Allocate [] (NewResourceManager 4 8192) "a" (mkResourceSpec 1 2048)).1 "a")
    as [_ Hidem].
  assert (unreserved
    (Allocate [] (NewResourceManager 4 8192) "a" (mkResourceSpec 1 2048)).1 "b")
    as Hu by (split; vm_compute; reflexivity).
  split; [exact Hu|]. split; [exact (Hnoop Hu)|exact Hidem].
Defined.

End ledger_operations.

(** * The ledger: capacity *)

Section ledger_capacity.
Import resourcemanager ledger.

(** C5 fails on the code.  On a ledger of 100 MB holding 50 MB under "a", a
    request of 2^63 - 1 MB passes the check of Allocate, because
    [usedMem + spec.Memory] wraps to a negative number: Allocate returns
    true and records it.  Under the same id the ledger then reports
    2^63 - 1 MB reserved out of 100; under a fresh id the two recorded
    amounts are 50 and 2^63 - 1, and Usage reports their wrapped sum.  The
    requests are for no CPU, and the reports do not depend on the order of
    a range. *)
Theorem Allocate_overflow_overcommits :
  Forall nonneg_op examples.overflow_same_id ∧
  Forall nonneg_op examples.overflow_fresh_id ∧
  (∀ order, within_capacity order (NewResourceManager 4 100)) ∧
  (Allocate ["a"%string]
     (run (NewResourceManager 4 100) (take 1 examples.overflow_same_id))
     "a" (mkResourceSpec 0 Int64.max_int)).2 = true ∧
  (∀ order,
     Memory (Usage order
               (run (NewResourceManager 4 100) examples.overflow_same_id))
     = 9223372036854775807) ∧
  (∀ order,
     ¬ within_capacity order
         (run (NewResourceManager 4 100) examples.overflow_same_id)) ∧
  (Allocate ["a"%string]
     (run (NewResourceManager 4 100) (take 1 examples.overflow_fresh_id))
     "b" (mkResourceSpec 0 Int64.max_int)).2 = true ∧
  allocatedMemory (run (NewResourceManager 4 100) examples.overflow_fresh_id)
  = <["a"%string := 50]> (<["b"%string := 9223372036854775807]> ∅) ∧
  (∀ order,
     Memory (Usage order
               (run (NewResourceManager 4 100) examples.overflow_fresh_id))
     = -9223372036854775759).
Proof.
  split; [|split].
  { repeat constructor; vm_compute; congruence. }
  { repeat constructor; vm_compute; congruence. }
  split.
  { intros order. unfold within_capacity, Usage; simpl.
    rewrite sumCPU_empty. split; vm_compute; congruence. }
  split; [vm_compute; reflexivity|].
  split; [intros order; vm_compute; reflexivity|].
  split.
  { intros order [_ Hmem]. vm_compute in Hmem. by apply Hmem. }
  split; [vm_compute; reflexivity|].
  split; [vm_compute; reflexivity|].
  intros order. vm_compute. reflexivity.
Qed.

(** C5 fails on the CPU side as well, through rounding.  On a ledger of 0.6
    cores the requests of 0.3, 0.2 and 0.1 cores are all accepted, the
    third because the sum Allocate forms, (0.3 + 0.2) + 0.1, is 0.6 in
    [float64].  A Usage whose range visits the reservations in the order
    a, c, b then reports (0.3 + 0.1) + 0.2, which is above 0.6. *)
Lemma Allocate_rounding_overcommits :
  Forall nonneg_op examples.tenths ∧
  let rm := run (NewResourceManager 0.6 100) examples.tenths in
  allocatedCPU rm
  = <["a"%string := 0.3%float]>
      (<["b"%string := 0.2%float]> (<["c"%string := 0.1%float]> ∅)) ∧
  within_capacity ["a"; "b"; "c"]%string rm ∧
  CPU (Usage ["a"; "c"; "b"]%string rm) = 0.6000000000000001%float ∧
  F64.gt (CPU (Usage ["a"; "c"; "b"]%string rm)) (TotalCPU rm) = true ∧
  ¬ within_capacity ["a"; "c"; "b"]%string rm.
Proof.
  split; [repeat constructor; vm_compute; congruence|].
  cbv zeta. split; [vm_compute; reflexivity|].
  split; [split; vm_compute; congruence|].
  split; [vm_compute; reflexivity|].
  split; [vm_compute; reflexivity|].
  intros [Hcpu _]. vm_compute in Hcpu. discriminate.
Qed.

End ledger_capacity.

Section ledger_capacity_bounded.
Import resourcemanager ledger.

Lemma sumExact_empty : sumExact ∅ = 0.
Proof. unfold sumExact. apply map_fold_empty. Qed.

Lemma sumExact_insert (m : gmap string Z) (id : string) (v : Z) :
  m !! id = None → sumExact (<[id := v]> m) = sumExact m + v.
Proof.
  intros Hid. unfold sumExact.
  rewrite map_fold_insert_L; [done | | done]. intros. lia.
Qed.

Lemma sumExact_delete (m : gmap string Z) (id : string) (v : Z) :
  m !! id = Some v → sumExact m = sumExact (delete id m) + v.
Proof.
  intros Hid. unfold sumExact.
  rewrite (map_fold_delete_L _ _ id v m); [done | | done]. intros. lia.
Qed.

(** What the ledger computes is the exact sum, wrapped. *)
Lemma sumMemory_wrap (m : gmap string Z) :
  sumMemory m = Int64.wrap (sumExact m).
Proof.
  induction m as [|id v m Hid IH] using map_ind.
  - rewrite sumMemory_empty, sumExact_empty. done.
  - rewrite sumMemory_insert, sumExact_insert by done.
    unfold Int64.add. by rewrite IH, wrap_add_l.
Qed.

Lemma sumExact_nonneg (m : gmap string Z) :
  (∀ id v, m !! id = Some v → 0 <= v) → 0 <= sumExact m.
Proof.
  induction m as [|id v m Hid IH] using map_ind; intros Hpos.
  - by rewrite sumExact_empty.
  - rewrite sumExact_insert by done.
    assert (0 <= v) by (apply (Hpos id); apply lookup_insert_eq).
    assert (0 <= sumExact m); [|lia].
    apply IH. intros id' v' Hl. apply (Hpos id').
    rewrite lookup_insert_ne; [done|]. by intros <-; rewrite Hid in Hl.
Qed.

Lemma sound_sumMemory (rm : ResourceManager) :
  sound rm → sumMemory (allocatedMemory rm) = sumExact (allocatedMemory rm).
Proof.
  intros (Hm & Hmem & Htot).
  rewrite sumMemory_wrap. apply wrap_in_range.
  pose proof (sumExact_nonneg _ Hm).
  unfold Int64.in_range, Int64.min_int, Int64.max_int in *. lia.
Qed.

Lemma sound_Release (rm : ResourceManager) (id : string) :
  sound rm → sound (Release rm id).
Proof.
  intros (Hm & Hmem & Htot). unfold sound, Release; simpl.
  split; [|split]; [| |done].
  - intros id' v [_ ?]%lookup_delete_Some. eauto.
  - destruct (allocatedMemory rm !! id) as [old|] eqn:Hold;
      [|by rewrite delete_id].
    rewrite (sumExact_delete _ id old Hold) in Hmem.
    specialize (Hm id old Hold). lia.
Qed.

Lemma sound_Allocate (order : list string) (rm : ResourceManager)
    (id : string) (spec : ResourceSpec) :
  sound rm → small_op (TotalMemory rm) (OpAllocate order id spec) →
  sound (Allocate order rm id spec).1.
Proof.
  intros Hsound [Hmem0 Hmem1].
  pose proof Hsound as (Hm & Hmem & Htot).
  destruct (sound_Release rm id Hsound) as (Hmd & Hed & _).
  simpl in Hed, Hmd.
  pose proof (sound_sumMemory rm Hsound) as Heq.
  unfold Allocate.
  destruct (F64.gt _ _ || bool_decide _) eqn:Hchk; simpl; [done|].
  apply orb_false_iff in Hchk as [_ Hchk2].
  apply bool_decide_eq_false in Hchk2.
  rewrite Heq in Hchk2. unfold Int64.add in Hchk2.
  pose proof (sumExact_nonneg _ Hm) as Hnn.
  rewrite wrap_in_range in Hchk2
    by (unfold Int64.in_range, Int64.min_int, Int64.max_int in *; lia).
  unfold sound; simpl.
  split; [|split]; [| |done].
  - intros id' v [[_ <-]|[_ ?]]%lookup_insert_Some; eauto.
  - rewrite <-(insert_delete_eq (allocatedMemory rm)),
      sumExact_insert by apply lookup_delete_eq.
    destruct (allocatedMemory rm !! id) as [old|] eqn:Hold.
    + rewrite (sumExact_delete _ id old Hold) in Hchk2.
      specialize (Hm id old Hold). lia.
    + rewrite delete_id by done. lia.
Qed.

Lemma TotalMemory_step (rm : ResourceManager) (op : Op) :
  TotalMemory (step rm op) = TotalMemory rm.
Proof.
  destruct op as [order id spec|id]; simpl; [|done].
  unfold Allocate. by destruct (_ || _).
Qed.

Lemma TotalMemory_run (rm : ResourceManager) (ops : list Op) :
  TotalMemory (run rm ops) = TotalMemory rm.
Proof.
  revert rm. unfold run. induction ops as [|op ops IH]; intros rm; simpl;
    [done|].
  by rewrite IH, TotalMemory_step.
Qed.

(** Away from the overflow the capacity invariant does hold for the
    memory: on a ledger whose memory reservations are sound, any sequence
    of releases and of requests for between 0 and [2^63 - 1 - total] MB
    (for any amount of CPU, in any order of the ranges) keeps the reserved
    memory within the total, and Usage reports the exact sum. *)
Theorem capacity_kept_without_overflow (rm : ResourceManager) (ops : list Op) :
  sound rm → Forall (small_op (TotalMemory rm)) ops →
  sound (run rm ops) ∧
  ∀ order,
    Memory (Usage order (run rm ops)) <= TotalMemory rm ∧
    Memory (Usage order (run rm ops)) = sumExact (allocatedMemory (run rm ops)).
Proof.
  intros Hsound Hops.
  assert (sound (run rm ops)) as Hrun.
  { revert rm Hsound Hops. unfold run.
    induction ops as [|op ops IH]; intros rm Hsound Hops; simpl; [done|].
    apply Forall_cons in Hops as [Hop Hops].
    apply IH.
    - destruct op as [order id spec|id]; simpl.
      + by apply sound_Allocate.
      + by apply sound_Release.
    - by rewrite TotalMemory_step. }
  split; [done|]. intros order. unfold Usage; simpl.
  rewrite (sound_sumMemory _ Hrun).
  destruct Hrun as (_ & Hmem & _). rewrite TotalMemory_run in Hmem. done.
Qed.

Lemma capacity_kept_without_overflow_witness :
  let ops := [OpAllocate [] "a" (mkResourceSpec 1 2048);
              OpAllocate ["a"%string] "b" (mkResourceSpec 0.5 4096);
              OpRelease "a";
              OpAllocate ["b"%string] "c" (mkResourceSpec 3 4096)] in
  sound (NewResourceManager 4 8192) ∧
  Memory (Usage ["b"; "c"]%string (run (NewResourceManager 4 8192) ops))
  <= 8192 ∧
  Memory (Usage ["b"; "c"]%string (run (NewResourceManager 4 8192) ops)) = 8192.
Proof.
  cbv zeta.
  assert (sound (NewResourceManager 4 8192)) as Hsound.
  { unfold sound; simpl. rewrite sumExact_empty.
    split; [intros ? ? ?%lookup_empty_Some; done|].
    split; vm_compute; congruence. }
  split; [exact Hsound|].
  destruct (capacity_kept_without_overflow (NewResourceManager 4 8192)
    [OpAllocate [] "a" (mkResourceSpec 1 2048);
     OpAllocate ["a"%string] "b" (mkResourceSpec 0.5 4096);
     OpRelease "a";
     OpAllocate ["b"%string] "c" (mkResourceSpec 3 4096)] Hsound)
    as [_ Hcap].
  - repeat constructor; vm_compute; congruence.
  - destruct (Hcap ["b"; "c"]%string) as [Hle Hmem].
    split; [exact Hle|]. rewrite Hmem. vm_compute. reflexivity.
Defined.

End ledger_capacity_bounded.

(** * More on the ledger *)

Section ledger_more.
Import resourcemanager ledger.

(** An accepted request is recorded under the id in both maps; nothing
    else changes. *)
Lemma Allocate_accepted (order : list string) (rm : ResourceManager)
    (id : string) (spec : ResourceSpec) :
  (Allocate order rm id spec).2 = true →
  allocatedCPU (Allocate order rm id spec).1 !! id = Some (CPU spec) ∧
  allocatedMemory (Allocate order rm id spec).1 !! id = Some (Memory spec) ∧
  TotalCPU (Allocate order rm id spec).1 = TotalCPU rm ∧
  TotalMemory (Allocate order rm id spec).1 = TotalMemory rm ∧
  ∀ id', id' ≠ id →
    allocatedCPU (Allocate order rm id spec).1 !! id' = allocatedCPU rm !! id' ∧
    allocatedMemory (Allocate order rm id spec).1 !! id'
    = allocatedMemory rm !! id'.
Proof.
  unfold Allocate. destruct (_ || _); simpl; [done|]. intros _.
  rewrite !lookup_insert_eq.
  split; [reflexivity|]. split; [reflexivity|]. split; [reflexivity|].
  split; [reflexivity|]. intros id' Hne.
  rewrite !lookup_insert_ne by done. done.
Qed.

(** A request CanAllocate accepts is one Allocate accepts, when both sum
    the reserved CPU in the same order. *)
Lemma CanAllocate_Allocate (order : list string) (rm : ResourceManager)
    (id : string) (spec : ResourceSpec) :
  CanAllocate order rm spec = true → (Allocate order rm id spec).2 = true.
Proof.
  unfold CanAllocate, Allocate. intros [Hcpu Hmem]%andb_true_iff.
  apply F64_le_not_gt in Hcpu. rewrite Hcpu; simpl.
  apply bool_decide_eq_true in Hmem.
  rewrite bool_decide_eq_false_2 by lia. done.
Qed.

(** Away from NaN the two make the same decision. *)
Lemma Allocate_CanAllocate_same (order : list string) (rm : ResourceManager)
    (id : string) (spec : ResourceSpec) :
  PrimFloat.is_nan (sumCPU order (allocatedCPU rm) + CPU spec) = false →
  PrimFloat.is_nan (TotalCPU rm) = false →
  (Allocate order rm id spec).2 = CanAllocate order rm spec.
Proof.
  intros Hsum Htot. unfold CanAllocate, Allocate.
  rewrite (F64_gt_le _ _ Hsum Htot).
  destruct (F64.le _ _); simpl; [|done].
  destruct (bool_decide_reflect
              (Int64.add (sumMemory (allocatedMemory rm)) (Memory spec)
               > TotalMemory rm)) as [Hgt|Hle]; simpl;
    symmetry; [apply bool_decide_eq_false|apply bool_decide_eq_true]; lia.
Qed.

(** Allocate against CanAllocate, both summing the reserved CPU in the
    same order.  A request CanAllocate accepts is accepted by Allocate;
    when neither the sum of the reserved and requested CPU nor the total
    is NaN the two return the same; on a NaN request CanAllocate refuses
    ([<=] is false) and Allocate accepts ([>] is false too).  When
    Allocate refuses, the ledger is as it was; when it accepts, the id
    holds the request in both maps, whatever it held before, and every
    other id and the totals are as they were. *)
Theorem Allocate_decides_as_CanAllocate (order : list string)
    (rm : ResourceManager) (id : string) (spec : ResourceSpec) :
  (CanAllocate order rm spec = true → (Allocate order rm id spec).2 = true) ∧
  (PrimFloat.is_nan (sumCPU order (allocatedCPU rm) + CPU spec) = false →
   PrimFloat.is_nan (TotalCPU rm) = false →
   (Allocate order rm id spec).2 = CanAllocate order rm spec) ∧
  (CanAllocate [] (NewResourceManager 4 8192) (mkResourceSpec nan 0) = false ∧
   (Allocate [] (NewResourceManager 4 8192) id (mkResourceSpec nan 0)).2
   = true) ∧
  ((Allocate order rm id spec).2 = false →
   (Allocate order rm id spec).1 = rm) ∧
  ((Allocate order rm id spec).2 = true →
   allocatedCPU (Allocate order rm id spec).1 !! id = Some (CPU spec) ∧
   allocatedMemory (Allocate order rm id spec).1 !! id = Some (Memory spec) ∧
   TotalCPU (Allocate order rm id spec).1 = TotalCPU rm ∧
   TotalMemory (Allocate order rm id spec).1 = TotalMemory rm ∧
   ∀ id', id' ≠ id →
     allocatedCPU (Allocate order rm id spec).1 !! id'
     = allocatedCPU rm !! id' ∧
     allocatedMemory (Allocate order rm id spec).1 !! id'
     = allocatedMemory rm !! id').
Proof.
  split; [apply CanAllocate_Allocate|].
  split; [apply Allocate_CanAllocate_same|].
  split; [split; vm_compute; reflexivity|].
  split; [apply Allocate_false|apply Allocate_accepted].
Qed.

Lemma Allocate_decides_as_CanAllocate_witness :
  let rm := NewResourceManager 4 8192 in
  CanAllocate [] rm (mkResourceSpec 4 8192) = true ∧
  (Allocate [] rm "a" (mkResourceSpec 4 8192)).2 = true ∧
  (Allocate [] rm "a" (mkResourceSpec 5 1)).2 = false ∧
  (Allocate [] rm "a" (mkResourceSpec 5 1)).1 = rm ∧
  allocatedCPU (Allocate [] rm "a" (mkResourceSpec 4 8192)).1 !! "a"%string
  = Some 4%float.
Proof.
  cbv zeta.
  destruct (Allocate_decides_as_CanAllocate [] (NewResourceManager 4 8192) "a"
              (mkResourceSpec 5 1)) as (_ & _ & _ & Hno & _).
  destruct (Allocate_decides_as_CanAllocate [] (NewResourceManager 4 8192) "a"
              (mkResourceSpec 4 8192)) as (Hyes & _ & _ & _ & Hrec).
  assert (CanAllocate [] (NewResourceManager 4 8192) (mkResourceSpec 4 8192)
          = true) as Hc by (vm_compute; reflexivity).
  assert ((Allocate [] (NewResourceManager 4 8192) "a" (mkResourceSpec 5 1)).2
          = false) as Hf by (vm_compute; reflexivity).
  split; [exact Hc|]. split; [exact (Hyes Hc)|]. split; [exact Hf|].
  split; [exact (Hno Hf)|]. by destruct (Hrec (Hyes Hc)) as (Hcpu & _).
Defined.

Lemma sumCPU_app (o1 o2 : list string) (m : gmap string float) :
  sumCPU (o1 ++ o2) m
  = foldl (λ usedCPU k,
             match m !! k with
             | Some v => (usedCPU + v)%float
             | None => usedCPU
             end)
      (sumCPU o1 m) o2.
Proof. unfold sumCPU. apply foldl_app. Qed.

(** The sum over an order reads only the entries under its keys. *)
Lemma sumCPU_ext (order : list string) (m1 m2 : gmap string float) :
  (∀ k, k ∈ order → m1 !! k = m2 !! k) → sumCPU order m1 = sumCPU order m2.
Proof.
  unfold sumCPU. generalize 0%float.
  induction order as [|k order IH]; intros acc Hext; simpl; [done|].
  rewrite (Hext k) by left. apply IH. intros k' ?. apply Hext. by right.
Qed.

(** What a reservation weighs in Usage.  The memory sums are 64-bit sums
    and do not depend on the order of a range: an accepted Allocate leaves
    the memory usage of the ledger without the id, plus the request (a
    reservation the id already held is replaced, not added to), and
    Release of an id that holds a reservation lowers the memory usage by
    what the id held.  The CPU sum is a [float64] sum in the order of the
    range: when the range reaches the id of an accepted Allocate last, and
    once, Usage reports the sum of the other reservations, in that order,
    plus the request. *)
Theorem Usage_of_a_reservation (rm : ResourceManager) (id : string) :
  (∀ order o1 o2 spec, (Allocate order rm id spec).2 = true →
     Memory (Usage o1 (Allocate order rm id spec).1)
     = Int64.add (Memory (Usage o2 (Release rm id))) (Memory spec)) ∧
  (∀ o1 o2 mem, allocatedMemory rm !! id = Some mem →
     Memory (Usage o1 rm) = Int64.add (Memory (Usage o2 (Release rm id))) mem) ∧
  (∀ order o spec, (Allocate order rm id spec).2 = true → id ∉ o →
     CPU (Usage (o ++ [id]) (Allocate order rm id spec).1)
     = (CPU (Usage o rm) + CPU spec)%float).
Proof.
  split; [|split].
  - intros order o1 o2 spec. unfold Allocate.
    destruct (_ || _); simpl; [done|]. intros _.
    rewrite <-(insert_delete_eq (allocatedMemory rm)).
    by rewrite sumMemory_insert by apply lookup_delete_eq.
  - intros o1 o2 mem Hm. simpl.
    by rewrite <-(sumMemory_delete _ id mem Hm).
  - intros order o spec. unfold Allocate.
    destruct (_ || _); simpl; [done|]. intros _ Hni.
    rewrite sumCPU_app. simpl. rewrite lookup_insert_eq.
    f_equal. apply sumCPU_ext. intros k Hk.
    apply lookup_insert_ne. by intros <-.
Qed.

Lemma Usage_of_a_reservation_witness :
  Memory (Usage [] (Allocate ["web"%string] examples.ledger_web "web"
                      (mkResourceSpec 2 100)).1)
  = 100 ∧
  Memory (Usage ["web"%string] examples.ledger_web) = 2048 ∧
  CPU (Usage ["web"; "db"]%string
         (Allocate ["web"%string] examples.ledger_web "db"
            (mkResourceSpec 0.5 100)).1)
  = 1.5%float.
Proof.
  destruct (Usage_of_a_reservation examples.ledger_web "web") as (Hal & Hrel & _).
  destruct (Usage_of_a_reservation examples.ledger_web "db") as (_ & _ & Hcpu).
  split; [|split].
  - rewrite (Hal ["web"%string] [] [] (mkResourceSpec 2 100));
      vm_compute; reflexivity.
  - rewrite (Hrel ["web"%string] [] 2048); vm_compute; reflexivity.
  - etrans;
      [apply (Hcpu ["web"%string] ["web"%string] (mkResourceSpec 0.5 100))|].
    + vm_compute. reflexivity.
    + apply (bool_decide_unpack _). vm_compute. exact I.
    + vm_compute. reflexivity.
Defined.

(** Release touches the released id only, and Allocate followed by Release
    of an id that held no reservation gives the ledger back, whether the
    request was accepted or not. *)
Theorem Release_undoes_Allocate (rm : ResourceManager) (id : string) :
  (∀ id', id' ≠ id →
     allocatedCPU (Release rm id) !! id' = allocatedCPU rm !! id' ∧
     allocatedMemory (Release rm id) !! id' = allocatedMemory rm !! id') ∧
  unreserved (Release rm id) id ∧
  (unreserved rm id →
   ∀ order spec, Release (Allocate order rm id spec).1 id = rm).
Proof.
  split; [|split].
  - intros id' Hne. unfold Release; simpl. by rewrite !lookup_delete_ne.
  - split; apply lookup_delete_eq.
  - intros [Hc Hm] order spec. by apply Release_Allocate_fresh.
Qed.

Lemma Release_undoes_Allocate_witness :
  unreserved (NewResourceManager 4 8192) "web" ∧
  Release examples.ledger_web "web" = NewResourceManager 4 8192.
Proof.
  assert (unreserved (NewResourceManager 4 8192) "web") as Hfree
    by (split; reflexivity).
  split; [exact Hfree|].
  destruct (Release_undoes_Allocate (NewResourceManager 4 8192) "web")
    as (_ & _ & Hundo).
  exact (Hundo Hfree [] (mkResourceSpec 1 2048)).
Defined.

(** A loop is a fold from the left; read from the right it is the fold
    over the reversed list. *)
Lemma foldl_as_foldr {A B : Type} (f : A → B → A) (a : A) (l : list B) :
  foldl f a l = foldr (λ x acc, f acc x) a (reverse l).
Proof.
  revert a. induction l as [|x l IH]; intros a; [done|].
  rewrite reverse_cons, foldr_app. simpl. apply IH.
Qed.

(** The reserved memory AllocatedMemorySum reports does not depend on the
    order in which its loop visits the entries of the map: adding the
    amounts up in 64 bits, from zero, in any order of the entries, gives
    the same number, which is also the memory Usage reports, whatever the
    order of its own range. *)
Theorem AllocatedMemorySum_any_order (rm : ResourceManager)
    (l : list (string * Z)) :
  l ≡ₚ map_to_list (allocatedMemory rm) →
  foldl (λ acc kv, Int64.add acc kv.2) 0 l = AllocatedMemorySum rm ∧
  ∀ order, AllocatedMemorySum rm = Memory (Usage order rm).
Proof.
  intros Hl. split; [|done].
  rewrite foldl_as_foldr. apply sumMemory_any_order.
  by rewrite reverse_Permutation.
Qed.

Lemma AllocatedMemorySum_any_order_witness :
  let rm := {| TotalCPU := 4; TotalMemory := 8192; allocatedCPU := ∅;
               allocatedMemory :=
                 <["a"%string := 50]>
                   (<["b"%string := Int64.max_int]>
                      (<["c"%string := 7]> ∅)) |} in
  foldl (λ acc kv, Int64.add acc kv.2) 0
    [("b"%string, Int64.max_int); ("a"%string, 50); ("c"%string, 7)]
  = AllocatedMemorySum rm.
Proof.
  cbv zeta. apply AllocatedMemorySum_any_order. cbn [allocatedMemory].
  apply NoDup_Permutation.
  - apply (bool_decide_unpack _). vm_compute. exact I.
  - apply NoDup_map_to_list.
  - intros [k v]. rewrite elem_of_map_to_list.
    rewrite !elem_of_cons, elem_of_nil.
    rewrite !lookup_insert_Some, lookup_empty.
    split.
    + intros [Heq|[Heq|[Heq|[]]]]; injection Heq as -> ->; naive_solver.
    + intros [[<- <-]|[? [[<- <-]|[? [[<- <-]|[_ [=]]]]]]]; auto.
Defined.

End ledger_more.

(** * The lifecycle manager: termination *)

Section manager_termination.
Import resourcemanager manager.
Context {D : Type} `{docker.Client D}.

Lemma TerminateContainer_error_keeps (m m' : Manager) (d d' : D)
    (id : string) (e : docker.error) :
  TerminateContainer m d id = (m', d', Some e) → m' = m.
Proof.
  unfold TerminateContainer. destruct (state m !! id) as [info|]; [|congruence].
  destruct (docker.StopContainer d id) as [d1 [e1|]]; [congruence|].
  destruct (docker.RemoveContainer d1 id) as [d2 [e2|]]; congruence.
Qed.

Lemma TerminateContainer_success (m m' : Manager) (d d' : D) (id : string) :
  TerminateContainer m d id = (m', d', None) →
  ∃ info d1,
    state m !! id = Some info ∧
    docker.StopContainer d id = (d1, None) ∧
    docker.RemoveContainer d1 id = (d', None) ∧
    m' = {| state := delete id (state m);
            resources := Release (resources m) (Name info) |}.
Proof.
  unfold TerminateContainer. destruct (state m !! id) as [info|]; [|congruence].
  destruct (docker.StopContainer d id) as [d1 [e1|]] eqn:Hstop; [congruence|].
  destruct (docker.RemoveContainer d1 id) as [d2 [e2|]] eqn:Hrm; [congruence|].
  intros [= <- <-]. by exists info, d1.
Qed.

Lemma TerminateContainer_absent (m : Manager) (d : D) (id : string) :
  state m !! id = None →
  TerminateContainer m d id = (m, d, Some "container not found"%string).
Proof. unfold TerminateContainer. by intros ->. Qed.

(** C8. Terminating an id that is not in the manager's state returns the
    error "container not found" and leaves the state map, the ledger and
    the daemon as they were.  When the daemon refuses the stop, or accepts
    the stop and refuses the remove, the call returns that error under the
    prefix "stop error: " or "remove error: " and the manager (state map
    and ledger) is unchanged.  When the id is in the state and the daemon
    accepts the stop and then the remove, the call returns no error, the
    record is deleted and the reservation under the record's name is
    released; and the call returns no error in that case only. *)
Theorem manager_TerminateContainer_outcomes (m : Manager) (d : D) (id : string) :
  (state m !! id = None →
   TerminateContainer m d id = (m, d, Some "container not found"%string)) ∧
  (∀ info d1 e,
     state m !! id = Some info → docker.StopContainer d id = (d1, Some e) →
     TerminateContainer m d id = (m, d1, Some ("stop error: " +:+ e))) ∧
  (∀ info d1 d2 e,
     state m !! id = Some info → docker.StopContainer d id = (d1, None) →
     docker.RemoveContainer d1 id = (d2, Some e) →
     TerminateContainer m d id = (m, d2, Some ("remove error: " +:+ e))) ∧
  (∀ info d1 d2,
     state m !! id = Some info → docker.StopContainer d id = (d1, None) →
     docker.RemoveContainer d1 id = (d2, None) →
     TerminateContainer m d id
     = ({| state := delete id (state m);
           resources := Release (resources m) (Name info) |}, d2, None)) ∧
  (∀ m' d' e, TerminateContainer m d id = (m', d', Some e) → m' = m) ∧
  (∀ m' d',
     TerminateContainer m d id = (m', d', None) →
     ∃ info d1,
       state m !! id = Some info ∧
       docker.StopContainer d id = (d1, None) ∧
       docker.RemoveContainer d1 id = (d', None) ∧
       state m' = delete id (state m) ∧
       resources m' = Release (resources m) (Name info)).
Proof.
  split; [apply TerminateContainer_absent|].
  split.
  { intros info d1 e Hid Hstop. unfold TerminateContainer.
    by rewrite Hid, Hstop. }
  split.
  { intros info d1 d2 e Hid Hstop Hrm. unfold TerminateContainer.
    by rewrite Hid, Hstop, Hrm. }
  split.
  { intros info d1 d2 Hid Hstop Hrm. unfold TerminateContainer.
    by rewrite Hid, Hstop, Hrm. }
  split; [intros m' d' e; apply TerminateContainer_error_keeps|].
  intros m' d' Hok.
  destruct (TerminateContainer_success _ _ _ _ _ Hok)
    as (info & d1 & Hid & Hstop & Hrm & ->).
  by exists info, d1.
Qed.

End manager_termination.

Section manager_termination_witness.
Import resourcemanager manager.

Lemma manager_TerminateContainer_outcomes_witness :
  TerminateContainer (examples.mgr_web 0) (scripted.fresh []) "unit-db"
  = (examples.mgr_web 0, scripted.fresh [], Some "container not found"%string) ∧
  TerminateContainer (examples.mgr_web 0) (scripted.fresh [scripted.StopPhase])
    "unit-web"
  = (examples.mgr_web 0,
     {| scripted.calls := [scripted.Stop "unit-web"];
        scripted.failing := [scripted.StopPhase] |},
     Some "stop error: stop refused"%string) ∧
  TerminateContainer (examples.mgr_web 0)
    (scripted.fresh [scripted.RemovePhase]) "unit-web"
  = (examples.mgr_web 0,
     {| scripted.calls := [scripted.Stop "unit-web"; scripted.Remove "unit-web"];
        scripted.failing := [scripted.RemovePhase] |},
     Some "remove error: remove refused"%string) ∧
  TerminateContainer (examples.mgr_web 0) (scripted.fresh []) "unit-web"
  = ({| state := delete "unit-web"%string (state (examples.mgr_web 0));
        resources := Release (resources (examples.mgr_web 0)) "web" |},
     {| scripted.calls := [scripted.Stop "unit-web"; scripted.Remove "unit-web"];
        scripted.failing := [] |},
     None) ∧
  state (TerminateContainer (examples.mgr_web 0) (scripted.fresh [])
           "unit-web").1.1 = ∅ ∧
  resources (TerminateContainer (examples.mgr_web 0) (scripted.fresh [])
               "unit-web").1.1 = NewResourceManager 4 8192.
Proof.
  assert (TerminateContainer (examples.mgr_web 0) (scripted.fresh []) "unit-web"
          = ({| state := delete "unit-web"%string (state (examples.mgr_web 0));
                resources := Release (resources (examples.mgr_web 0)) "web" |},
             {| scripted.calls :=
                  [scripted.Stop "unit-web"; scripted.Remove "unit-web"];
                scripted.failing := [] |},
             None)) as Hdone.
  { destruct (manager_TerminateContainer_outcomes (examples.mgr_web 0)
                (scripted.fresh []) "unit-web") as (_ & _ & _ & Hok & _).
    apply (Hok (examples.info_web 0)
             {| scripted.calls := [scripted.Stop "unit-web"];
                scripted.failing := [] |}); reflexivity. }
  split; [|split; [|split; [|split; [exact Hdone|]]]].
  - destruct (manager_TerminateContainer_outcomes (examples.mgr_web 0)
                (scripted.fresh []) "unit-db") as [Habsent _].
    apply Habsent. reflexivity.
  - destruct (manager_TerminateContainer_outcomes (examples.mgr_web 0)
                (scripted.fresh [scripted.StopPhase]) "unit-web")
      as (_ & Hstop & _).
    apply (Hstop (examples.info_web 0)); reflexivity.
  - destruct (manager_TerminateContainer_outcomes (examples.mgr_web 0)
                (scripted.fresh [scripted.RemovePhase]) "unit-web")
      as (_ & _ & Hremove & _).
    apply (Hremove (examples.info_web 0)
             {| scripted.calls := [scripted.Stop "unit-web"];
                scripted.failing := [scripted.RemovePhase] |}); reflexivity.
  - rewrite Hdone. split; vm_compute; reflexivity.
Defined.

End manager_termination_witness.

(** * The lifecycle manager: the expiration sweep *)

Section manager_sweep.
Import resourcemanager manager sweep.
Context {D : Type} `{docker.Client D}.

Lemma attempted_cons (id : string) (ev : SweepEvent) (evs : list SweepEvent) :
  attempted id (ev :: evs) ↔
  ev = AutoTerminated id ∨ (∃ e, ev = FailedAutoTerminate id e) ∨
  attempted id evs.
Proof.
  unfold attempted. setoid_rewrite elem_of_cons. naive_solver.
Qed.

Lemma attempted_nil (id : string) : ¬ attempted id [].
Proof. unfold attempted. setoid_rewrite elem_of_nil. naive_solver. Qed.

(** What one run of the sweep does, for any visiting order without
    repetition. *)
Lemma cleanupExpiredContainers_run (now : Z) (order : list string) :
  NoDup order →
  ∀ (m : Manager) (d : D) m' d' evs,
    cleanupExpiredContainers now order m d = (m', d', evs) →
    (∀ id, attempted id evs ↔
       id ∈ order ∧ ∃ info, state m !! id = Some info ∧ expired now info = true) ∧
    (∀ id, AutoTerminated id ∈ evs → state m' !! id = None) ∧
    (∀ id, AutoTerminated id ∉ evs → state m' !! id = state m !! id) ∧
    (∀ id info, AutoTerminated id ∈ evs → state m !! id = Some info →
       ledger.unreserved (resources m') (Name info)) ∧
    (∀ name,
       (allocatedCPU (resources m') !! name = None ∨
        allocatedCPU (resources m') !! name = allocatedCPU (resources m) !! name) ∧
       (allocatedMemory (resources m') !! name = None ∨
        allocatedMemory (resources m') !! name
        = allocatedMemory (resources m) !! name)) ∧
    (∀ name,
       (∀ id info, AutoTerminated id ∈ evs → state m !! id = Some info →
          Name info ≠ name) →
       allocatedCPU (resources m') !! name = allocatedCPU (resources m) !! name ∧
       allocatedMemory (resources m') !! name
       = allocatedMemory (resources m) !! name) ∧
    (∀ id e, FailedAutoTerminate id e ∈ evs → AutoTerminated id ∉ evs).
Proof.
  induction 1 as [|id rest Hid Hnd IH]; intros m d m' d' evs Hrun; simpl in Hrun.
  { injection Hrun as <- <- <-.
    split; [|split; [|split; [|split; [|split; [|split]]]]]; try done.
    - intros id. split; [by intros ?%attempted_nil|].
      by intros [?%elem_of_nil _].
    - by intros id ?%elem_of_nil.
    - by intros id info ?%elem_of_nil.
    - intros name. split; by right.
    - by intros id e ?%elem_of_nil. }
  destruct (state m !! id) as [info|] eqn:Hlook.
  2:{ destruct (IH _ _ _ _ _ Hrun) as (I1 & I2 & I3 & I4 & I5 & I6 & I7).
      split; [|done]. intros id'. rewrite I1, elem_of_cons.
      split; [naive_solver|]. intros [[->|?] (info & ? & ?)]; [congruence|eauto]. }
  destruct (expired now info) eqn:Hexp.
  2:{ destruct (IH _ _ _ _ _ Hrun) as (I1 & I2 & I3 & I4 & I5 & I6 & I7).
      split; [|done]. intros id'. rewrite I1, elem_of_cons.
      split; [naive_solver|]. intros [[->|?] (info' & ? & ?)]; [congruence|eauto]. }
  destruct (TerminateContainer m d id) as [[m1 d1] err] eqn:Hterm.
  destruct (cleanupExpiredContainers now rest m1 d1) as [[m2 d2] evs'] eqn:Hrest.
  injection Hrun as <- <- <-.
  destruct (IH _ _ _ _ _ Hrest) as (I1 & I2 & I3 & I4 & I5 & I6 & I7).
  assert (¬ attempted id evs') as Hfresh.
  { intros Ha. apply I1 in Ha as [? _]. done. }
  destruct err as [e|].
  - (* the termination failed: the manager is as before *)
    apply TerminateContainer_error_keeps in Hterm as ->.
    assert (∀ id', AutoTerminated id' ∈ FailedAutoTerminate id e :: evs' ↔
                   AutoTerminated id' ∈ evs') as Hev.
    { intros id'. rewrite elem_of_cons. naive_solver. }
    split; [|split; [|split; [|split; [|split; [|split]]]]].
    + intros id'. rewrite attempted_cons, I1, elem_of_cons.
      split; [|naive_solver].
      intros [?|[[e' [= <- <-]]|?]]; [done|eauto|naive_solver].
    + intros id'. rewrite Hev. apply I2.
    + intros id'. rewrite Hev. apply I3.
    + intros id' info'. rewrite Hev. apply I4.
    + apply I5.
    + intros name Hname. apply I6. intros id' info' ?. apply Hname.
      by apply Hev.
    + intros id' e'. rewrite Hev, elem_of_cons.
      intros [[= -> ->]|Hin]; [|by apply (I7 id' e')].
      intros Hin. apply Hfresh. by left.
  - (* the termination succeeded: the record and its reservation are gone *)
    apply TerminateContainer_success in Hterm
      as (info0 & d0 & Hinfo0 & _ & _ & ->).
    assert (info0 = info) as -> by congruence. simpl in *.
    assert (∀ id', id' ≠ id → AutoTerminated id' ∈ AutoTerminated id :: evs' ↔
                   AutoTerminated id' ∈ evs') as Hev.
    { intros id' Hne. rewrite elem_of_cons. naive_solver. }
    assert (AutoTerminated id ∉ evs') as Hnot.
    { intros Hin. apply Hfresh. by left. }
    split; [|split; [|split; [|split; [|split; [|split]]]]].
    + intros id'. rewrite attempted_cons, I1, elem_of_cons.
      split.
      * intros [[= <-]|[[e' [=]]|(Hin & info' & Hl & ?)]]; [eauto|].
        split; [by right|]. exists info'. split; [|done].
        apply lookup_delete_Some in Hl. tauto.
      * intros [[->|Hin] (info' & Hl & ?)]; [by left|].
        right; right. split; [done|]. exists info'. split; [|done].
        apply lookup_delete_Some. split; [|done]. by intros <-.
    + intros id'. destruct (decide (id' = id)) as [->|Hne].
      * intros _. rewrite I3 by done. apply lookup_delete_eq.
      * rewrite Hev by done. apply I2.
    + intros id' Hni. assert (id' ≠ id) as Hne.
      { intros ->. apply Hni. by left. }
      rewrite I3 by (by rewrite <-Hev). by apply lookup_delete_ne.
    + intros id' info'. destruct (decide (id' = id)) as [->|Hne].
      * intros _ Hl. assert (info' = info) as -> by congruence.
        destruct (I5 (Name info)) as [[Hc|Hc] [Hm|Hm]]; split; try done;
          rewrite ?Hc, ?Hm; apply lookup_delete_eq.
      * rewrite Hev by done. intros Hin Hl. apply (I4 id'); [done|].
        by rewrite lookup_delete_ne.
    + intros name. destruct (I5 name) as [[Hc|Hc] [Hm|Hm]];
        rewrite ?Hc, ?Hm; (split; [|]);
        try (by left);
        destruct (decide (Name info = name)) as [<-|Hne];
        rewrite ?lookup_delete_eq, ?lookup_delete_ne by done; auto.
    + intros name Hname.
      assert (Name info ≠ name) as Hne.
      { apply (Hname id); [by left|done]. }
      destruct (I6 name) as [Hc Hm].
      { intros id' info' Hin Hl. apply lookup_delete_Some in Hl as [Hne' Hl].
        apply (Hname id'); [|done]. by right. }
      rewrite Hc, Hm. by rewrite !lookup_delete_ne.
    + intros id' e'. rewrite elem_of_cons. intros [[=]|Hin].
      destruct (decide (id' = id)) as [->|Hne].
      * exfalso. apply Hfresh. right. by exists e'.
      * rewrite Hev by done. by apply (I7 id' e').
Qed.

End manager_sweep.

Section manager_sweep_run.
Import resourcemanager manager sweep.
Context {D : Type} `{docker.Client D}.

Lemma expired_ids_ext (now : Z) (order : list string) (m1 m2 : Manager) :
  (∀ id, id ∈ order → state m1 !! id = state m2 !! id) →
  expired_ids now order m1 = expired_ids now order m2.
Proof.
  unfold expired_ids. induction order as [|id rest IH]; intros Hext; [done|].
  rewrite !filter_cons, (Hext id) by left.
  rewrite IH; [done|]. intros id' ?. apply Hext. by right.
Qed.

(** TerminateContainer leaves the records under the other ids alone. *)
Lemma TerminateContainer_other (m m' : Manager) (d d' : D) (id id' : string)
    (err : option docker.error) :
  TerminateContainer m d id = (m', d', err) → id' ≠ id →
  state m' !! id' = state m !! id'.
Proof.
  intros Hterm Hne. destruct err as [e|].
  - by apply TerminateContainer_error_keeps in Hterm as ->.
  - apply TerminateContainer_success in Hterm as (info & d1 & _ & _ & _ & ->).
    simpl. by apply lookup_delete_ne.
Qed.

(** One run of the sweep is the sequence of the TerminateContainer calls
    for the records that had expired when the run began, in the order of
    the visit. *)
Lemma cleanupExpiredContainers_terminate_each (now : Z) (order : list string) :
  NoDup order →
  ∀ (m : Manager) (d : D),
    cleanupExpiredContainers now order m d
    = terminate_each (expired_ids now order m) m d.
Proof.
  induction 1 as [|id rest Hid Hnd IH]; intros m d; [done|].
  cbn [cleanupExpiredContainers]. unfold expired_ids.
  rewrite filter_cons. fold (expired_ids now rest m).
  destruct (state m !! id) as [info|] eqn:Hlook; cbn [from_option].
  2:{ rewrite decide_False by done. apply IH. }
  destruct (expired now info) eqn:Hexp.
  2:{ rewrite decide_False by done. apply IH. }
  rewrite decide_True by done. cbn [terminate_each].
  destruct (TerminateContainer m d id) as [[m1 d1] err] eqn:Hterm.
  rewrite IH. rewrite (expired_ids_ext now rest m1 m); [done|].
  intros id' Hin. apply (TerminateContainer_other _ _ _ _ _ _ _ Hterm).
  by intros ->.
Qed.

(** On a daemon that accepts every stop and every remove, from the states
    an invariant describes, no termination of the sweep fails. *)
Lemma cleanupExpiredContainers_accepted (Inv : D → Prop) (now : Z)
    (order : list string) :
  (∀ d0 id0, Inv d0 →
     (docker.StopContainer d0 id0).2 = None ∧
     Inv (docker.StopContainer d0 id0).1) →
  (∀ d0 id0, Inv d0 →
     (docker.RemoveContainer d0 id0).2 = None ∧
     Inv (docker.RemoveContainer d0 id0).1) →
  ∀ (m : Manager) (d : D) m' d' evs,
    Inv d →
    cleanupExpiredContainers now order m d = (m', d', evs) →
    Inv d' ∧ ∀ id e, FailedAutoTerminate id e ∉ evs.
Proof.
  intros Hstop Hremove.
  induction order as [|id rest IH]; intros m d m' d' evs Hd Hrun;
    simpl in Hrun.
  { injection Hrun as <- <- <-. split; [done|]. intros id e ?%elem_of_nil.
    done. }
  destruct (state m !! id) as [info|] eqn:Hlook; [|by eapply IH].
  destruct (expired now info); [|by eapply IH].
  unfold TerminateContainer in Hrun. rewrite Hlook in Hrun.
  destruct (Hstop d id Hd) as [Hs1 Hs2].
  destruct (docker.StopContainer d id) as [d1 err1]; simpl in *. subst err1.
  destruct (Hremove d1 id Hs2) as [Hr1 Hr2].
  destruct (docker.RemoveContainer d1 id) as [d2 err2]; simpl in *. subst err2.
  destruct (cleanupExpiredContainers now rest _ d2) as [[m2 d3] evs'] eqn:Hrest.
  injection Hrun as <- <- <-.
  destruct (IH _ _ _ _ _ Hr2 Hrest) as [Hd3 Hnone].
  split; [done|]. intros id' e [[=]|Hin]%elem_of_cons. by apply (Hnone id' e).
Qed.

End manager_sweep_run.

Section manager_sweep_claims.
Import resourcemanager manager sweep.

Lemma expired_true (now : Z) (info : ContainerInfo) :
  expired now info = true ↔ TTL info > 0 ∧ CreatedAt info + TTL info < now.
Proof.
  unfold expired. by rewrite andb_true_iff, !bool_decide_eq_true.
Qed.

(** C7, as amended.  One run of the sweep is the sequence of
    TerminateContainer calls for exactly the stored records whose time to
    live is strictly positive and whose creation instant plus time to live
    is strictly before the instant of the scan, in the order of the visit.
    A record whose time to live is zero or negative is never touched,
    whatever the instant.  A record whose termination succeeded is gone
    from the state and the reservation under its name is released.  A
    record whose termination failed is still in the state, and so is the
    reservation under its name unless a record of the same name was
    terminated in the same run.  On a daemon that accepts every stop and
    every remove, every expired record is terminated. *)
Theorem sweep_terminates_expired {D : Type} `{docker.Client D} (now : Z)
    (order : list string) (m m' : Manager) (d d' : D) (evs : list SweepEvent) :
  range_order order (state m) →
  cleanupExpiredContainers now order m d = (m', d', evs) →
  terminate_each (expired_ids now order m) m d = (m', d', evs) ∧
  (∀ id, id ∈ expired_ids now order m ↔
     ∃ info, state m !! id = Some info ∧
             TTL info > 0 ∧ CreatedAt info + TTL info < now) ∧
  (∀ id info, state m !! id = Some info →
     (attempted id evs ↔ TTL info > 0 ∧ CreatedAt info + TTL info < now)) ∧
  (∀ id info, state m !! id = Some info → TTL info <= 0 →
     ¬ attempted id evs ∧ state m' !! id = Some info) ∧
  (∀ id info, state m !! id = Some info → AutoTerminated id ∈ evs →
     state m' !! id = None ∧ ledger.unreserved (resources m') (Name info)) ∧
  (∀ id info e, state m !! id = Some info → FailedAutoTerminate id e ∈ evs →
     state m' !! id = Some info ∧
     ((∀ id' info', AutoTerminated id' ∈ evs → state m !! id' = Some info' →
         Name info' ≠ Name info) →
      allocatedCPU (resources m') !! Name info
      = allocatedCPU (resources m) !! Name info ∧
      allocatedMemory (resources m') !! Name info
      = allocatedMemory (resources m) !! Name info)) ∧
  (∀ id, ¬ attempted id evs → state m' !! id = state m !! id) ∧
  (∀ Inv : D → Prop,
     Inv d →
     (∀ d0 id0, Inv d0 →
        (docker.StopContainer d0 id0).2 = None ∧
        Inv (docker.StopContainer d0 id0).1) →
     (∀ d0 id0, Inv d0 →
        (docker.RemoveContainer d0 id0).2 = None ∧
        Inv (docker.RemoveContainer d0 id0).1) →
     ∀ id info, state m !! id = Some info →
       TTL info > 0 → CreatedAt info + TTL info < now →
       AutoTerminated id ∈ evs ∧ state m' !! id = None ∧
       ledger.unreserved (resources m') (Name info)).
Proof.
  intros [Hnd Hord] Hrun.
  destruct (cleanupExpiredContainers_run now order Hnd _ _ _ _ _ Hrun)
    as (I1 & I2 & I3 & I4 & I5 & I6 & I7).
  assert (∀ id info, state m !! id = Some info →
            (attempted id evs ↔ TTL info > 0 ∧ CreatedAt info + TTL info < now))
    as Hatt.
  { intros id info Hl. rewrite I1, <-expired_true. split.
    - intros (_ & info' & Hl' & ?). by assert (info' = info) as -> by congruence.
    - intros ?. split; [apply Hord; eauto|eauto]. }
  split.
  { by rewrite <-cleanupExpiredContainers_terminate_each. }
  split.
  { intros id. unfold expired_ids. rewrite list_elem_of_filter, Hord.
    split.
    - intros [Hexp [info Hl]]. rewrite Hl in Hexp; simpl in Hexp.
      exists info. split; [done|]. by apply expired_true.
    - intros (info & Hl & Hexp). rewrite Hl; simpl.
      split; [by apply expired_true|eauto]. }
  split; [exact Hatt|].
  split.
  { intros id info Hl Httl.
    assert (¬ attempted id evs) as Hna.
    { rewrite (Hatt id info Hl). lia. }
    split; [done|]. rewrite I3; [done|]. intros ?. apply Hna. by left. }
  split.
  { intros id info Hl Hin. split; [by apply I2|by apply (I4 id)]. }
  split.
  { intros id info e Hl Hin. split.
    - rewrite I3; [done|]. by apply (I7 id e).
    - intros Hname. apply I6. intros id' info' Hin' Hl'. by apply (Hname id'). }
  split.
  { intros id Hna. apply I3. intros ?. apply Hna. by left. }
  intros Inv Hd Hstop Hremove id info Hl Httl Hpast.
  destruct (cleanupExpiredContainers_accepted Inv now order Hstop Hremove
              _ _ _ _ _ Hd Hrun) as [_ Hnone].
  assert (AutoTerminated id ∈ evs) as Hin.
  { destruct (proj2 (Hatt id info Hl)) as [Hin|[e Hin]]; [done|done|].
    by destruct (Hnone id e). }
  split; [done|]. split; [by apply I2|by apply (I4 id)].
Qed.

(** C7 as stated fails twice.  On a negative time to live: the first
    record below has a non-zero time to live and its creation instant plus
    time to live is in the past, and the sweep does not call the daemon and
    leaves the record and the ledger alone.  On a daemon that refuses: the
    second record has expired, the sweep tries to terminate it, and the
    record and its reservation are still there after the run. *)
Lemma sweep_leaves_expired_records :
  (let info := examples.info_web (-1000) in
   TTL info ≠ 0 ∧ CreatedAt info + TTL info < 5000 ∧
   cleanupExpiredContainers 5000 ["unit-web"%string]
     (examples.mgr_web (-1000)) (scripted.fresh [])
   = (examples.mgr_web (-1000), scripted.fresh [], [])) ∧
  (let info := examples.info_web 1000 in
   TTL info ≠ 0 ∧ CreatedAt info + TTL info < 5000 ∧
   cleanupExpiredContainers 5000 ["unit-web"%string]
     (examples.mgr_web 1000) (scripted.fresh [scripted.StopPhase])
   = (examples.mgr_web 1000,
      {| scripted.calls := [scripted.Stop "unit-web"];
         scripted.failing := [scripted.StopPhase] |},
      [FailedAutoTerminate "unit-web" "stop error: stop refused"])).
Proof. vm_compute. repeat split; congruence. Qed.

Lemma sweep_terminates_expired_witness :
  range_order ["unit-web"%string] (state (examples.mgr_web 1000)) ∧
  cleanupExpiredContainers 5000 ["unit-web"%string] (examples.mgr_web 1000)
    (scripted.fresh [])
  = ({| state := ∅; resources := NewResourceManager 4 8192 |},
     {| scripted.calls := [scripted.Stop "unit-web"; scripted.Remove "unit-web"];
        scripted.failing := [] |},
     [AutoTerminated "unit-web"]) ∧
  terminate_each ["unit-web"%string] (examples.mgr_web 1000) (scripted.fresh [])
  = ({| state := ∅; resources := NewResourceManager 4 8192 |},
     {| scripted.calls := [scripted.Stop "unit-web"; scripted.Remove "unit-web"];
        scripted.failing := [] |},
     [AutoTerminated "unit-web"]) ∧
  AutoTerminated "unit-web" ∈ [AutoTerminated "unit-web"] ∧
  (∅ : gmap string ContainerInfo) !! "unit-web"%string = None.
Proof.
  assert (cleanupExpiredContainers 5000 ["unit-web"%string]
            (examples.mgr_web 1000) (scripted.fresh [])
          = ({| state := ∅; resources := NewResourceManager 4 8192 |},
             {| scripted.calls :=
                  [scripted.Stop "unit-web"; scripted.Remove "unit-web"];
                scripted.failing := [] |},
             [AutoTerminated "unit-web"])) as Hrun
    by (vm_compute; reflexivity).
  assert (range_order ["unit-web"%string] (state (examples.mgr_web 1000)))
    as Hord.
  { split; [repeat constructor; set_solver|].
    intros k. simpl. rewrite list_elem_of_singleton.
    rewrite lookup_singleton_is_Some. naive_solver. }
  split; [exact Hord|]. split; [exact Hrun|].
  destruct (sweep_terminates_expired 5000 _ _ _ _ _ _ Hord Hrun)
    as (Heach & _ & _ & _ & _ & _ & _ & Hacc).
  split; [exact Heach|].
  destruct (Hacc (λ d0, scripted.failing d0 = [])) with
    (id := "unit-web"%string) (info := examples.info_web 1000)
    as (Hin & Hgone & _).
  - reflexivity.
  - intros d0 id0 Hd0. simpl. rewrite Hd0. split; reflexivity.
  - intros d0 id0 Hd0. simpl. rewrite Hd0. split; reflexivity.
  - reflexivity.
  - reflexivity.
  - reflexivity.
  - split; [exact Hin|exact Hgone].
Defined.

End manager_sweep_claims.

Section sweep_more.
Import resourcemanager manager sweep.
Context {D : Type} `{docker.Client D}.

(** A run of the sweep over a state in which no record has expired does
    nothing: the manager is as it was, the daemon is not called and
    nothing is printed, whatever the visiting order. *)
Theorem sweep_without_expired_record (now : Z) (order : list string)
    (m : Manager) (d : D) :
  (∀ id info, state m !! id = Some info → expired now info = false) →
  cleanupExpiredContainers now order m d = (m, d, []).
Proof.
  intros Hnone. induction order as [|id rest IH]; simpl; [done|].
  destruct (state m !! id) as [info|] eqn:Hid; [|done].
  by rewrite (Hnone id info Hid).
Qed.

(** A run of the sweep only removes.  A record in the state after the run
    was there before, unchanged; a reservation in the ledger after the run
    was there before, unchanged; and every record that is still stored
    although it had expired has its failure printed. *)
Theorem sweep_only_removes (now : Z) (order : list string) (m m' : Manager)
    (d d' : D) (evs : list SweepEvent) :
  range_order order (state m) →
  cleanupExpiredContainers now order m d = (m', d', evs) →
  (∀ id info, state m' !! id = Some info → state m !! id = Some info) ∧
  (∀ name cpu, allocatedCPU (resources m') !! name = Some cpu →
     allocatedCPU (resources m) !! name = Some cpu) ∧
  (∀ name mem, allocatedMemory (resources m') !! name = Some mem →
     allocatedMemory (resources m) !! name = Some mem) ∧
  (∀ id info, state m' !! id = Some info → expired now info = true →
     ∃ e, FailedAutoTerminate id e ∈ evs).
Proof.
  intros [Hnd Hord] Hrun.
  destruct (cleanupExpiredContainers_run now order Hnd _ _ _ _ _ Hrun)
    as (I1 & I2 & I3 & _ & I5 & _).
  assert (∀ id info, state m' !! id = Some info →
            (AutoTerminated id ∉ evs) ∧ state m !! id = Some info) as Hkept.
  { intros id info Hl.
    assert (AutoTerminated id ∉ evs) as Hni.
    { intros Hin. rewrite (I2 id Hin) in Hl. done. }
    split; [done|]. by rewrite <-(I3 id Hni). }
  split; [by intros id info Hl; apply Hkept|].
  split.
  { intros name cpu Hl. destruct (I5 name) as [[Hc|Hc] _]; congruence. }
  split.
  { intros name mem Hl. destruct (I5 name) as [_ [Hm|Hm]]; congruence. }
  intros id info Hl Hexp. destruct (Hkept id info Hl) as [Hni Hl0].
  assert (attempted id evs) as [Hin|Hin]; [|done|done].
  apply I1. split; [apply Hord; eauto|eauto].
Qed.

End sweep_more.

(** * Provisioning: the reservation on the failure paths *)

Section provisioning_rollback.
Import resourcemanager manager.
Context {D : Type} `{docker.Client D}.

Lemma with_resources_same (m : Manager) : with_resources m (resources m) = m.
Proof. by destruct m. Qed.

(** Every failure of the manager's ProvisionContainer leaves the manager as
    it was, when the workload's name had no reservation before the call. *)
Lemma ProvisionContainer_failure_restores (now : Z)
    (canOrder allocOrder : list string) (m m' : Manager) (d d' : D)
    (spec : docker.ContainerSpec) (info : option ContainerInfo)
    (e : docker.error) :
  ledger.unreserved (resources m) (docker.Name spec) →
  ProvisionContainer now canOrder allocOrder m d spec = (m', d', (info, Some e)) →
  m' = m ∧ info = None.
Proof.
  intros [Hc Hm]. unfold ProvisionContainer.
  destruct (negb (CanAllocate _ _ _)); [by intros [= <- <- <- <-]|].
  destruct (Allocate allocOrder (resources m) (docker.Name spec) _)
    as [rm1 ok] eqn:Halloc.
  pose proof (Release_Allocate_fresh allocOrder (resources m) (docker.Name spec)
    {| resourcemanager.CPU := docker.CPU spec;
       resourcemanager.Memory := docker.Memory spec |} Hc Hm) as Hrel.
  rewrite Halloc in Hrel; simpl in Hrel.
  destruct ok; simpl.
  2:{ pose proof (Allocate_false allocOrder (resources m) (docker.Name spec)
        {| resourcemanager.CPU := docker.CPU spec;
           resourcemanager.Memory := docker.Memory spec |}) as Hf.
      rewrite Halloc in Hf; simpl in Hf. rewrite Hf by done.
      rewrite with_resources_same. by intros [= <- <- <- <-]. }
  rewrite Hrel, with_resources_same.
  destruct (docker.PullImage _ _) as [d1 [e1|]]; [by intros [= <- <- <- <-]|].
  destruct (docker.CreateContainer _ _) as [d2 [id [e2|]]];
    [by intros [= <- <- <- <-]|].
  destruct (docker.StartContainer _ _) as [d3 [e3|]];
    [by intros [= <- <- <- <-]|done].
Qed.

End provisioning_rollback.

(** * More on the lifecycle manager *)

Section manager_more.
Import resourcemanager manager.
Context {D : Type} `{docker.Client D}.

(** ProvisionContainer returns a record or an error, never both and never
    neither.  When it returns a record: the request passed CanAllocate and
    was then accepted by Allocate; the daemon accepted the pull, the
    create and the start, in that order; the record carries the daemon's
    id, the fields of the spec, the instant of the call and the status
    "running"; it is stored under the daemon's id, and the ledger holds
    the request under the name of the spec. *)
Theorem ProvisionContainer_success (now : Z) (canOrder allocOrder : list string)
    (m : Manager) (d : D) (spec : docker.ContainerSpec) :
  let out := ProvisionContainer now canOrder allocOrder m d spec in
  ((∃ info, out.2 = (Some info, None)) ∨ (∃ e, out.2 = (None, Some e))) ∧
  (∀ info, out.2.1 = Some info →
     CanAllocate canOrder (resources m)
       (mkResourceSpec (docker.CPU spec) (docker.Memory spec)) = true ∧
     (Allocate allocOrder (resources m) (docker.Name spec)
        (mkResourceSpec (docker.CPU spec) (docker.Memory spec))).2 = true ∧
     (∃ d1 d2,
        docker.PullImage d (docker.Image spec) = (d1, None) ∧
        docker.CreateContainer d1 spec = (d2, (ID info, None)) ∧
        docker.StartContainer d2 (ID info) = (out.1.2, None)) ∧
     info = {| ID := ID info; Name := docker.Name spec;
               Image := docker.Image spec; CPU := docker.CPU spec;
               MemoryMB := docker.Memory spec; CreatedAt := now;
               Status := "running"; TTL := docker.TTL spec |} ∧
     state out.1.1 = <[ID info := info]> (state m) ∧
     allocatedCPU (resources out.1.1) !! docker.Name spec
     = Some (docker.CPU spec) ∧
     allocatedMemory (resources out.1.1) !! docker.Name spec
     = Some (docker.Memory spec) ∧
     GetContainerStatus out.1.1 (ID info) = (Some info, None)).
Proof.
  cbv zeta. unfold ProvisionContainer.
  destruct (CanAllocate _ _ _) eqn:Hcan; simpl.
  2:{ split; [right; eauto|]. intros info [=]. }
  pose proof (Allocate_accepted allocOrder (resources m) (docker.Name spec)
                (mkResourceSpec (docker.CPU spec) (docker.Memory spec)))
    as Hacc.
  destruct (Allocate _ _ _ _) as [rm1 ok]; simpl in *.
  destruct ok; simpl.
  2:{ split; [right; eauto|]. intros info [=]. }
  destruct (Hacc eq_refl) as (Hc & Hm & _).
  destruct (docker.PullImage _ _) as [d1 [e1|]] eqn:Hpull; simpl.
  { split; [right; eauto|]. intros info [=]. }
  destruct (docker.CreateContainer _ _) as [d2 [id [e2|]]] eqn:Hcreate; simpl.
  { split; [right; eauto|]. intros info [=]. }
  destruct (docker.StartContainer _ _) as [d3 [e3|]] eqn:Hstart; simpl.
  { split; [right; eauto|]. intros info [=]. }
  split; [left; eauto|]. intros info [= <-]; simpl.
  split; [done|]. split; [done|]. split; [by exists d1, d2|]. split; [done|].
  split; [done|]. split; [done|]. split; [done|].
  unfold GetContainerStatus; simpl. by rewrite lookup_insert_eq.
Qed.

(** The equations behind a returned record. *)
Lemma ProvisionContainer_record (now : Z) (canOrder allocOrder : list string)
    (m m' : Manager) (d d' : D) (spec : docker.ContainerSpec)
    (info : ContainerInfo) (err : option docker.error) :
  ProvisionContainer now canOrder allocOrder m d spec
  = (m', d', (Some info, err)) →
  err = None ∧ Name info = docker.Name spec ∧
  state m' = <[ID info := info]> (state m) ∧
  resources m'
  = (Allocate allocOrder (resources m) (docker.Name spec)
       (mkResourceSpec (docker.CPU spec) (docker.Memory spec))).1.
Proof.
  unfold ProvisionContainer.
  destruct (CanAllocate _ _ _); simpl; [|done].
  destruct (Allocate _ _ _ _) as [rm1 []]; simpl; [|done].
  destruct (docker.PullImage _ _) as [d1 [e1|]]; [done|].
  destruct (docker.CreateContainer _ _) as [d2 [id [e2|]]]; [done|].
  destruct (docker.StartContainer _ _) as [d3 [e3|]]; [done|].
  by intros [= <- <- <- <-].
Qed.

(** Provisioning a workload and then terminating it, both accepted by the
    daemon, gives the manager back as it was before the two calls: the
    record is gone and the ledger holds what it held.  The name must have
    had no reservation and the id the daemon chose no record. *)
Theorem Provision_then_Terminate (now : Z) (canOrder allocOrder : list string)
    (m m1 m2 : Manager) (d d1 d2 : D) (spec : docker.ContainerSpec)
    (info : ContainerInfo) :
  ledger.unreserved (resources m) (docker.Name spec) →
  state m !! ID info = None →
  ProvisionContainer now canOrder allocOrder m d spec
  = (m1, d1, (Some info, None)) →
  TerminateContainer m1 d1 (ID info) = (m2, d2, None) →
  m2 = m.
Proof.
  intros [Hc Hm] Hfresh Hprov Hterm.
  apply ProvisionContainer_record in Hprov as (_ & Hname & Hstate & Hres).
  apply TerminateContainer_success in Hterm
    as (info0 & d0 & Hlook & _ & _ & ->).
  rewrite Hstate, lookup_insert_eq in Hlook. injection Hlook as <-.
  rewrite Hstate, Hres, Hname, delete_insert_id by done.
  rewrite Release_Allocate_fresh by done. by destruct m.
Qed.

(** GetContainerStatus answers from the state map: the record stored under
    the id, or "container not found".  It finds what AddContainer stored,
    and no longer finds what TerminateContainer removed; neither call
    changes the answer for another id. *)
Theorem GetContainerStatus_follows_state (m : Manager) (id : string) :
  (∀ info, GetContainerStatus m id = (Some info, None) ↔
           state m !! id = Some info) ∧
  (GetContainerStatus m id = (None, Some "container not found"%string) ↔
   state m !! id = None) ∧
  (∀ id' info,
     GetContainerStatus (AddContainer m id' info) id
     = if decide (id' = id) then (Some info, None)
       else GetContainerStatus m id) ∧
  (∀ id' (d d' : D) m',
     TerminateContainer m d id' = (m', d', None) →
     GetContainerStatus m' id
     = if decide (id' = id) then (None, Some "container not found"%string)
       else GetContainerStatus m id).
Proof.
  unfold GetContainerStatus. split; [|split; [|split]].
  - intros info. destruct (state m !! id); naive_solver.
  - destruct (state m !! id); naive_solver.
  - intros id' info. simpl. rewrite lookup_insert. by destruct (decide _).
  - intros id' d d' m' Hterm.
    apply TerminateContainer_success in Hterm as (info & d1 & _ & _ & _ & ->).
    simpl. rewrite lookup_delete. by destruct (decide _).
Qed.

End manager_more.

Section manager_listing.
Import resourcemanager manager.

Lemma omap_lookup_keys {A : Type} (m : gmap string A) (l : list (string * A)) :
  (∀ k v, (k, v) ∈ l → m !! k = Some v) →
  omap (λ k, m !! k) l.*1 = l.*2.
Proof.
  induction l as [|[k v] l IH]; intros Hl; csimpl; [done|].
  rewrite (Hl k v) by left. simpl. rewrite IH; [done|].
  intros k' v' ?. apply Hl. by right.
Qed.

(** A visiting order is a rearrangement of the keys. *)
Lemma range_order_keys {A : Type} (order : list string) (m : gmap string A) :
  range_order order m → order ≡ₚ (map_to_list m).*1.
Proof.
  intros [Hnd Hord]. apply NoDup_Permutation; [done|apply NoDup_fst_map_to_list|].
  intros k. rewrite Hord, list_elem_of_fmap. split.
  - intros [v Hv]. exists (k, v). split; [done|]. by apply elem_of_map_to_list.
  - intros ([k' v] & -> & Hin). apply elem_of_map_to_list in Hin. eauto.
Qed.

Lemma ListActiveContainers_lists_state_aux (order : list string) (m : Manager) :
  range_order order (state m) →
  (ListActiveContainers order m).1 ≡ₚ (map_to_list (state m)).*2 ∧
  length (ListActiveContainers order m).1 = size (state m) ∧
  ∀ info, info ∈ (ListActiveContainers order m).1 ↔
          ∃ id, state m !! id = Some info.
Proof.
  intros Hord.
  assert ((ListActiveContainers order m).1 ≡ₚ (map_to_list (state m)).*2) as Hp.
  { simpl. rewrite (range_order_keys _ _ Hord).
    rewrite (omap_lookup_keys (state m) (map_to_list (state m))); [done|].
    intros k v. apply elem_of_map_to_list. }
  split; [done|]. split.
  - rewrite Hp, length_fmap. apply length_map_to_list.
  - intros info. rewrite Hp, list_elem_of_fmap. split.
    + intros ([k v] & -> & Hin). exists k. by apply elem_of_map_to_list.
    + intros [id Hid]. exists (id, info). split; [done|].
      by apply elem_of_map_to_list.
Qed.

(** ListActiveContainers returns the stored records, each one once, in
    some order, and no error: as many records as the state has keys, and a
    record is listed if and only if it is stored under some id. *)
Theorem ListActiveContainers_lists_state (order : list string) (m : Manager) :
  range_order order (state m) →
  (ListActiveContainers order m).2 = None ∧
  (ListActiveContainers order m).1 ≡ₚ (map_to_list (state m)).*2 ∧
  length (ListActiveContainers order m).1 = size (state m) ∧
  ∀ info, info ∈ (ListActiveContainers order m).1 ↔
          ∃ id, state m !! id = Some info.
Proof.
  intros Hord. split; [done|].
  by apply ListActiveContainers_lists_state_aux.
Qed.

End manager_listing.

Section schedule_rollback_general.
Import resourcemanager cluster.
Context {D : Type} `{docker.Client D}.

Lemma with_Resources_same (node : Node) :
  with_Resources node (Resources node) = node.
Proof. by destruct node as [id []]. Qed.

Lemma with_node_same (cm : ClusterManager) (k : string) (node : Node) :
  nodes cm !! k = Some node → with_node cm k node = cm.
Proof.
  intros Hk. destruct cm as [ns asg]; simpl in *. unfold with_node; simpl.
  by rewrite insert_id.
Qed.

(** The failure paths of Schedule put the cluster back as it was, except
    the one on which the daemon refuses the start and then refuses the
    remove: that one returns with the reservation still recorded. *)
Lemma provisionOn_failure (now : Z) (containerID : string)
    (allocOrder : list string) (cm cm' : ClusterManager) (d d' : D)
    (k : string) (node : Node) (spec : docker.ContainerSpec)
    (err : option docker.error) :
  nodes cm !! k = Some node →
  ledger.unreserved (Resources node) containerID →
  provisionOn now containerID allocOrder cm d k node spec
  = (cm', d', (None, err)) →
  cm' = cm ∨
  ∃ d1 id d2 e e',
    docker.CreateContainer d (with_Name spec containerID) = (d1, (id, None)) ∧
    docker.StartContainer d1 id = (d2, Some e) ∧
    docker.RemoveContainer d2 id = (d', Some e') ∧
    err = Some e' ∧
    cm' = with_node cm k
            (with_Resources node
               (Allocate allocOrder (Resources node) containerID
                  (request spec)).1).
Proof.
  intros Hk [Hc Hm]. unfold provisionOn.
  pose proof (Release_Allocate_fresh allocOrder (Resources node) containerID
                (request spec) Hc Hm) as Hrel.
  pose proof (Allocate_false allocOrder (Resources node) containerID
                (request spec)) as Hf.
  destruct (Allocate allocOrder (Resources node) containerID (request spec))
    as [rm1 ok]; simpl in *.
  destruct ok; simpl.
  2:{ intros [= <- <- <-]. left. rewrite Hf by done.
      rewrite with_Resources_same. by apply with_node_same. }
  destruct (docker.CreateContainer _ _) as [d1 [id [e1|]]] eqn:Hcreate.
  { intros [= <- <- <-]. left. rewrite Hrel, with_Resources_same.
    by apply with_node_same. }
  destruct (docker.StartContainer _ _) as [d2 [e2|]] eqn:Hstart; [|done].
  destruct (docker.RemoveContainer _ _) as [d3 [e3|]] eqn:Hremove.
  - intros [= <- <- <-]. right. by exists d1, id, d2, e2, e3.
  - intros [= <- <- <-]. left. rewrite Hrel, with_Resources_same.
    by apply with_node_same.
Qed.

End schedule_rollback_general.

Section schedule_rollback.
Import resourcemanager cluster.

(** C1 fails on Schedule.  One empty node, a request that fits, and a
    daemon that creates the unit, refuses to start it and refuses to remove
    it: Schedule returns the remove error, and the reservation it recorded
    for the workload id is still in the node's ledger, which reported
    nothing reserved before the call and reports 1 core and 2048 MB after
    it. *)
Theorem Schedule_leaks_when_cleanup_fails :
  let d := scripted.fresh [scripted.StartPhase; scripted.RemovePhase] in
  let out := Schedule 0 "c-1" ["node1"%string] examples.no_ranges
               examples.one_node d examples.nginx in
  out.2 = (None, Some "remove refused"%string) ∧
  scripted.calls out.1.2
  = [scripted.Create "c-1"; scripted.Start "unit-c-1"; scripted.Remove "unit-c-1"] ∧
  Usage [] (Resources examples.node1) = mkResourceSpec 0 0 ∧
  ∃ node',
    nodes out.1.1 !! "node1"%string = Some node' ∧
    allocatedCPU (Resources node') !! "c-1"%string = Some 1%float ∧
    allocatedMemory (Resources node') !! "c-1"%string = Some 2048 ∧
    Usage ["c-1"%string] (Resources node') = mkResourceSpec 1 2048.
Proof.
  cbv zeta. split; [vm_compute; reflexivity|].
  split; [vm_compute; reflexivity|].
  split; [vm_compute; reflexivity|].
  eexists. split; [vm_compute; reflexivity|].
  split; [vm_compute; reflexivity|].
  split; vm_compute; reflexivity.
Qed.

(** When the daemon refuses the start and accepts the remove, the error
    Schedule returns is the one of the remove, which is nil: the caller
    gets neither a record nor an error.  The reservation is released. *)
Lemma Schedule_start_failure_returns_nil :
  let d := scripted.fresh [scripted.StartPhase] in
  let out := Schedule 0 "c-1" ["node1"%string] examples.no_ranges
               examples.one_node d examples.nginx in
  out.2 = (None, None) ∧
  scripted.calls out.1.2
  = [scripted.Create "c-1"; scripted.Start "unit-c-1"; scripted.Remove "unit-c-1"] ∧
  out.1.1 = examples.one_node.
Proof. vm_compute. repeat split; reflexivity. Qed.

(** The manager's ProvisionContainer releases by name what it reserved by
    name.  When the name already holds a reservation, the reservation
    Allocate overwrote is the one released: the manager below tracks the
    workload "web", a second provisioning under that name fails at the
    image pull, and the ledger, which reported 1 core and 2048 MB before,
    reports nothing reserved after, with the first workload still in the
    state. *)
Lemma ProvisionContainer_failure_drops_reused_name :
  let spec := with_Name examples.nginx "web" in
  let out := manager.ProvisionContainer 0 ["web"%string] ["web"%string]
               (examples.mgr_web 0) (scripted.fresh [scripted.PullPhase])
               spec in
  out.2 = (None, Some "failed to pull image: pull refused"%string) ∧
  Usage ["web"%string] (manager.resources (examples.mgr_web 0))
  = mkResourceSpec 1 2048 ∧
  Usage [] (manager.resources out.1.1) = mkResourceSpec 0 0 ∧
  allocatedCPU (manager.resources out.1.1) = ∅ ∧
  manager.state out.1.1 = manager.state (examples.mgr_web 0).
Proof. vm_compute. repeat split; reflexivity. Qed.

End schedule_rollback.

(** * The cluster scheduler: placement *)

Section range_orders.

(** A list without repetition whose elements are the keys of the map is a
    visiting order. *)
Lemma range_order_dom {A : Type} (order : list string) (m : gmap string A) :
  NoDup order → list_to_set order = dom m → range_order order m.
Proof.
  intros Hnd Hdom. split; [done|]. intros k.
  by rewrite <-elem_of_dom, <-Hdom, elem_of_list_to_set.
Qed.

(** Every map has a visiting order. *)
Lemma range_order_exists {A : Type} (m : gmap string A) :
  range_order (map_to_list m).*1 m.
Proof.
  split; [apply NoDup_fst_map_to_list|]. intros k.
  rewrite list_elem_of_fmap. split.
  - intros ([k' v] & -> & Hin). apply elem_of_map_to_list in Hin. eauto.
  - intros [v Hv]. exists (k, v). split; [done|]. by apply elem_of_map_to_list.
Qed.

End range_orders.

Section placement.
Import resourcemanager cluster.

(** The placement loop replaces its choice only for a strictly smaller
    leftover.  When it returns, no node of the order that passes
    CanAllocate has a leftover below the least it holds; and what it
    holds is either what it was given, or a node of the order that passes
    CanAllocate, whose leftover is below the one given, which no eligible
    node visited before it ties or beats and none visited after it
    beats. *)
Lemma selectNode_loop (nodes : gmap string Node) (spec : docker.ContainerSpec)
    (rg : cpuRanges) (order : list string) :
  ∀ sel0 min0 sel min,
    selectNode nodes spec rg order sel0 min0 = (sel, min) →
    (∀ k node, k ∈ order → nodes !! k = Some node →
       CanAllocate (inCanAllocate rg k) (Resources node) (request spec) = true →
       F64.lt (leftover (inAllocatedCPUSum rg k) node spec) min = false) ∧
    ((sel = sel0 ∧ min = min0) ∨
     (∃ pre post k node,
        order = pre ++ k :: post ∧ sel = Some (k, node) ∧
        nodes !! k = Some node ∧
        CanAllocate (inCanAllocate rg k) (Resources node) (request spec)
        = true ∧
        min = leftover (inAllocatedCPUSum rg k) node spec ∧
        F64.lt min min0 = true ∧
        (∀ k' node', k' ∈ pre → nodes !! k' = Some node' →
           CanAllocate (inCanAllocate rg k') (Resources node') (request spec)
           = true →
           F64.le (leftover (inAllocatedCPUSum rg k') node' spec) min
           = false))).
Proof.
  induction order as [|k0 rest IH]; intros sel0 min0 sel min Hsel;
    simpl in Hsel.
  { injection Hsel as <- <-. split; [by intros k node ?%elem_of_nil|by left]. }
  destruct (nodes !! k0) as [node0|] eqn:Hk0.
  2:{ destruct (IH _ _ _ _ Hsel) as [Hall Hcase]. split.
      - intros k' node' [->|?]%elem_of_cons ? ?; [congruence|eauto].
      - destruct Hcase
          as [?|(pre & post & k & node & -> & ? & ? & ? & ? & ? & Hpre)];
          [by left|right].
        exists (k0 :: pre), post, k, node. repeat (split; [done|]).
        intros k' node' [->|?]%elem_of_cons ? ?; [congruence|eauto]. }
  destruct (CanAllocate (inCanAllocate rg k0) (Resources node0) (request spec))
    eqn:Hcan0.
  2:{ destruct (IH _ _ _ _ Hsel) as [Hall Hcase]. split.
      - intros k' node' [->|?]%elem_of_cons ? ?; [congruence|eauto].
      - destruct Hcase
          as [?|(pre & post & k & node & -> & ? & ? & ? & ? & ? & Hpre)];
          [by left|right].
        exists (k0 :: pre), post, k, node. repeat (split; [done|]).
        intros k' node' [->|?]%elem_of_cons ? ?; [congruence|eauto]. }
  destruct (F64.lt (leftover (inAllocatedCPUSum rg k0) node0 spec) min0)
    eqn:Hlt.
  - destruct (IH _ _ _ _ Hsel) as [Hall Hcase].
    destruct Hcase
      as [[-> ->]|(pre & post & k & node & -> & ? & ? & ? & -> & Hmin & Hpre)].
    + split.
      * intros k' node' [->|?]%elem_of_cons Hk' ?; [|eauto].
        assert (node' = node0) as -> by congruence. apply F64_lt_irrefl.
      * right. exists [], rest, k0, node0. repeat (split; [done|]).
        by intros ? ? ?%elem_of_nil.
    + split.
      * intros k' node' [->|?]%elem_of_cons Hk' ?; [|eauto].
        assert (node' = node0) as -> by congruence.
        apply not_true_is_false. intros Hback.
        pose proof (F64_lt_trans _ _ _ Hback Hmin) as Hself.
        by rewrite F64_lt_irrefl in Hself.
      * right. exists (k0 :: pre), post, k, node. repeat (split; [done|]).
        split; [by eapply F64_lt_trans|].
        intros k' node' [->|?]%elem_of_cons Hk' ?; [|eauto].
        assert (node' = node0) as -> by congruence.
        by apply F64_lt_not_le.
  - destruct (IH _ _ _ _ Hsel) as [Hall Hcase].
    destruct Hcase
      as [[-> ->]|(pre & post & k & node & -> & ? & ? & ? & -> & Hmin & Hpre)].
    + split; [|by left].
      intros k' node' [->|?]%elem_of_cons Hk' ?; [|eauto].
      by assert (node' = node0) as -> by congruence.
    + split.
      * intros k' node' [->|?]%elem_of_cons Hk' ?; [|eauto].
        assert (node' = node0) as -> by congruence.
        apply not_true_is_false. intros Hback.
        pose proof (F64_lt_trans _ _ _ Hback Hmin). congruence.
      * right. exists (k0 :: pre), post, k, node. repeat (split; [done|]).
        intros k' node' [->|?]%elem_of_cons Hk' ?; [|eauto].
        assert (node' = node0) as -> by congruence.
        apply not_true_is_false. intros Hle.
        pose proof (F64_le_lt_trans _ _ _ Hle Hmin). congruence.
Qed.

(** The loop selects nothing exactly when no node that passes CanAllocate
    has a leftover below the largest float64. *)
Lemma selectNode_none_iff (nodes : gmap string Node)
    (spec : docker.ContainerSpec) (rg : cpuRanges) (order : list string) :
  (selectNode nodes spec rg order None F64.MaxFloat64).1 = None ↔
  ∀ k node, k ∈ order → nodes !! k = Some node →
    CanAllocate (inCanAllocate rg k) (Resources node) (request spec) = true →
    F64.lt (leftover (inAllocatedCPUSum rg k) node spec) F64.MaxFloat64
    = false.
Proof.
  destruct (selectNode nodes spec rg order None F64.MaxFloat64)
    as [sel min] eqn:Hsel.
  destruct (selectNode_loop _ _ _ _ _ _ _ _ Hsel) as [Hall Hcase]. simpl.
  destruct Hcase
    as [[-> ->]|(pre & post & k & node & -> & -> & Hk & Hcan & -> & Hlt & _)].
  - split; [intros _; exact Hall|done].
  - split; [done|]. intros Hnone.
    rewrite (Hnone k node) in Hlt; [done| |done..].
    rewrite elem_of_app, elem_of_cons. auto.
Qed.

(** The node the loop selects is a node of the cluster that passes
    CanAllocate, and Schedule continues on it. *)
Lemma Schedule_on_selected {D : Type} `{docker.Client D} (now : Z)
    (containerID : string) (order : list string) (rg : cpuRanges)
    (cm : ClusterManager) (d : D) (spec : docker.ContainerSpec) (k : string)
    (node : Node) :
  (selectNode (nodes cm) spec rg order None F64.MaxFloat64).1
  = Some (k, node) →
  nodes cm !! k = Some node ∧ k ∈ order ∧
  CanAllocate (inCanAllocate rg k) (Resources node) (request spec) = true ∧
  F64.lt (leftover (inAllocatedCPUSum rg k) node spec) F64.MaxFloat64 = true ∧
  Schedule now containerID order rg cm d spec
  = provisionOn now containerID (inAllocate rg) cm d k node spec.
Proof.
  intros Hk.
  destruct (selectNode (nodes cm) spec rg order None F64.MaxFloat64)
    as [sel min] eqn:Hsel.
  simpl in Hk. subst sel.
  destruct (selectNode_loop _ _ _ _ _ _ _ _ Hsel) as [_ Hcase].
  destruct Hcase
    as [[[=] _]|(pre & post & k' & node' & -> & [= <- <-] & Hlook & Hcan
                 & -> & Hlt & _)].
  split; [done|]. split; [rewrite elem_of_app, elem_of_cons; auto|].
  split; [done|]. split; [done|].
  unfold Schedule. by rewrite Hsel.
Qed.

End placement.

Section placement_claim.
Import resourcemanager cluster.
Context {D : Type} `{docker.Client D}.

(** The steps after the placement loop write to the selected node only, and
    never to the assignment mapping. *)
Lemma provisionOn_frame (now : Z) (containerID : string)
    (allocOrder : list string) (cm : ClusterManager) (d : D) (k : string)
    (node : Node) (spec : docker.ContainerSpec) :
  ∃ node',
    nodes (provisionOn now containerID allocOrder cm d k node spec).1.1
    = <[k := node']> (nodes cm) ∧
    assignments (provisionOn now containerID allocOrder cm d k node spec).1.1
    = assignments cm.
Proof.
  unfold provisionOn.
  destruct (Allocate _ _ _ _) as [rm1 []]; simpl; [|by eexists].
  destruct (docker.CreateContainer _ _) as [d1 [id [e|]]]; simpl; [by eexists|].
  destruct (docker.StartContainer _ _) as [d2 [e|]]; simpl; [|by eexists].
  destruct (docker.RemoveContainer _ _) as [d3 [e'|]]; simpl; by eexists.
Qed.


End placement_claim.

Section placement_witness.
Import resourcemanager cluster.



End placement_witness.

(** * The cluster scheduler: the assignment mapping *)

Section assignment_mapping.
Import resourcemanager cluster.

(** Schedule never writes to the assignment mapping. *)
Lemma Schedule_keeps_assignments {D : Type} `{docker.Client D} (now : Z)
    (containerID : string) (order : list string) (rg : cpuRanges)
    (cm : ClusterManager) (d : D) (spec : docker.ContainerSpec) :
  assignments (Schedule now containerID order rg cm d spec).1.1
  = assignments cm.
Proof.
  unfold Schedule.
  destruct (selectNode _ _ _ _ _ _) as [[[k node]|] ?]; [|done].
  by destruct (provisionOn_frame now containerID (inAllocate rg) cm d k node
                 spec) as (? & _ & ?).
Qed.

(** Neither does TerminateContainer. *)
Lemma TerminateContainer_keeps_assignments {D : Type} `{docker.Client D}
    (order : list string) (cm : ClusterManager) (d : D) (id : string) :
  assignments (TerminateContainer order cm d id).1.1 = assignments cm.
Proof.
  revert cm d. induction order as [|k rest IH]; intros cm d; simpl; [done|].
  destruct (nodes cm !! k) as [node|]; [|apply IH].
  destruct (manager.TerminateContainer _ _ _) as [[m1 d1] [e|]]; [|done].
  by rewrite IH.
Qed.

(** C2 fails on the code.  A successful Schedule on a one-node cluster
    returns the record and stores it in the node's manager, and the
    assignment mapping is as empty after the call as before it: the
    workload is in exactly one manager's state and has no entry, and
    GetContainerStatus does not find it. *)
Theorem Schedule_records_no_assignment :
  let out := Schedule 0 "c-1" ["node1"%string] examples.no_ranges
               examples.one_node (scripted.fresh []) examples.nginx in
  ∃ info node',
    out.2 = (Some info, None) ∧
    manager.ID info = "unit-c-1"%string ∧
    nodes out.1.1 !! "node1"%string = Some node' ∧
    manager.state (Manager node') !! "unit-c-1"%string = Some info ∧
    assignments out.1.1 = ∅ ∧
    GetContainerStatus out.1.1 "unit-c-1"
    = (None, Some "container unit-c-1 not found"%string) ∧
    GetContainerStatus out.1.1 "c-1"
    = (None, Some "container c-1 not found"%string).
Proof.
  cbv zeta. do 2 eexists.
  split; [vm_compute; reflexivity|].
  split; [vm_compute; reflexivity|].
  split; [vm_compute; reflexivity|].
  split; [vm_compute; reflexivity|].
  split; [vm_compute; reflexivity|].
  split; vm_compute; reflexivity.
Qed.

End assignment_mapping.

(** * The cluster scheduler: termination *)

Section cluster_termination.
Import resourcemanager cluster broadcast.

Lemma with_Manager_same (node : Node) : with_Manager node (Manager node) = node.
Proof. by destruct node. Qed.

(** C3 as stated fails: the id below has no entry in the assignment
    mapping, and TerminateContainer succeeds after having the daemon stop
    and remove the unit. *)
Lemma cluster_Terminate_without_assignment :
  assignments examples.cluster_web !! "unit-web"%string = None ∧
  let out := TerminateContainer ["node1"%string] examples.cluster_web
               (scripted.fresh []) "unit-web" in
  out.2 = None ∧
  scripted.calls out.1.2 = [scripted.Stop "unit-web"; scripted.Remove "unit-web"].
Proof. vm_compute. repeat split; reflexivity. Qed.

(** What TerminateContainer does to the nodes and the daemon, and what it
    returns, does not depend on the assignment mapping. *)
Lemma TerminateContainer_nodes_only {D : Type} `{docker.Client D}
    (order : list string) (cm : ClusterManager) (asg : gmap string string)
    (d : D) (id : string) :
  nodes (TerminateContainer order {| nodes := nodes cm; assignments := asg |}
           d id).1.1
  = nodes (TerminateContainer order cm d id).1.1 ∧
  (TerminateContainer order {| nodes := nodes cm; assignments := asg |}
     d id).1.2
  = (TerminateContainer order cm d id).1.2 ∧
  (TerminateContainer order {| nodes := nodes cm; assignments := asg |}
     d id).2
  = (TerminateContainer order cm d id).2.
Proof.
  revert cm d. induction order as [|k rest IH]; intros cm d; simpl; [done|].
  destruct (nodes cm !! k) as [node|]; [|apply IH].
  destruct (manager.TerminateContainer _ _ _) as [[m1 d1] [e|]]; [|done].
  apply (IH (with_node cm k (with_Manager node m1))).
Qed.

Section with_daemon.
Context {D : Type} `{docker.Client D}.

Lemma asked_cons (cm : ClusterManager) (k : string) (rest : list string)
    (d : D) (id : string) :
  asked cm (k :: rest) d id = asked cm rest (asked cm [k] d id) id.
Proof. done. Qed.

Lemma asked_one (cm : ClusterManager) (k : string) (d : D) (id : string) :
  asked cm [k] d id
  = match nodes cm !! k with
    | None => d
    | Some node => (manager.TerminateContainer (Manager node) d id).1.2
    end.
Proof. done. Qed.

(** A call in which no manager succeeds returns "container not found",
    leaves the cluster as it was, and has asked every manager in turn. *)
Lemma TerminateContainer_refused (order : list string) (cm cm' : ClusterManager)
    (d d' : D) (id : string) (e : docker.error) :
  TerminateContainer order cm d id = (cm', d', Some e) →
  e = "container not found"%string ∧ cm' = cm ∧ d' = asked cm order d id.
Proof.
  revert d. induction order as [|k rest IH]; intros d.
  { by intros [= <- <- <-]. }
  rewrite asked_cons, asked_one. cbn [TerminateContainer].
  destruct (nodes cm !! k) as [node|] eqn:Hk; [|apply IH].
  destruct (manager.TerminateContainer (Manager node) d id)
    as [[m1 d1] [e1|]] eqn:Hterm; [|done].
  pose proof (TerminateContainer_error_keeps _ _ _ _ _ _ Hterm) as Hm1.
  subst m1.
  rewrite with_Manager_same, with_node_same by done. cbn [fst snd]. apply IH.
Qed.

(** The managers under a prefix of the order all refuse exactly when the
    call on the prefix returns an error. *)
Lemma all_refuse_iff (cm : ClusterManager) (pre : list string) (d : D)
    (id : string) :
  all_refuse cm pre d id ↔ (TerminateContainer pre cm d id).2 ≠ None.
Proof.
  revert d. induction pre as [|k rest IH]; intros d.
  { split; [done|]. intros _ p1 k p2 node Heq. by destruct p1. }
  assert (all_refuse cm (k :: rest) d id ↔
          (∀ node, nodes cm !! k = Some node →
             (manager.TerminateContainer (Manager node) d id).2 ≠ None) ∧
          all_refuse cm rest (asked cm [k] d id) id) as ->.
  { split.
    - intros Hall. split.
      + intros node Hk. by apply (Hall [] k rest node).
      + intros p1 k' p2 node Heq Hk'.
        specialize (Hall (k :: p1) k' p2 node). rewrite asked_cons in Hall.
        apply Hall; [by rewrite Heq|done].
    - intros [Hk Hrest] p1 k' p2 node Heq Hk'. destruct p1 as [|k0 p1].
      + injection Heq as <- <-. by apply Hk.
      + injection Heq as <- ->. rewrite asked_cons.
        by apply (Hrest p1 k' p2 node). }
  rewrite IH, asked_one. cbn [TerminateContainer].
  destruct (nodes cm !! k) as [node|] eqn:Hk.
  2:{ split; [by intros [_ ?]|]. intros ?. split; [by intros ? [=]|done]. }
  destruct (manager.TerminateContainer (Manager node) d id)
    as [[m1 d1] [e1|]] eqn:Hterm; cbn [fst snd].
  - pose proof (TerminateContainer_error_keeps _ _ _ _ _ _ Hterm) as Hm1.
    subst m1. rewrite with_Manager_same, with_node_same by done.
    split; [by intros [_ ?]|]. intros ?. split; [|done].
    intros node' [= <-]. by rewrite Hterm.
  - split; [|done]. intros [Hno _]. specialize (Hno node eq_refl).
    by rewrite Hterm in Hno.
Qed.

(** The call on an order is the call on what follows a prefix whose
    managers all refuse, from the daemon they leave. *)
Lemma TerminateContainer_app (pre rest : list string) (cm : ClusterManager)
    (d : D) (id : string) :
  (TerminateContainer pre cm d id).2 ≠ None →
  TerminateContainer (pre ++ rest) cm d id
  = TerminateContainer rest cm (asked cm pre d id) id.
Proof.
  revert d. induction pre as [|k pre IH]; intros d; [done|].
  rewrite asked_cons, asked_one. cbn [app TerminateContainer].
  destruct (nodes cm !! k) as [node|] eqn:Hk; [|apply IH].
  destruct (manager.TerminateContainer (Manager node) d id)
    as [[m1 d1] [e1|]] eqn:Hterm; [|done].
  pose proof (TerminateContainer_error_keeps _ _ _ _ _ _ Hterm) as Hm1.
  subst m1.
  rewrite with_Manager_same, with_node_same by done. cbn [fst snd]. apply IH.
Qed.

(** The first manager that has the record and whose stop and remove the
    daemon accepts ends the call. *)
Lemma TerminateContainer_here (k : string) (rest : list string)
    (cm : ClusterManager) (d d1 d2 : D) (id : string) (node : Node)
    (info : manager.ContainerInfo) :
  nodes cm !! k = Some node →
  manager.state (Manager node) !! id = Some info →
  docker.StopContainer d id = (d1, None) →
  docker.RemoveContainer d1 id = (d2, None) →
  TerminateContainer (k :: rest) cm d id
  = (with_node cm k (terminated node id info), d2, None).
Proof.
  intros Hk Hl Hstop Hremove. simpl. rewrite Hk.
  unfold manager.TerminateContainer. by rewrite Hl, Hstop, Hremove.
Qed.

(** What a successful TerminateContainer of the cluster has done, and to
    which node. *)
Lemma cluster_Terminate_done (order : list string) (cm cm' : ClusterManager)
    (d d' : D) (id : string) :
  TerminateContainer order cm d id = (cm', d', None) →
  ∃ pre k post node info d1,
    order = pre ++ k :: post ∧
    (TerminateContainer pre cm d id).2 ≠ None ∧
    nodes cm !! k = Some node ∧
    manager.state (Manager node) !! id = Some info ∧
    docker.StopContainer (asked cm pre d id) id = (d1, None) ∧
    docker.RemoveContainer d1 id = (d', None) ∧
    cm' = with_node cm k (terminated node id info).
Proof.
  revert d. induction order as [|k rest IH]; intros d; [done|].
  cbn [TerminateContainer].
  destruct (nodes cm !! k) as [node|] eqn:Hk.
  2:{ intros Hrun.
      destruct (IH _ Hrun)
        as (pre & k' & post & node' & info & d1 & -> & Hpre & ? & ? & Hs & ?).
      exists (k :: pre), k', post, node', info, d1.
      split; [done|]. rewrite asked_cons, asked_one.
      cbn [TerminateContainer]. rewrite Hk. done. }
  destruct (manager.TerminateContainer (Manager node) d id)
    as [[m1 d1] [e|]] eqn:Hterm.
  - pose proof (TerminateContainer_error_keeps _ _ _ _ _ _ Hterm) as Hm1.
    subst m1.
    rewrite with_Manager_same, with_node_same by done.
    intros Hrun.
    destruct (IH _ Hrun)
      as (pre & k' & post & node' & info & d2 & -> & Hpre & ? & ? & Hs & ?).
    exists (k :: pre), k', post, node', info, d2.
    split; [done|]. rewrite asked_cons, asked_one.
    cbn [TerminateContainer]. rewrite Hk, Hterm.
    rewrite with_Manager_same, with_node_same by done. done.
  - apply TerminateContainer_success in Hterm
      as (info & d0 & Hl & Hstop & Hremove & ->).
    intros [= <- <-]. exists [], k, rest, node, info, d0.
    split; [done|]. split; [done|]. done.
Qed.

End with_daemon.

(** C3, as amended.  TerminateContainer does not look the id up in the
    assignment mapping: what it does to the nodes and the daemon, and what
    it returns, is the same whatever the mapping holds.  It asks the
    managers of the nodes, in the order of the range, to terminate the id.
    At the first node whose manager has the record and whose stop and
    remove the daemon accepts, every manager before it having refused, it
    stops: it returns no error, the daemon is as that manager left it, and
    that node, alone changed, has lost the record and the reservations
    under the record's name and under the id; and it returns no error in
    that case only.  When no manager succeeds it returns "container not
    found", the cluster is unchanged and every manager has been asked in
    turn; when the id is in no manager's state the daemon is not called
    either. *)
Theorem cluster_TerminateContainer_broadcast {D : Type} `{docker.Client D}
    (order : list string) (cm : ClusterManager) (d : D) (id : string) :
  let out := TerminateContainer order cm d id in
  (∀ asg,
     let out' := TerminateContainer order
                   {| nodes := nodes cm; assignments := asg |} d id in
     nodes out'.1.1 = nodes out.1.1 ∧ out'.1.2 = out.1.2 ∧ out'.2 = out.2) ∧
  (∀ pre k post node info d1 d2,
     order = pre ++ k :: post →
     all_refuse cm pre d id →
     nodes cm !! k = Some node →
     manager.state (Manager node) !! id = Some info →
     docker.StopContainer (asked cm pre d id) id = (d1, None) →
     docker.RemoveContainer d1 id = (d2, None) →
     out = (with_node cm k (terminated node id info), d2, None)) ∧
  (out.2 = None →
   ∃ pre k post node info d1,
     order = pre ++ k :: post ∧
     all_refuse cm pre d id ∧
     nodes cm !! k = Some node ∧
     manager.state (Manager node) !! id = Some info ∧
     docker.StopContainer (asked cm pre d id) id = (d1, None) ∧
     docker.RemoveContainer d1 id = (out.1.2, None) ∧
     out.1.1 = with_node cm k (terminated node id info)) ∧
  (out.2 = None ∨ out.2 = Some "container not found"%string) ∧
  (out.2 ≠ None ↔ all_refuse cm order d id) ∧
  (out.2 ≠ None → out.1.1 = cm ∧ out.1.2 = asked cm order d id) ∧
  ((∀ k node, k ∈ order → nodes cm !! k = Some node →
      manager.state (Manager node) !! id = None) →
   out = (cm, d, Some "container not found"%string)).
Proof.
  cbv zeta. split; [intros asg; apply TerminateContainer_nodes_only|].
  split.
  { intros pre k post node info d1 d2 -> Hpre Hk Hl Hstop Hremove.
    apply all_refuse_iff in Hpre. rewrite TerminateContainer_app by done.
    by apply TerminateContainer_here with (d1 := d1). }
  split.
  { destruct (TerminateContainer order cm d id) as [[cm' d'] err] eqn:Hrun.
    simpl. intros ->.
    destruct (cluster_Terminate_done _ _ _ _ _ _ Hrun)
      as (pre & k & post & node & info & d1 & ? & Hpre & ? & ? & ? & ? & ?).
    exists pre, k, post, node, info, d1. rewrite all_refuse_iff. done. }
  split.
  { destruct (TerminateContainer order cm d id) as [[cm' d'] [e|]] eqn:Hrun;
      [|by left].
    right. by destruct (TerminateContainer_refused _ _ _ _ _ _ _ Hrun) as [-> _]. }
  split; [by rewrite all_refuse_iff|].
  split.
  { destruct (TerminateContainer order cm d id) as [[cm' d'] [e|]] eqn:Hrun;
      [|done].
    intros _. by destruct (TerminateContainer_refused _ _ _ _ _ _ _ Hrun)
      as (_ & -> & ->). }
  revert d. induction order as [|k rest IH]; intros d Hnone; simpl; [done|].
  destruct (nodes cm !! k) as [node|] eqn:Hk.
  2:{ apply IH. intros k' node' ?. apply Hnone. by right. }
  rewrite (TerminateContainer_absent (Manager node) d id).
  2:{ apply (Hnone k node); [by left|done]. }
  rewrite with_Manager_same, with_node_same by done.
  apply IH. intros k' node' ?. apply Hnone. by right.
Qed.

End cluster_termination.

(** * Schedule against the manager's ProvisionContainer *)

Section schedule_versus_provision.
Import resourcemanager cluster delegation.

(** C4 as stated fails: on a one-node cluster and a daemon that accepts
    every call, the steps of Schedule make two daemon calls and store a
    record of status "Running", where ProvisionContainer makes three, the
    image pull first, and stores a record of status "running". *)
Lemma Schedule_is_not_ProvisionContainer :
  let ran := provisionOn 0 "c-1" [] examples.one_node (scripted.fresh [])
               "node1" examples.node1 examples.nginx in
  let delegated := provisionOn_delegating 0 "c-1" [] [] examples.one_node
                     (scripted.fresh []) "node1" examples.node1 examples.nginx in
  scripted.calls ran.1.2
  = [scripted.Create "c-1"; scripted.Start "unit-c-1"] ∧
  scripted.calls delegated.1.2
  = [scripted.Pull "nginx"; scripted.Create "c-1"; scripted.Start "unit-c-1"] ∧
  manager.Status <$> ran.2.1 = Some "Running"%string ∧
  manager.Status <$> delegated.2.1 = Some "running"%string ∧
  ran ≠ delegated.
Proof.
  cbv zeta.
  split; [vm_compute; reflexivity|]. split; [vm_compute; reflexivity|].
  split; [vm_compute; reflexivity|]. split; [vm_compute; reflexivity|].
  intros Heq. apply (f_equal (λ out, length (scripted.calls out.1.2))) in Heq.
  vm_compute in Heq. discriminate.
Qed.

(** C4, as amended.  Schedule does not hand the spec to ProvisionContainer:
    it reserves, creates, starts and registers the record itself.  On a
    node that passes CanAllocate, and from the state the daemon is in once
    the image is pulled, its steps agree with those of ProvisionContainer
    under the generated id as the name.  Allocate sums the reserved CPU
    again, in the order of its own range: it accepts whenever that order
    is the one of CanAllocate, and when it refuses both return an error
    ("failed to allocate resources", "failed to reserve resources") and
    leave the node as it was.  When it accepts: if the create is refused
    both release the reservation and leave the node otherwise as it was,
    Schedule returning the daemon's error as it is and ProvisionContainer
    the same error under the prefix "failed to create container: "; if the
    create and the start are accepted both store, under the same backend
    id, and return records that agree in every field other than the status
    text.  (The image pull, the status text and the path on which the
    start is refused are left out.) *)
Theorem Schedule_steps_versus_ProvisionContainer {D : Type} `{docker.Client D}
    (now : Z) (containerID : string) (canOrder allocOrder : list string)
    (cm : ClusterManager) (d d1 : D) (k : string) (node : Node)
    (spec : docker.ContainerSpec) :
  CanAllocate canOrder (Resources node) (request spec) = true →
  docker.PullImage d (docker.Image spec) = (d1, None) →
  let accepted :=
    (Allocate allocOrder (Resources node) containerID (request spec)).2 in
  let rm1 :=
    (Allocate allocOrder (Resources node) containerID (request spec)).1 in
  (canOrder = allocOrder → accepted = true) ∧
  (accepted = false →
   provisionOn now containerID allocOrder cm d1 k node spec
   = (with_node cm k node, d1,
      (None, Some "failed to allocate resources"%string)) ∧
   provisionOn_delegating now containerID canOrder allocOrder cm d k node spec
   = (with_node cm k node, d,
      (None, Some "failed to reserve resources"%string))) ∧
  (accepted = true →
   (∀ d2 id e,
      docker.CreateContainer d1 (with_Name spec containerID)
      = (d2, (id, Some e)) →
      provisionOn now containerID allocOrder cm d1 k node spec
      = (with_node cm k (with_Resources node (Release rm1 containerID)), d2,
         (None, Some e)) ∧
      provisionOn_delegating now containerID canOrder allocOrder cm d k node
        spec
      = (with_node cm k (with_Resources node (Release rm1 containerID)), d2,
         (None, Some ("failed to create container: " +:+ e)))) ∧
   (∀ d2 id d3,
      docker.CreateContainer d1 (with_Name spec containerID)
      = (d2, (id, None)) →
      docker.StartContainer d2 id = (d3, None) →
      ∃ info info',
        manager.ID info = id ∧
        manager.Name info = containerID ∧
        with_Status info' (manager.Status info) = info ∧
        provisionOn_delegating now containerID canOrder allocOrder cm d k node
          spec
        = (with_node cm k
             (with_Manager node
                (manager.AddContainer
                   (manager.with_resources (Manager node) rm1) id info)),
           d3, (Some info, None)) ∧
        provisionOn now containerID allocOrder cm d1 k node spec
        = (with_node cm k
             (with_Manager node
                (manager.AddContainer
                   (manager.with_resources (Manager node) rm1) id info')),
           d3, (Some info', None)))).
Proof.
  intros Hcan Hpull. cbv zeta.
  split; [intros <-; by apply CanAllocate_Allocate|].
  pose proof (Allocate_false allocOrder (Resources node) containerID
                (request spec)) as Hsame.
  unfold provisionOn, provisionOn_delegating, manager.ProvisionContainer.
  change {| CPU := docker.CPU (with_Name spec containerID);
            Memory := docker.Memory (with_Name spec containerID) |}
    with (request spec).
  change (docker.Name (with_Name spec containerID)) with containerID.
  change (docker.Image (with_Name spec containerID)) with (docker.Image spec).
  change (manager.resources (Manager node)) with (Resources node).
  rewrite Hcan, Hpull. simpl negb. cbv iota.
  destruct (Allocate allocOrder (Resources node) containerID (request spec))
    as [rm1 ok]; simpl in *.
  split.
  - intros ->. simpl. rewrite Hsame by done.
    rewrite with_Resources_same.
    change (manager.with_resources (Manager node) (Resources node))
      with (manager.with_resources (Manager node)
              (manager.resources (Manager node))).
    by rewrite with_resources_same, with_Manager_same.
  - intros ->. simpl. split.
    + intros d2 id e Hcreate. rewrite Hcreate. done.
    + intros d2 id d3 Hcreate Hstart. rewrite Hcreate, Hstart.
      do 2 eexists.
      split; [|split; [|split; [|split]]]; [| | |reflexivity|reflexivity];
        done.
Qed.

End schedule_versus_provision.

Section cluster_witnesses.
Import resourcemanager cluster delegation broadcast.

Lemma cluster_TerminateContainer_broadcast_witness :
  all_refuse examples.cluster_web_second ["node1"%string] (scripted.fresh [])
    "unit-web" ∧
  TerminateContainer ["node1"; "node2"]%string examples.cluster_web_second
    (scripted.fresh []) "unit-web"
  = (with_node examples.cluster_web_second "node2"
       (terminated {| ID := "node2"; Manager := examples.mgr_web 0 |}
          "unit-web" (examples.info_web 0)),
     {| scripted.calls := [scripted.Stop "unit-web"; scripted.Remove "unit-web"];
        scripted.failing := [] |},
     None) ∧
  TerminateContainer ["node1"%string] examples.cluster_web (scripted.fresh [])
    "unit-db"
  = (examples.cluster_web, scripted.fresh [], Some "container not found"%string) ∧
  (TerminateContainer ["node1"%string] examples.cluster_web
     (scripted.fresh [scripted.StopPhase]) "unit-web").1
  = (examples.cluster_web,
     {| scripted.calls := [scripted.Stop "unit-web"];
        scripted.failing := [scripted.StopPhase] |}).
Proof.
  assert (all_refuse examples.cluster_web_second ["node1"%string]
            (scripted.fresh []) "unit-web") as Hpre.
  { apply all_refuse_iff. vm_compute. discriminate. }
  split; [exact Hpre|]. split; [|split].
  - destruct (cluster_TerminateContainer_broadcast ["node1"; "node2"]%string
                examples.cluster_web_second (scripted.fresh []) "unit-web")
      as (_ & Hfirst & _).
    apply (Hfirst ["node1"%string] "node2"%string []
             {| ID := "node2"; Manager := examples.mgr_web 0 |}
             (examples.info_web 0)
             {| scripted.calls := [scripted.Stop "unit-web"];
                scripted.failing := [] |}); try reflexivity.
    exact Hpre.
  - destruct (cluster_TerminateContainer_broadcast ["node1"%string]
                examples.cluster_web (scripted.fresh []) "unit-db")
      as (_ & _ & _ & _ & _ & _ & Habsent).
    apply Habsent. intros k node Hin%list_elem_of_singleton Hk. subst k.
    vm_compute in Hk. injection Hk as <-. reflexivity.
  - destruct (cluster_TerminateContainer_broadcast ["node1"%string]
                examples.cluster_web (scripted.fresh [scripted.StopPhase])
                "unit-web") as (_ & _ & _ & _ & _ & Hfail & _).
    destruct Hfail as [Hcm Hd]; [vm_compute; discriminate|].
    destruct (TerminateContainer ["node1"%string] examples.cluster_web
                (scripted.fresh [scripted.StopPhase]) "unit-web")
      as [[cm' d'] err]. simpl in *. rewrite Hcm, Hd.
    vm_compute. reflexivity.
Defined.

Lemma Schedule_steps_versus_ProvisionContainer_witness :
  CanAllocate [] (Resources examples.node1) (request examples.nginx) = true ∧
  (Allocate [] (Resources examples.node1) "c-1" (request examples.nginx)).2
  = true ∧
  ∃ info info',
    manager.ID info = "unit-c-1"%string ∧
    manager.Name info = "c-1"%string ∧
    with_Status info' (manager.Status info) = info ∧
    (provisionOn_delegating 0 "c-1" [] [] examples.one_node (scripted.fresh [])
       "node1" examples.node1 examples.nginx).2 = (Some info, None) ∧
    (provisionOn 0 "c-1" [] examples.one_node
       {| scripted.calls := [scripted.Pull "nginx"]; scripted.failing := [] |}
       "node1" examples.node1 examples.nginx).2
    = (Some info', None).
Proof.
  assert (CanAllocate [] (Resources examples.node1) (request examples.nginx)
          = true) as Hcan by (vm_compute; reflexivity).
  split; [exact Hcan|].
  destruct (Schedule_steps_versus_ProvisionContainer 0 "c-1" [] []
              examples.one_node (scripted.fresh [])
              {| scripted.calls := [scripted.Pull "nginx"];
                 scripted.failing := [] |}
              "node1" examples.node1 examples.nginx Hcan)
    as (Hsame & _ & Hsteps); [reflexivity|].
  split; [exact (Hsame eq_refl)|].
  destruct (Hsteps (Hsame eq_refl)) as [_ Hsuccess].
  destruct (Hsuccess
              {| scripted.calls := [scripted.Pull "nginx"; scripted.Create "c-1"];
                 scripted.failing := [] |}
              "unit-c-1"%string
              {| scripted.calls :=
                   [scripted.Pull "nginx"; scripted.Create "c-1";
                    scripted.Start "unit-c-1"];
                 scripted.failing := [] |})
    as (info & info' & Hid & Hname & Hagree & Hdel & Hrun); [reflexivity..|].
  exists info, info'. split; [exact Hid|]. split; [exact Hname|].
  split; [exact Hagree|]. split; [by rewrite Hdel|by rewrite Hrun].
Defined.

End cluster_witnesses.

Section rollback_witnesses.
Import resourcemanager cluster.

Lemma ProvisionContainer_failure_restores_witness :
  let m := manager.NewManager (NewResourceManager 4 8192) in
  ledger.unreserved (manager.resources m) "test1" ∧
  (manager.ProvisionContainer 0 [] [] m (scripted.fresh [scripted.StartPhase])
     examples.nginx).1.1 = m.
Proof.
  cbv zeta.
  assert (ledger.unreserved
            (manager.resources (manager.NewManager (NewResourceManager 4 8192)))
            "test1") as Hfree by (split; reflexivity).
  split; [exact Hfree|].
  eassert (manager.ProvisionContainer 0 [] []
             (manager.NewManager (NewResourceManager 4 8192))
             (scripted.fresh [scripted.StartPhase]) examples.nginx
           = (_, _, (_, Some _))) as Hrun by (vm_compute; reflexivity).
  destruct (ProvisionContainer_failure_restores 0 [] []
              (manager.NewManager (NewResourceManager 4 8192)) _
              (scripted.fresh [scripted.StartPhase]) _ examples.nginx _ _
              Hfree Hrun) as [Hm _].
  rewrite Hrun. exact Hm.
Defined.

Lemma provisionOn_failure_witness :
  ledger.unreserved (Resources examples.node1) "c-1" ∧
  (provisionOn 0 "c-1" [] examples.one_node
     (scripted.fresh [scripted.CreatePhase]) "node1" examples.node1
     examples.nginx).1.1 = examples.one_node.
Proof.
  assert (ledger.unreserved (Resources examples.node1) "c-1") as Hfree
    by (split; reflexivity).
  split; [exact Hfree|].
  eassert (provisionOn 0 "c-1" [] examples.one_node
             (scripted.fresh [scripted.CreatePhase]) "node1" examples.node1
             examples.nginx
           = (_, _, (None, _))) as Hrun by (vm_compute; reflexivity).
  destruct (provisionOn_failure 0 "c-1" [] examples.one_node _
              (scripted.fresh [scripted.CreatePhase]) _ "node1" examples.node1
              examples.nginx _ eq_refl Hfree Hrun)
    as [Hcm|(d1 & id & d2 & e & e' & Hcreate & _)].
  - rewrite Hrun. exact Hcm.
  - vm_compute in Hcreate. discriminate.
Defined.

End rollback_witnesses.

(** * More on the cluster scheduler *)

Section schedule_more.
Import resourcemanager cluster.
Context {D : Type} `{docker.Client D}.

(** The equations behind a record returned by the steps of Schedule. *)
Lemma provisionOn_record (now : Z) (containerID : string)
    (allocOrder : list string) (cm cm' : ClusterManager) (d d' : D)
    (k : string) (node : Node) (spec : docker.ContainerSpec)
    (info : manager.ContainerInfo) (err : option docker.error) :
  provisionOn now containerID allocOrder cm d k node spec
  = (cm', d', (Some info, err)) →
  err = None ∧
  (Allocate allocOrder (Resources node) containerID (request spec)).2 = true ∧
  (∃ d1,
     docker.CreateContainer d (with_Name spec containerID)
     = (d1, (manager.ID info, None)) ∧
     docker.StartContainer d1 (manager.ID info) = (d', None)) ∧
  info = {| manager.ID := manager.ID info;
            manager.Name := containerID;
            manager.Image := docker.Image spec;
            manager.CPU := docker.CPU spec;
            manager.MemoryMB := docker.Memory spec;
            manager.CreatedAt := now;
            manager.Status := "Running";
            manager.TTL := docker.TTL spec |} ∧
  cm' = with_node cm k
          {| ID := ID node;
             Manager :=
               {| manager.state :=
                    <[manager.ID info := info]> (manager.state (Manager node));
                  manager.resources :=
                    (Allocate allocOrder (Resources node) containerID
                       (request spec)).1 |}
          |}.
Proof.
  unfold provisionOn.
  destruct (Allocate _ _ _ _) as [rm1 []]; simpl; [|done].
  destruct (docker.CreateContainer _ _) as [d1 [id [e1|]]] eqn:Hcreate;
    [done|].
  destruct (docker.StartContainer _ _) as [d2 [e2|]] eqn:Hstart.
  { by destruct (docker.RemoveContainer _ _) as [d3 [e3|]]. }
  intros [= <- <- <- <-]; simpl.
  split; [done|]. split; [done|]. split; [by exists d1|]. done.
Qed.

(** Schedule returns a record only together with no error.  When it
    returns a record: the selected node passed CanAllocate and its
    Allocate accepted the request; the daemon accepted the create and the
    start, asked in that order and for nothing before; the record carries
    the daemon's id, the generated id as its name, the fields of the spec,
    the instant of the call and the status "Running"; the selected node
    stores it under the daemon's id and holds the request in its ledger
    under the generated id, and the node's manager finds it. *)
Theorem Schedule_success (now : Z) (containerID : string)
    (order : list string) (rg : cpuRanges) (cm : ClusterManager) (d : D)
    (spec : docker.ContainerSpec) :
  let out := Schedule now containerID order rg cm d spec in
  ∀ info, out.2.1 = Some info →
    out.2.2 = None ∧
    ∃ k node node',
      nodes cm !! k = Some node ∧
      CanAllocate (inCanAllocate rg k) (Resources node) (request spec)
      = true ∧
      (Allocate (inAllocate rg) (Resources node) containerID (request spec)).2
      = true ∧
      (∃ d1,
         docker.CreateContainer d (with_Name spec containerID)
         = (d1, (manager.ID info, None)) ∧
         docker.StartContainer d1 (manager.ID info) = (out.1.2, None)) ∧
      info = {| manager.ID := manager.ID info;
                manager.Name := containerID;
                manager.Image := docker.Image spec;
                manager.CPU := docker.CPU spec;
                manager.MemoryMB := docker.Memory spec;
                manager.CreatedAt := now;
                manager.Status := "Running";
                manager.TTL := docker.TTL spec |} ∧
      nodes out.1.1 = <[k := node']> (nodes cm) ∧
      ID node' = ID node ∧
      manager.state (Manager node')
      = <[manager.ID info := info]> (manager.state (Manager node)) ∧
      allocatedCPU (Resources node') !! containerID = Some (docker.CPU spec) ∧
      allocatedMemory (Resources node') !! containerID
      = Some (docker.Memory spec) ∧
      manager.GetContainerStatus (Manager node') (manager.ID info)
      = (Some info, None).
Proof.
  cbv zeta. intros info Hinfo.
  destruct (selectNode (nodes cm) spec rg order None F64.MaxFloat64).1
    as [[k node]|] eqn:Hsel.
  2:{ revert Hinfo. unfold Schedule.
      destruct (selectNode _ _ _ _ _ _) as [[[]|] ?]; simpl in *; done. }
  destruct (Schedule_on_selected now containerID order rg cm d spec k node Hsel)
    as (Hk & _ & Hcan & _ & Hrun).
  rewrite Hrun in Hinfo |- *.
  destruct (provisionOn now containerID (inAllocate rg) cm d k node spec)
    as [[cm' d'] [oinfo err]] eqn:Hprov.
  simpl in Hinfo. subst oinfo.
  destruct (provisionOn_record _ _ _ _ _ _ _ _ _ _ _ _ Hprov)
    as (-> & Hok & Hdaemon & Hrec & ->).
  split; [done|]. eexists k, node, _.
  split; [done|]. split; [done|]. split; [done|]. split; [exact Hdaemon|].
  split; [exact Hrec|]. split; [reflexivity|]. split; [reflexivity|].
  split; [reflexivity|].
  destruct (Allocate_accepted (inAllocate rg) (Resources node) containerID
              (request spec) Hok) as (Hc & Hm & _).
  split; [exact Hc|]. split; [exact Hm|].
  unfold manager.GetContainerStatus; simpl. by rewrite lookup_insert_eq.
Qed.

End schedule_more.

Section schedule_shape.
Import resourcemanager cluster.
Context {D : Type} `{docker.Client D}.

(** Schedule returns neither a record nor an error in one case only: a
    node was selected, its Allocate accepted the request, and the daemon
    accepted the create, refused the start and accepted the remove of the
    unit. *)
Theorem Schedule_returns_nothing (now : Z) (containerID : string)
    (order : list string) (rg : cpuRanges) (cm : ClusterManager) (d : D)
    (spec : docker.ContainerSpec) :
  let out := Schedule now containerID order rg cm d spec in
  out.2 = (None, None) ↔
  ∃ k node d1 id d2 e,
    (selectNode (nodes cm) spec rg order None F64.MaxFloat64).1
    = Some (k, node) ∧
    (Allocate (inAllocate rg) (Resources node) containerID (request spec)).2
    = true ∧
    docker.CreateContainer d (with_Name spec containerID) = (d1, (id, None)) ∧
    docker.StartContainer d1 id = (d2, Some e) ∧
    docker.RemoveContainer d2 id = (out.1.2, None).
Proof.
  cbv zeta.
  destruct (selectNode (nodes cm) spec rg order None F64.MaxFloat64).1
    as [[k node]|] eqn:Hsel.
  2:{ split.
      - unfold Schedule.
        destruct (selectNode _ _ _ _ _ _) as [[[]|] ?]; simpl in *; done.
      - by intros (? & ? & ? & ? & ? & ? & [=] & _). }
  destruct (Schedule_on_selected now containerID order rg cm d spec k node Hsel)
    as (_ & _ & _ & _ & ->).
  unfold provisionOn.
  destruct (Allocate _ _ _ _) as [rm1 ok] eqn:Halloc; simpl.
  destruct ok; simpl.
  2:{ split; [done|].
      intros (? & ? & ? & ? & ? & ? & [= <- <-] & Hok & _).
      rewrite Halloc in Hok. done. }
  destruct (docker.CreateContainer _ _) as [d1 [id [e1|]]] eqn:Hcreate; simpl.
  { split; [done|]. by intros (? & ? & ? & ? & ? & ? & _ & _ & [=] & _). }
  destruct (docker.StartContainer _ _) as [d2 [e2|]] eqn:Hstart; simpl.
  2:{ split; [done|].
      intros (? & ? & ? & ? & ? & ? & _ & _ & [= <- <-] & Hs & _).
      rewrite Hstart in Hs. done. }
  destruct (docker.RemoveContainer _ _) as [d3 [e3|]] eqn:Hremove; simpl.
  - split; [done|].
    intros (? & ? & ? & ? & ? & ? & _ & _ & [= <- <-] & Hs & Hr).
    rewrite Hstart in Hs. injection Hs as <- _.
    rewrite Hremove in Hr. done.
  - split; [|done]. intros _. exists k, node, d1, id, d2, e2.
    rewrite Halloc. done.
Qed.

End schedule_shape.

Section cluster_round_trip.
Import resourcemanager cluster broadcast.
Context {D : Type} `{docker.Client D}.

(** Scheduling a workload and then terminating it by the id of the
    returned record, both accepted by the daemon, gives the cluster back
    as it was before the two calls, in whatever order the second call
    visits the nodes.  Before the calls no node may track the id the daemon
    chose, nor hold a reservation under it or under the generated id. *)
Theorem Schedule_then_Terminate (now : Z) (containerID : string)
    (order order' : list string) (rg : cpuRanges)
    (cm cm1 cm2 : ClusterManager) (d d1 d2 : D)
    (spec : docker.ContainerSpec) (info : manager.ContainerInfo) :
  (∀ k node, nodes cm !! k = Some node →
     manager.state (Manager node) !! manager.ID info = None ∧
     ledger.unreserved (Resources node) containerID ∧
     ledger.unreserved (Resources node) (manager.ID info)) →
  Schedule now containerID order rg cm d spec = (cm1, d1, (Some info, None)) →
  TerminateContainer order' cm1 d1 (manager.ID info) = (cm2, d2, None) →
  cm2 = cm.
Proof.
  intros Hfresh Hsched Hterm.
  destruct (selectNode (nodes cm) spec rg order None F64.MaxFloat64).1
    as [[k node]|] eqn:Hsel.
  2:{ revert Hsched. unfold Schedule.
      destruct (selectNode _ _ _ _ _ _) as [[[]|] ?]; simpl in *; done. }
  destruct (Schedule_on_selected now containerID order rg cm d spec k node Hsel)
    as (Hk & _ & _ & _ & Hrun).
  rewrite Hrun in Hsched.
  destruct (provisionOn_record _ _ _ _ _ _ _ _ _ _ _ _ Hsched)
    as (_ & _ & _ & Hrec & ->).
  destruct (Hfresh k node Hk) as (Hnew & [Hc Hm] & [Hc' Hm']).
  destruct (cluster_Terminate_done _ _ _ _ _ _ Hterm)
    as (pre & k' & post & node1 & info1 & d0 & _ & _ & Hk' & Hl & _ & _ & ->).
  simpl in Hk'. destruct (decide (k' = k)) as [->|Hne].
  - rewrite lookup_insert_eq in Hk'. injection Hk' as <-. simpl in *.
    rewrite lookup_insert_eq in Hl. injection Hl as <-.
    unfold with_node, terminated; simpl. rewrite insert_insert_eq.
    rewrite Hrec; simpl. rewrite delete_insert_id by done.
    unfold Resources. simpl.
    rewrite Release_Allocate_fresh by done.
    rewrite (Release_record (manager.resources (Manager node)) _ Hc' Hm').
    destruct cm as [ns asg]; simpl in *. f_equal.
    apply insert_id. rewrite Hk. by destruct node as [? []].
  - rewrite lookup_insert_ne in Hk' by done.
    destruct (Hfresh k' node1 Hk') as (Hnone & _). by rewrite Hnone in Hl.
Qed.

End cluster_round_trip.

Section status_lookup.
Import resourcemanager cluster.
Context {D : Type} `{docker.Client D}.

Lemma run_keeps_assignments (s : ClusterManager * D)
    (calls : list history.Call) :
  assignments (history.run s calls).1 = assignments s.1.
Proof.
  revert s. unfold history.run.
  induction calls as [|call calls IH]; intros s; simpl; [done|].
  rewrite IH. destruct call as [now cid order rg spec|order id]; simpl.
  - apply Schedule_keeps_assignments.
  - apply TerminateContainer_keeps_assignments.
Qed.

(** On a cluster built by NewClusterManager, after any sequence of
    Schedule and TerminateContainer calls, whatever the daemon answered,
    GetContainerStatus finds no workload: for every id it returns no
    record and the error "container <id> not found". *)
Theorem GetContainerStatus_never_finds (nodes0 : gmap string Node) (d : D)
    (calls : list history.Call) (id : string) :
  GetContainerStatus (history.run (NewClusterManager nodes0, d) calls).1 id
  = (None, Some ("container " +:+ id +:+ " not found")).
Proof.
  unfold GetContainerStatus. rewrite run_keeps_assignments. simpl.
  by rewrite lookup_empty.
Qed.

End status_lookup.

Section cluster_listing.
Import resourcemanager cluster.

Lemma ListAllContainers_elem (order : list string)
    (inner : string → list string) (cm : ClusterManager)
    (info : manager.ContainerInfo) :
  info ∈ ListAllContainers order inner cm ↔
  ∃ k node,
    k ∈ order ∧ nodes cm !! k = Some node ∧
    info ∈ (manager.ListActiveContainers (inner k) (Manager node)).1.
Proof.
  unfold ListAllContainers.
  assert (∀ acc,
    info ∈ foldl (λ all k,
             match nodes cm !! k with
             | None => all
             | Some node =>
                 all ++ (manager.ListActiveContainers (inner k) (Manager node)).1
             end) acc order ↔
    info ∈ acc ∨
    ∃ k node,
      k ∈ order ∧ nodes cm !! k = Some node ∧
      info ∈ (manager.ListActiveContainers (inner k) (Manager node)).1) as Hacc.
  { induction order as [|k rest IH]; intros acc; simpl.
    - split; [by left|]. intros [?|(? & ? & ?%elem_of_nil & _)]; done.
    - rewrite IH. destruct (nodes cm !! k) as [node|] eqn:Hk.
      + rewrite elem_of_app. split.
        * intros [[?|?]|(k' & node' & ? & ?)]; [by left|..].
          -- right. exists k, node. split; [by left|done].
          -- right. exists k', node'. split; [by right|done].
        * intros [?|(k' & node' & [->|?]%elem_of_cons & Hk' & ?)].
          -- by left; left.
          -- left; right. by assert (node' = node) as -> by congruence.
          -- right. by exists k', node'.
      + split.
        * intros [?|(k' & node' & ? & ?)]; [by left|].
          right. exists k', node'. split; [by right|done].
        * intros [?|(k' & node' & [->|?]%elem_of_cons & Hk' & ?)].
          -- by left.
          -- congruence.
          -- right. by exists k', node'. }
  rewrite Hacc. split; [|by right]. by intros [?%elem_of_nil|?].
Qed.

Lemma ListAllContainers_length (order : list string)
    (inner : string → list string) (cm : ClusterManager) :
  length (ListAllContainers order inner cm)
  = sum_list_with
      (λ k, from_option
              (λ node,
                 length (manager.ListActiveContainers (inner k) (Manager node)).1)
              0%nat (nodes cm !! k))
      order.
Proof.
  unfold ListAllContainers.
  assert (∀ acc,
    length (foldl (λ all k,
             match nodes cm !! k with
             | None => all
             | Some node =>
                 all ++ (manager.ListActiveContainers (inner k) (Manager node)).1
             end) acc order)
    = (length acc
       + sum_list_with
           (λ k, from_option
              (λ node,
                 length (manager.ListActiveContainers (inner k) (Manager node)).1)
              0%nat (nodes cm !! k))
           order)%nat) as Hacc.
  { induction order as [|k rest IH]; intros acc; simpl; [lia|].
    rewrite IH. destruct (nodes cm !! k) as [node|]; simpl;
      [rewrite length_app|]; lia. }
  apply (Hacc []).
Qed.

(** ListAllContainers returns the records of all the nodes, with none
    left out and none made up: a record is in the list if and only if some
    node's manager stores it, and the list is as long as the states of the
    nodes taken together. *)
Theorem ListAllContainers_lists_every_node (order : list string)
    (inner : string → list string) (cm : ClusterManager) :
  range_order order (nodes cm) →
  (∀ k node, nodes cm !! k = Some node →
     range_order (inner k) (manager.state (Manager node))) →
  (∀ info, info ∈ ListAllContainers order inner cm ↔
     ∃ k node id,
       nodes cm !! k = Some node ∧
       manager.state (Manager node) !! id = Some info) ∧
  length (ListAllContainers order inner cm)
  = sum_list_with
      (λ k, from_option (λ node, size (manager.state (Manager node))) 0%nat
              (nodes cm !! k))
      order.
Proof.
  intros [Hnd Hord] Hinner. split.
  - intros info. rewrite ListAllContainers_elem. split.
    + intros (k & node & _ & Hnode & Hinfo).
      destruct (ListActiveContainers_lists_state_aux (inner k) (Manager node)
                  (Hinner k node Hnode)) as (_ & _ & Hmem).
      apply Hmem in Hinfo as [id Hid]. by exists k, node, id.
    + intros (k & node & id & Hnode & Hid). exists k, node.
      split; [apply Hord; eauto|]. split; [done|].
      destruct (ListActiveContainers_lists_state_aux (inner k) (Manager node)
                  (Hinner k node Hnode)) as (_ & _ & Hmem).
      apply Hmem. eauto.
  - rewrite ListAllContainers_length. clear Hnd Hord.
    induction order as [|k rest IH]; cbn [sum_list_with]; [done|].
    rewrite IH. f_equal.
    destruct (nodes cm !! k) as [node|] eqn:Hnode; cbn [from_option]; [|done].
    by destruct (ListActiveContainers_lists_state_aux (inner k) (Manager node)
                   (Hinner k node Hnode)) as (_ & Hlen & _).
Qed.

End cluster_listing.

Section placement_more.
Import resourcemanager cluster.

(** Ties go to the node visited first.  No node passing CanAllocate that
    the loop visited before the node Schedule selects has a score at or
    below the selected one's ([<=] is false: its score is above, or NaN),
    and none visited after it has a score below the selected one's. *)
Theorem selectNode_first_of_the_least (cm : ClusterManager)
    (spec : docker.ContainerSpec) (rg : cpuRanges) (order : list string)
    (k : string) (node : Node) :
  (selectNode (nodes cm) spec rg order None F64.MaxFloat64).1
  = Some (k, node) →
  ∃ pre post,
    order = pre ++ k :: post ∧
    (∀ k' node', k' ∈ pre → nodes cm !! k' = Some node' →
       CanAllocate (inCanAllocate rg k') (Resources node') (request spec)
       = true →
       F64.le (leftover (inAllocatedCPUSum rg k') node' spec)
         (leftover (inAllocatedCPUSum rg k) node spec) = false) ∧
    (∀ k' node', k' ∈ post → nodes cm !! k' = Some node' →
       CanAllocate (inCanAllocate rg k') (Resources node') (request spec)
       = true →
       F64.lt (leftover (inAllocatedCPUSum rg k') node' spec)
         (leftover (inAllocatedCPUSum rg k) node spec) = false).
Proof.
  intros Hk.
  destruct (selectNode (nodes cm) spec rg order None F64.MaxFloat64)
    as [sel min] eqn:Hsel.
  simpl in Hk. subst sel.
  destruct (selectNode_loop _ _ _ _ _ _ _ _ Hsel) as [Hall Hcase].
  destruct Hcase
    as [[[=] _]|(pre & post & k' & node' & -> & [= <- <-] & _ & _ & -> & _
                 & Hpre)].
  exists pre, post. split; [done|]. split; [exact Hpre|].
  intros k' node' Hin. apply Hall. rewrite elem_of_app, elem_of_cons. auto.
Qed.

(** Schedule places the request whenever it can: when some node passes
    CanAllocate with a score below the largest float64, the loop selects
    a node and Schedule does not answer "no node has enough resources". *)
Theorem Schedule_places_when_a_node_fits {D : Type} `{docker.Client D}
    (now : Z) (containerID : string) (order : list string) (rg : cpuRanges)
    (cm : ClusterManager) (d : D) (spec : docker.ContainerSpec)
    (k : string) (node : Node) :
  range_order order (nodes cm) →
  nodes cm !! k = Some node →
  CanAllocate (inCanAllocate rg k) (Resources node) (request spec) = true →
  F64.lt (leftover (inAllocatedCPUSum rg k) node spec) F64.MaxFloat64 = true →
  ∃ k' node',
    (selectNode (nodes cm) spec rg order None F64.MaxFloat64).1
    = Some (k', node') ∧
    Schedule now containerID order rg cm d spec
    = provisionOn now containerID (inAllocate rg) cm d k' node' spec.
Proof.
  intros [_ Hord] Hk Hcan Hlt.
  destruct (selectNode (nodes cm) spec rg order None F64.MaxFloat64).1
    as [[k' node']|] eqn:Hsel.
  - exists k', node'. split; [done|].
    by destruct (Schedule_on_selected now containerID order rg cm d spec
                   k' node' Hsel) as (_ & _ & _ & _ & ?).
  - pose proof (proj1 (selectNode_none_iff _ _ _ _) Hsel k node) as Hno.
    rewrite Hno in Hlt; [done| |done..]. apply Hord. eauto.
Qed.

End placement_more.

(** * The HTTP handlers *)

Section trim_prefix.

Lemma prefix_append (p x : string) : String.prefix p (p +:+ x) = true.
Proof.
  induction p as [|a p IH]; simpl; [by destruct x|].
  destruct (Ascii.ascii_dec a a); [exact IH|done].
Qed.

Lemma substring_all (x : string) : String.substring 0 (String.length x) x = x.
Proof. induction x as [|a x IH]; simpl; [done|]. by rewrite IH. Qed.

Lemma substring_append (p x : string) :
  String.substring (String.length p)
    (String.length (p +:+ x) - String.length p) (p +:+ x) = x.
Proof.
  induction p as [|a p IH]; simpl.
  - rewrite Nat.sub_0_r. apply substring_all.
  - exact IH.
Qed.

(** TrimPrefix removes the prefix a path starts with. *)
Lemma TrimPrefix_append (p x : string) : api.TrimPrefix (p +:+ x) p = x.
Proof.
  unfold api.TrimPrefix. rewrite prefix_append. apply substring_append.
Qed.

End trim_prefix.

Section api_facts.
Import resourcemanager cluster api.
Context {D : Type} `{docker.Client D}.
Variable decode : string → provisionRequest + docker.error.
Variable ParseDuration : string → Z + docker.error.
Variable encodeInfo : option manager.ContainerInfo → string.

(** The status endpoint never returns a record.  On a cluster built by
    NewClusterManager, after any sequence of Schedule and
    TerminateContainer calls, a request to it is answered 405 when the
    method is not GET, 400 when the path carries no id, and otherwise 404
    with "Status lookup failed: container <id> not found". *)
Theorem handleStatus_finds_nothing (nodes0 : gmap string Node) (d : D)
    (calls : list history.Call) (r : Request) :
  let cm := (history.run (NewClusterManager nodes0, d) calls).1 in
  StatusCode (handleStatus encodeInfo cm r) ≠ 200 ∧
  (Method r ≠ "GET"%string →
   handleStatus encodeInfo cm r = httpError "Method not allowed" 405) ∧
  (∀ id, Method r = "GET"%string → Path r = ("/status/" +:+ id)%string →
     handleStatus encodeInfo cm r
     = if decide (id = EmptyString)
       then httpError "Missing container ID" 400
       else httpError
              ("Status lookup failed: container " +:+ id +:+ " not found") 404).
Proof.
  cbv zeta. unfold handleStatus.
  split; [|split].
  - destruct (String.eqb (Method r) "GET"); simpl; [|done].
    destruct (String.eqb _ EmptyString); simpl; [done|].
    unfold GetContainerStatus. rewrite run_keeps_assignments. simpl.
    by rewrite lookup_empty.
  - intros Hm. apply String.eqb_neq in Hm. by rewrite Hm.
  - intros id Hm Hp. rewrite Hm, Hp, TrimPrefix_append. simpl.
    destruct (decide (id = EmptyString)) as [->|Hne]; [done|].
    apply String.eqb_neq in Hne. rewrite Hne.
    unfold GetContainerStatus. rewrite run_keeps_assignments. simpl.
    by rewrite lookup_empty.
Qed.

(** The provisioning endpoint reaches the cluster only for a POST whose
    body decodes and whose ttl parses.  Every other request is answered
    405 or 400 with the cluster and the daemon untouched.  A request that
    reaches Schedule is answered 500 with "Provision failed: " and the
    error when Schedule returns one, and otherwise 200 with the encoding of
    what Schedule returned, the nil record included. *)
Theorem handleProvision_outcomes (rt : Runtime) (cm : ClusterManager) (d : D)
    (r : Request) :
  let out := handleProvision decode ParseDuration encodeInfo rt cm d r in
  (StatusCode out.2 = 405 ∨ StatusCode out.2 = 400 →
   out.1 = (cm, d) ∧
   (Method r ≠ "POST"%string ∨ (∃ e, decode (Body r) = inr e) ∨
    ∃ req e, decode (Body r) = inl req ∧ ParseDuration (TTL req) = inr e)) ∧
  (StatusCode out.2 ≠ 405 → StatusCode out.2 ≠ 400 →
   ∃ req ttl,
     Method r = "POST"%string ∧
     decode (Body r) = inl req ∧ ParseDuration (TTL req) = inl ttl ∧
     let ran :=
       Schedule (now rt) (uuid rt) (nodeOrder rt) (cpuOrders rt) cm d
         {| docker.Image := Image req; docker.Name := Name req;
            docker.CPU := CPU req; docker.Memory := Memory req;
            docker.Command := []; docker.TTL := ttl |} in
     out.1 = ran.1 ∧
     out.2 = match ran.2.2 with
             | Some e => httpError ("Provision failed: " +:+ e) 500
             | None => jsonOK (encodeInfo ran.2.1)
             end).
Proof.
  cbv zeta. unfold handleProvision.
  destruct (String.eqb (Method r) "POST") eqn:Hm; simpl.
  2:{ apply String.eqb_neq in Hm. split; [intros _; split; [done|by left]|].
      intros Hne. by exfalso. }
  apply String.eqb_eq in Hm.
  destruct (decode (Body r)) as [req|e] eqn:Hdec.
  2:{ simpl. split; [intros _; split; [done|right; left; eauto]|].
      intros _ Hne. by exfalso. }
  destruct (ParseDuration (TTL req)) as [ttl|e] eqn:Httl.
  2:{ simpl. split; [intros _; split; [done|right; right; eauto]|].
      intros _ Hne. by exfalso. }
  destruct (Schedule _ _ _ _ _ _ _) as [[cm' d'] [info [e|]]] eqn:Hrun; simpl.
  - split; [by intros [[=]|[=]]|]. intros _ _. exists req, ttl.
    rewrite Hrun. done.
  - split; [by intros [[=]|[=]]|]. intros _ _. exists req, ttl.
    rewrite Hrun. done.
Qed.

(** The termination endpoint.  A request that is not a POST is answered
    405 and one whose path carries no id 400, the cluster and the daemon
    untouched.  A POST for an id is answered 200 "Container terminated"
    when the cluster's TerminateContainer succeeds; when it fails the
    answer is 500 "Terminate failed: container not found", whatever made
    it fail, and the cluster is unchanged. *)
Theorem handleTerminate_outcomes (rt : Runtime) (cm : ClusterManager) (d : D)
    (r : Request) :
  let out := handleTerminate rt cm d r in
  (Method r ≠ "POST"%string →
   out = (cm, d, httpError "Method not allowed" 405)) ∧
  (Method r = "POST"%string → Path r = "/terminate/"%string →
   out = (cm, d, httpError "Missing container ID" 400)) ∧
  (∀ id, Method r = "POST"%string → Path r = ("/terminate/" +:+ id)%string →
     id ≠ EmptyString →
     let ran := TerminateContainer (nodeOrder rt) cm d id in
     out.1 = ran.1 ∧
     (ran.2 = None →
      out.2 = {| StatusCode := 200; ContentType := None;
                 Written := "Container terminated" +:+ newline |}) ∧
     (ran.2 ≠ None →
      out.2 = httpError "Terminate failed: container not found" 500 ∧
      out.1.1 = cm)).
Proof.
  cbv zeta. unfold handleTerminate. split; [|split].
  - intros Hm. apply String.eqb_neq in Hm. by rewrite Hm.
  - intros Hm Hp. by rewrite Hm, Hp.
  - intros id Hm Hp Hne. rewrite Hm, Hp, TrimPrefix_append. simpl.
    apply String.eqb_neq in Hne. rewrite Hne.
    destruct (TerminateContainer (nodeOrder rt) cm d id)
      as [[cm' d'] [e|]] eqn:Hrun; simpl.
    + destruct (TerminateContainer_refused _ _ _ _ _ _ _ Hrun) as (-> & -> & _).
      split; [done|]. split; [done|]. done.
    + split; [done|]. split; [done|]. done.
Qed.

End api_facts.

(** * The theorems above on concrete inputs *)

Section manager_more_witnesses.
Import resourcemanager manager.

Lemma ProvisionContainer_success_witness :
  let out := ProvisionContainer 0 [] [] (NewManager (NewResourceManager 4 8192))
               (scripted.fresh []) examples.nginx in
  ∃ info,
    out.2.1 = Some info ∧ Status info = "running"%string ∧
    GetContainerStatus out.1.1 (ID info) = (Some info, None).
Proof.
  cbv zeta.
  eassert ((ProvisionContainer 0 [] [] (NewManager (NewResourceManager 4 8192))
              (scripted.fresh []) examples.nginx).2.1 = Some _) as Hrun
    by (vm_compute; reflexivity).
  destruct (ProvisionContainer_success 0 [] []
              (NewManager (NewResourceManager 4 8192))
              (scripted.fresh []) examples.nginx) as [_ Hsuccess].
  destruct (Hsuccess _ Hrun) as (_ & _ & _ & Hrec & _ & _ & _ & Hget).
  eexists. split; [exact Hrun|]. split; [|exact Hget].
  rewrite Hrec. reflexivity.
Defined.

Lemma Provision_then_Terminate_witness :
  let m := NewManager (NewResourceManager 4 8192) in
  let ran := ProvisionContainer 0 [] [] m (scripted.fresh []) examples.nginx in
  ledger.unreserved (resources m) "test1" ∧
  state m !! "unit-test1"%string = None ∧
  (TerminateContainer ran.1.1 ran.1.2 "unit-test1").1.1 = m.
Proof.
  cbv zeta.
  assert (ledger.unreserved (resources (NewManager (NewResourceManager 4 8192)))
            "test1") as Hfree by (split; reflexivity).
  split; [exact Hfree|]. split; [reflexivity|].
  eassert (ProvisionContainer 0 [] [] (NewManager (NewResourceManager 4 8192))
             (scripted.fresh []) examples.nginx
           = (_, _, (Some _, None))) as Hprov by (vm_compute; reflexivity).
  rewrite Hprov. cbn [fst snd].
  match goal with
  | |- (TerminateContainer ?m1 ?d1 _).1.1 = _ =>
      eassert (TerminateContainer m1 d1 "unit-test1" = (_, _, None)) as Hterm
        by (vm_compute; reflexivity)
  end.
  rewrite Hterm. cbn [fst snd].
  exact (Provision_then_Terminate 0 [] []
           (NewManager (NewResourceManager 4 8192))
           _ _ (scripted.fresh []) _ _ examples.nginx _ Hfree eq_refl
           Hprov Hterm).
Defined.

Lemma GetContainerStatus_follows_state_witness :
  GetContainerStatus (examples.mgr_web 0) "unit-web"
  = (Some (examples.info_web 0), None) ∧
  GetContainerStatus
    (TerminateContainer (examples.mgr_web 0) (scripted.fresh []) "unit-web").1.1
    "unit-web"
  = (None, Some "container not found"%string).
Proof.
  destruct (GetContainerStatus_follows_state (D := scripted.Daemon)
              (examples.mgr_web 0) "unit-web") as (Hfound & _ & _ & Hgone).
  split; [by apply Hfound|].
  eassert (TerminateContainer (examples.mgr_web 0) (scripted.fresh [])
             "unit-web" = (_, _, None)) as Hterm by (vm_compute; reflexivity).
  rewrite Hterm. cbn [fst snd].
  rewrite (Hgone "unit-web"%string _ _ _ Hterm). reflexivity.
Defined.

Lemma ListActiveContainers_lists_state_witness :
  range_order ["unit-web"%string] (state (examples.mgr_web 0)) ∧
  length (ListActiveContainers ["unit-web"%string] (examples.mgr_web 0)).1
  = 1%nat.
Proof.
  assert (range_order ["unit-web"%string] (state (examples.mgr_web 0)))
    as Hord.
  { apply range_order_dom; [|vm_compute; reflexivity].
    apply (bool_decide_unpack _). vm_compute. exact I. }
  split; [exact Hord|].
  destruct (ListActiveContainers_lists_state _ _ Hord) as (_ & _ & Hlen & _).
  rewrite Hlen. vm_compute. reflexivity.
Defined.

Lemma sweep_without_expired_record_witness :
  cleanupExpiredContainers 5000 ["unit-web"%string] (examples.mgr_web 0)
    (scripted.fresh [scripted.StopPhase])
  = (examples.mgr_web 0, scripted.fresh [scripted.StopPhase], []).
Proof.
  apply sweep_without_expired_record.
  intros id info Hl. unfold examples.mgr_web in Hl. cbn [state] in Hl.
  apply lookup_singleton_Some in Hl as [_ <-]. reflexivity.
Defined.

Lemma sweep_only_removes_witness :
  let out := cleanupExpiredContainers 5000 ["unit-web"%string]
               (examples.mgr_web 1000) (scripted.fresh [scripted.RemovePhase]) in
  range_order ["unit-web"%string] (state (examples.mgr_web 1000)) ∧
  state out.1.1 !! "unit-web"%string = Some (examples.info_web 1000) ∧
  ∃ e, FailedAutoTerminate "unit-web" e ∈ out.2.
Proof.
  cbv zeta.
  assert (range_order ["unit-web"%string] (state (examples.mgr_web 1000)))
    as Hord.
  { apply range_order_dom; [|vm_compute; reflexivity].
    apply (bool_decide_unpack _). vm_compute. exact I. }
  split; [exact Hord|].
  destruct (cleanupExpiredContainers 5000 ["unit-web"%string]
              (examples.mgr_web 1000) (scripted.fresh [scripted.RemovePhase]))
    as [[m' d'] evs] eqn:Hrun.
  destruct (sweep_only_removes _ _ _ _ _ _ _ Hord Hrun) as (_ & _ & _ & Hfail).
  assert (state m' !! "unit-web"%string = Some (examples.info_web 1000)) as Hl.
  { vm_compute in Hrun. injection Hrun as <- _ _. reflexivity. }
  split; [exact Hl|]. apply (Hfail _ _ Hl). reflexivity.
Defined.

End manager_more_witnesses.

Section cluster_more_witnesses.
Import resourcemanager cluster.

Lemma Schedule_success_witness :
  let out := Schedule 0 "c-1" ["node1"%string] examples.no_ranges
               examples.one_node
               (scripted.fresh []) examples.nginx in
  ∃ info,
    out.2.1 = Some info ∧ out.2.2 = None ∧
    manager.Name info = "c-1"%string.
Proof.
  cbv zeta.
  eassert ((Schedule 0 "c-1" ["node1"%string] examples.no_ranges
               examples.one_node
              (scripted.fresh []) examples.nginx).2.1 = Some _) as Hrun
    by (vm_compute; reflexivity).
  destruct (Schedule_success 0 "c-1" ["node1"%string] examples.no_ranges
              examples.one_node (scripted.fresh []) examples.nginx _ Hrun)
    as (Herr & k & node & node' & _ & _ & _ & _ & Hrec & _).
  eexists. split; [exact Hrun|]. split; [exact Herr|].
  rewrite Hrec. reflexivity.
Defined.

Lemma Schedule_then_Terminate_witness :
  let ran := Schedule 0 "c-1" ["node1"%string] examples.no_ranges
               examples.one_node
               (scripted.fresh []) examples.nginx in
  (TerminateContainer ["node1"%string] ran.1.1 ran.1.2 "unit-c-1").1.1
  = examples.one_node.
Proof.
  cbv zeta.
  eassert (Schedule 0 "c-1" ["node1"%string] examples.no_ranges
               examples.one_node
             (scripted.fresh []) examples.nginx
           = (_, _, (Some _, None))) as Hprov by (vm_compute; reflexivity).
  rewrite Hprov. cbn [fst snd].
  match goal with
  | |- (TerminateContainer _ ?cm1 ?d1 _).1.1 = _ =>
      eassert (TerminateContainer ["node1"%string] cm1 d1 "unit-c-1"
               = (_, _, None)) as Hterm by (vm_compute; reflexivity)
  end.
  rewrite Hterm. cbn [fst snd].
  refine (Schedule_then_Terminate 0 "c-1" ["node1"%string] ["node1"%string]
            examples.no_ranges examples.one_node _ _ (scripted.fresh []) _ _
            examples.nginx _ _ Hprov Hterm).
  intros k node Hl.
  unfold examples.one_node, NewClusterManager in Hl. cbn [nodes] in Hl.
  apply lookup_insert_Some in Hl as [[_ <-]|[_ Hl]];
    [|by rewrite lookup_empty in Hl].
  split; [reflexivity|]. split; split; reflexivity.
Defined.

Lemma ListAllContainers_lists_every_node_witness :
  range_order ["node1"%string] (nodes examples.cluster_web) ∧
  length (ListAllContainers ["node1"%string] (λ _, ["unit-web"%string])
            examples.cluster_web) = 1%nat.
Proof.
  assert (range_order ["node1"%string] (nodes examples.cluster_web)) as Hord.
  { apply range_order_dom; [|vm_compute; reflexivity].
    apply (bool_decide_unpack _). vm_compute. exact I. }
  split; [exact Hord|].
  destruct (ListAllContainers_lists_every_node ["node1"%string]
              (λ _, ["unit-web"%string]) examples.cluster_web Hord)
    as [_ Hlen].
  - intros k node Hl.
    unfold examples.cluster_web, NewClusterManager in Hl. cbn [nodes] in Hl.
    apply lookup_insert_Some in Hl as [[_ <-]|[_ Hl]];
      [|by rewrite lookup_empty in Hl].
    apply range_order_dom; [|vm_compute; reflexivity].
    apply (bool_decide_unpack _). vm_compute. exact I.
  - rewrite Hlen. vm_compute. reflexivity.
Defined.

Lemma selectNode_first_of_the_least_witness :
  leftover [] {| ID := "a";
                 Manager := manager.NewManager (NewResourceManager 4 8192) |}
    examples.nginx
  = leftover [] {| ID := "b";
                   Manager := manager.NewManager (NewResourceManager 4 8192) |}
      examples.nginx ∧
  (selectNode (nodes examples.twin_nodes) examples.nginx examples.no_ranges
     ["a"; "b"]%string None F64.MaxFloat64).1
  = Some ("a"%string,
          {| ID := "a";
             Manager := manager.NewManager (NewResourceManager 4 8192) |}) ∧
  (selectNode (nodes examples.twin_nodes) examples.nginx examples.no_ranges
     ["b"; "a"]%string None F64.MaxFloat64).1
  = Some ("b"%string,
          {| ID := "b";
             Manager := manager.NewManager (NewResourceManager 4 8192) |}) ∧
  ∃ pre post, ["a"; "b"]%string = pre ++ "a"%string :: post.
Proof.
  assert ((selectNode (nodes examples.twin_nodes) examples.nginx
             examples.no_ranges ["a"; "b"]%string None F64.MaxFloat64).1
          = Some ("a"%string,
                  {| ID := "a";
                     Manager :=
                       manager.NewManager (NewResourceManager 4 8192) |}))
    as Hsel by (vm_compute; reflexivity).
  split; [vm_compute; reflexivity|].
  split; [exact Hsel|]. split; [vm_compute; reflexivity|].
  destruct (selectNode_first_of_the_least _ _ _ _ _ _ Hsel)
    as (pre & post & Heq & _).
  exists pre, post. exact Heq.
Defined.

Lemma Schedule_places_when_a_node_fits_witness :
  range_order ["node1"; "node2"]%string (nodes examples.two_nodes) ∧
  ∃ k' node',
    (selectNode (nodes examples.two_nodes) examples.nginx examples.no_ranges
       ["node1"; "node2"]%string None F64.MaxFloat64).1 = Some (k', node') ∧
    Schedule 0 "c-1" ["node1"; "node2"]%string examples.no_ranges
      examples.two_nodes (scripted.fresh []) examples.nginx
    = provisionOn 0 "c-1" [] examples.two_nodes (scripted.fresh []) k' node'
        examples.nginx.
Proof.
  assert (range_order ["node1"; "node2"]%string (nodes examples.two_nodes))
    as Hord.
  { apply range_order_dom; [|vm_compute; reflexivity].
    apply (bool_decide_unpack _). vm_compute. exact I. }
  split; [exact Hord|].
  apply (Schedule_places_when_a_node_fits 0 "c-1" ["node1"; "node2"]%string
           examples.no_ranges examples.two_nodes (scripted.fresh [])
           examples.nginx "node2" examples.node2 Hord).
  - vm_compute. reflexivity.
  - vm_compute. reflexivity.
  - vm_compute. reflexivity.
Defined.

End cluster_more_witnesses.

Section api_witnesses.
Import resourcemanager cluster api.

Lemma handleStatus_finds_nothing_witness :
  let ran := history.run (examples.one_node, scripted.fresh [])
               [history.CallSchedule 0 "c-1" ["node1"%string] examples.no_ranges
                  examples.nginx] in
  handleStatus examples.encode1 ran.1
    {| Method := "GET"; Path := "/status/unit-c-1"; Body := EmptyString |}
  = httpError "Status lookup failed: container unit-c-1 not found" 404.
Proof.
  cbv zeta.
  destruct (handleStatus_finds_nothing examples.encode1
              (nodes examples.one_node) (scripted.fresh [])
              [history.CallSchedule 0 "c-1" ["node1"%string] examples.no_ranges
                  examples.nginx]
              {| Method := "GET"; Path := "/status/unit-c-1";
                 Body := EmptyString |})
    as (_ & _ & Hget).
  exact (Hget "unit-c-1"%string eq_refl eq_refl).
Defined.

Lemma handleProvision_outcomes_witness :
  let r := {| Method := "POST"; Path := "/provision";
              Body := "nginx for ten minutes" |} in
  let out := handleProvision examples.decode1 examples.parse1
               examples.encode1 examples.runtime1 examples.one_node
               (scripted.fresh []) r in
  StatusCode out.2 ≠ 405 ∧ StatusCode out.2 ≠ 400 ∧
  out.1 = (Schedule 0 "c-1" ["node1"%string] examples.no_ranges
               examples.one_node
             (scripted.fresh []) examples.nginx).1.
Proof.
  cbv zeta.
  match goal with
  | |- ?A ∧ ?B ∧ _ =>
      assert A as Hne1 by (intros Heq; vm_compute in Heq; discriminate);
      assert B as Hne2 by (intros Heq; vm_compute in Heq; discriminate)
  end.
  split; [exact Hne1|]. split; [exact Hne2|].
  destruct (handleProvision_outcomes examples.decode1 examples.parse1
              examples.encode1 examples.runtime1 examples.one_node
              (scripted.fresh [])
              {| Method := "POST"; Path := "/provision";
                 Body := "nginx for ten minutes" |}) as [_ Hrun].
  destruct (Hrun Hne1 Hne2) as (req & ttl & _ & Hdec & Hparse & Hout & _).
  vm_compute in Hdec. injection Hdec as <-.
  vm_compute in Hparse. injection Hparse as <-.
  exact Hout.
Defined.

Lemma handleTerminate_outcomes_witness :
  (handleTerminate examples.runtime1 examples.cluster_web (scripted.fresh [])
     {| Method := "POST"; Path := "/terminate/unit-web";
        Body := EmptyString |}).2
  = {| StatusCode := 200; ContentType := None;
       Written := "Container terminated" +:+ newline |}.
Proof.
  destruct (handleTerminate_outcomes examples.runtime1 examples.cluster_web
              (scripted.fresh [])
              {| Method := "POST"; Path := "/terminate/unit-web";
                 Body := EmptyString |}) as (_ & _ & Hid).
  destruct (Hid "unit-web"%string eq_refl eq_refl) as (_ & Hok & _);
    [discriminate|].
  apply Hok. vm_compute. reflexivity.
Defined.

End api_witnesses.
